(** * vision_care: the product catalogue client and its serverless handler

    A shallow embedding of

    - [src/src/api/productApi.js]: the endpoint resolver ([getApiBaseUrl]),
      the request helper ([apiRequest]), the localStorage backup
      ([getStoredProducts], [saveProductsBackup]) and the catalogue
      operations of [productApi];
    - [src/api/products.js]: the verb-dispatched handler over the
      relational store ([handler], [handleGet], [handlePost], [handlePut],
      [handleDelete]).

    JavaScript values are a small inductive type, exceptions are the left
    summand of a result, and the browser (localStorage, network) and the
    database are explicit states threaded through a state-and-exception
    monad in which, as in JavaScript, the effects made before a throw stay
    made. *)

From Stdlib Require Import String Ascii List ZArith Bool Lia DecimalString.
From Stdlib Require Import DecimalPos Sorting.Sorted Sorting.Permutation.
Import ListNotations.
Open Scope string_scope.
Open Scope Z_scope.
Set Warnings "-register-all".

(* ===================================================================== *)
(** ** JavaScript values *)
(* ===================================================================== *)

Module Js.

(** Numbers are integers here: the code computes only with ids, array
    positions and HTTP statuses; [VNum n] is a JavaScript number when [n]
    is a double.  A string is the sequence of bytes of its UTF-8 text.  An
    object is its list of own fields, in order; the first binding of a key
    is the one that counts. *)
Inductive value : Type :=
| VUndefined
| VNull
| VBool (b : bool)
| VNum (n : Z)
| VStr (s : string)
| VArr (items : list value)
| VObj (fields : list (string * value)).

(** An [Error] object: its [name] and its [message]. *)
Record Error : Type := mkError { name : string; message : string }.

Definition result (A : Type) : Type := (Error + A)%type.

Definition rbind {A B} (r : result A) (k : A -> result B) : result B :=
  match r with
  | inl e => inl e
  | inr a => k a
  end.

(** [ToBoolean]. *)
Definition truthy (v : value) : bool :=
  match v with
  | VUndefined | VNull => false
  | VBool b => b
  | VNum n => negb (n =? 0)
  | VStr s => negb (s =? EmptyString)%string
  | VArr _ | VObj _ => true
  end.

(** [a && b]: [b] is evaluated only when [a] is truthy. *)
Definition js_and (a b : result value) : result value :=
  rbind a (fun x => if truthy x then b else inr x).

Definition nullish (v : value) : bool :=
  match v with VUndefined | VNull => true | _ => false end.

Definition isArray (v : value) : bool :=
  match v with VArr _ => true | _ => false end.

Definition dec (z : Z) : string := NilZero.string_of_int (Z.to_int z).

(** *** Numbers *)

(** A number that a computation returns: [NaN], an infinity or an
    integer. *)
Inductive number : Type :=
| NaN
| Infinity (negative : bool)
| Finite (n : Z).

(** The double nearest to the integer [x], for [0 <= x]: an integer below
    2^53 is a double; above, a double has 53 significant bits, and of two
    doubles equally near the one with the even significand is taken.  A
    result of 2^1024 or more is an overflow. *)
Definition nearest_double (x : Z) : Z :=
  if x <? 2 ^ 53 then x
  else
    let e := Z.log2 x - 52 in
    let q := Z.shiftr x e in
    let r := x - Z.shiftl q e in
    let half := Z.shiftl 1 (e - 1) in
    let q' := if (half <? r) || ((r =? half) && Z.odd q) then q + 1 else q in
    Z.shiftl q' e.

(** The Number value for the integer [x]. *)
Definition to_number (x : Z) : number :=
  let m := nearest_double (Z.abs x) in
  if 2 ^ 1024 <=? m then Infinity (x <? 0) else Finite (Z.sgn x * m).

(** The decimal with the fewest significant digits that reads back as the
    double [x], tried from one significant digit on ([p] is the number of
    digits left out); of two such decimals the nearer to [x] is taken, and
    of two equally near the one with the even last digit. *)
Fixpoint shortest (p : nat) (x : Z) : Z :=
  let scale := 10 ^ Z.of_nat p in
  let lo := (x / scale) * scale in
  let hi := lo + scale in
  match nearest_double lo =? x, nearest_double hi =? x with
  | true, true =>
      if x - lo <? hi - x then lo
      else if hi - x <? x - lo then hi
      else if Z.even (x / scale) then lo else hi
  | true, false => lo
  | false, true => hi
  | false, false => match p with O => x | S p' => shortest p' x end
  end.

Fixpoint strip_zeros (reversed : string) : string :=
  match reversed with
  | String "0" rest => strip_zeros rest
  | _ => reversed
  end.

Fixpoint rev_string (s acc : string) : string :=
  match s with
  | EmptyString => acc
  | String c rest => rev_string rest (String c acc)
  end.

(** The digits of a decimal without its final zeros. *)
Definition significant (digits : string) : string :=
  rev_string (strip_zeros (rev_string digits EmptyString)) EmptyString.

(** [String(x)] for an integer [x]: its digits below 2^53; from there on
    the digits of the shortest decimal that reads back as [x], followed by
    zeros up to 21 digits, and in exponent notation beyond. *)
Definition number_text (x : Z) : string :=
  let a := Z.abs x in
  let sign := if x <? 0 then "-" else EmptyString in
  if a <? 2 ^ 53 then dec x
  else
    let c := dec (shortest (String.length (dec a) - 1) a) in
    if Nat.leb (String.length c) 21 then sign ++ c
    else
      let exponent := "e+" ++ dec (Z.of_nat (String.length c - 1)) in
      match significant c with
      | String d EmptyString => sign ++ String d exponent
      | String d rest => sign ++ String d ("." ++ rest ++ exponent)
      | EmptyString => sign ++ c
      end.

Fixpoint join (sep : string) (l : list string) : string :=
  match l with
  | [] => EmptyString
  | [s] => s
  | s :: rest => s ++ sep ++ join sep rest
  end.

(** [String(v)], the conversion a template literal and [new Error(v)]
    apply. *)
Fixpoint to_string (v : value) : string :=
  match v with
  | VUndefined => "undefined"
  | VNull => "null"
  | VBool true => "true"
  | VBool false => "false"
  | VNum n => number_text n
  | VStr s => s
  | VArr items =>
      join "," (map (fun x => if nullish x then EmptyString else to_string x) items)
  | VObj _ => "[object Object]"
  end.

Fixpoint lookup (k : string) (fields : list (string * value)) : option value :=
  match fields with
  | [] => None
  | (k', v) :: rest => if (k' =? k)%string then Some v else lookup k rest
  end.

(** [{...fields, k: v}]: the key keeps its place when it is there already
    and is appended otherwise. *)
Fixpoint set_field (k : string) (v : value) (fields : list (string * value))
  : list (string * value) :=
  match fields with
  | [] => [(k, v)]
  | (k', v') :: rest =>
      if (k' =? k)%string then (k, v) :: rest
      else (k', v') :: set_field k v rest
  end.

Definition TypeError (msg : string) : Error := mkError "TypeError" msg.

(** The number of UTF-16 code units of a string: one for each character,
    two for a character of four bytes. *)
Fixpoint code_units (s : string) : nat :=
  match s with
  | EmptyString => 0
  | String c rest =>
      let b := nat_of_ascii c in
      ((if Nat.ltb b 128 then 1
        else if Nat.ltb b 192 then 0
        else if Nat.ltb b 240 then 1
        else 2) + code_units rest)%nat
  end.

(** Property read [v.k].  Reading a property of [null] or [undefined]
    throws; arrays and strings have a [length]; every other read of a key
    that is not an own field is [undefined]. *)
Definition get (v : value) (k : string) : result value :=
  match v with
  | VUndefined =>
      inl (TypeError ("Cannot read properties of undefined (reading '" ++ k ++ "')"))
  | VNull =>
      inl (TypeError ("Cannot read properties of null (reading '" ++ k ++ "')"))
  | VObj fields =>
      inr (match lookup k fields with Some x => x | None => VUndefined end)
  | VArr items =>
      inr (if (k =? "length")%string then VNum (Z.of_nat (List.length items))
           else VUndefined)
  | VStr s =>
      inr (if (k =? "length")%string then VNum (Z.of_nat (code_units s))
           else VUndefined)
  | VBool _ | VNum _ => inr VUndefined
  end.

(** [String.prototype.includes]. *)
Fixpoint includes (s sub : string) : bool :=
  if prefix sub s then true
  else match s with
       | EmptyString => false
       | String _ rest => includes rest sub
       end.

Definition is_digit (c : ascii) : bool :=
  let n := nat_of_ascii c in andb (Nat.leb 48 n) (Nat.leb n 57).

Fixpoint all_digits (s : string) : bool :=
  match s with
  | EmptyString => true
  | String c rest => is_digit c && all_digits rest
  end.

(** *** parseInt *)

(** The white space and line terminators of one byte: U+0009 to U+000D
    and U+0020. *)
Definition is_space (c : ascii) : bool :=
  let n := nat_of_ascii c in
  orb (Nat.eqb n 32) (andb (Nat.leb 9 n) (Nat.leb n 13)).

(** The first byte of a white space of several bytes. *)
Definition starts_wide_space (c : ascii) : bool :=
  let n := nat_of_ascii c in
  orb (Nat.eqb n 194)
      (orb (Nat.eqb n 225)
           (orb (Nat.eqb n 226) (orb (Nat.eqb n 227) (Nat.eqb n 239)))).

(** U+00A0. *)
Definition space_of_two (c1 c2 : ascii) : bool :=
  andb (Nat.eqb (nat_of_ascii c1) 194) (Nat.eqb (nat_of_ascii c2) 160).

(** U+1680, U+2000 to U+200A, U+2028, U+2029, U+202F, U+205F, U+3000 and
    U+FEFF. *)
Definition space_of_three (c1 c2 c3 : ascii) : bool :=
  let n1 := nat_of_ascii c1 in
  let n2 := nat_of_ascii c2 in
  let n3 := nat_of_ascii c3 in
  if Nat.eqb n1 225 then andb (Nat.eqb n2 154) (Nat.eqb n3 128)
  else if Nat.eqb n1 226 then
    orb (andb (Nat.eqb n2 128)
              (orb (andb (Nat.leb 128 n3) (Nat.leb n3 138))
                   (orb (Nat.eqb n3 168) (orb (Nat.eqb n3 169) (Nat.eqb n3 175)))))
        (andb (Nat.eqb n2 129) (Nat.eqb n3 159))
  else if Nat.eqb n1 227 then andb (Nat.eqb n2 128) (Nat.eqb n3 128)
  else if Nat.eqb n1 239 then andb (Nat.eqb n2 187) (Nat.eqb n3 191)
  else false.

(** The string without the white space and line terminators it starts
    with. *)
Fixpoint trim_start (s : string) : string :=
  match s with
  | String c rest =>
      if is_space c then trim_start rest
      else if starts_wide_space c then
        match rest with
        | String c2 rest2 =>
            if space_of_two c c2 then trim_start rest2
            else match rest2 with
                 | String c3 rest3 =>
                     if space_of_three c c2 c3 then trim_start rest3 else s
                 | EmptyString => s
                 end
        | EmptyString => s
        end
      else s
  | EmptyString => s
  end.

Definition digit_value (c : ascii) : option Z :=
  let n := nat_of_ascii c in
  if andb (Nat.leb 48 n) (Nat.leb n 57) then Some (Z.of_nat (n - 48))
  else if andb (Nat.leb 97 n) (Nat.leb n 122) then Some (Z.of_nat (n - 87))
  else if andb (Nat.leb 65 n) (Nat.leb n 90) then Some (Z.of_nat (n - 55))
  else None.

(** The longest prefix of digits of the radix, read left to right; [None]
    when there is no digit at all. *)
Fixpoint digits (radix : Z) (acc : option Z) (s : string) : option Z :=
  match s with
  | EmptyString => acc
  | String c rest =>
      match digit_value c with
      | Some d =>
          if d <? radix
          then digits radix
                 (Some (match acc with Some a => a * radix + d | None => d end))
                 rest
          else acc
      | None => acc
      end
  end.

(** [parseInt(s)] with no radix argument: leading white space, a sign, a
    [0x] prefix for hexadecimal, then the digits; the result is the Number
    value for the integer read, and [NaN] when there is no digit.  (For
    more than twenty decimal digits the language lets an engine read the
    digits after the twentieth as zeros; V8 reads them all.) *)
Definition parseInt_string (s : string) : number :=
  let s1 := trim_start s in
  let '(sign, s2) :=
    match s1 with
    | String "-" rest => (-1, rest)
    | String "+" rest => (1, rest)
    | _ => (1, s1)
    end in
  let '(radix, s3) :=
    match s2 with
    | String "0" (String "x" rest) => (16, rest)
    | String "0" (String "X" rest) => (16, rest)
    | _ => (10, s2)
    end in
  match digits radix None s3 with
  | Some m => to_number (sign * m)
  | None => NaN
  end.

Definition parseInt (v : value) : number := parseInt_string (to_string v).

(** The number a run of decimal digits stands for, read left to right
    from an accumulator. *)
Fixpoint horner (acc : Z) (u : Decimal.uint) : Z :=
  match u with
  | Decimal.Nil => acc
  | Decimal.D0 l => horner (10 * acc) l
  | Decimal.D1 l => horner (10 * acc + 1) l
  | Decimal.D2 l => horner (10 * acc + 2) l
  | Decimal.D3 l => horner (10 * acc + 3) l
  | Decimal.D4 l => horner (10 * acc + 4) l
  | Decimal.D5 l => horner (10 * acc + 5) l
  | Decimal.D6 l => horner (10 * acc + 6) l
  | Decimal.D7 l => horner (10 * acc + 7) l
  | Decimal.D8 l => horner (10 * acc + 8) l
  | Decimal.D9 l => horner (10 * acc + 9) l
  end.

(** [v === n] for a number [n] that may be [NaN]. *)
Definition strict_eq_number (v : value) (n : option Z) : bool :=
  match v, n with
  | VNum a, Some b => a =? b
  | _, _ => false
  end.

(** [v === x] for the result [x] of a computation: [NaN] and the
    infinities equal no integer. *)
Definition strictly_equal (v : value) (x : number) : bool :=
  match v, x with
  | VNum a, Finite b => a =? b
  | _, _ => false
  end.

End Js.

(* ===================================================================== *)
(** ** Effects: state, and exceptions that keep the state *)
(* ===================================================================== *)

Module Eff.
Import Js.

Definition M (W A : Type) : Type := W -> result A * W.

Definition ret {W A} (a : A) : M W A := fun w => (inr a, w).

Definition throw {W A} (e : Error) : M W A := fun w => (inl e, w).

Definition bind {W A B} (m : M W A) (k : A -> M W B) : M W B :=
  fun w =>
    match m w with
    | (inr a, w') => k a w'
    | (inl e, w') => (inl e, w')
    end.

(** [try { m } catch (e) { handler e }]. *)
Definition try_catch {W A} (m : M W A) (handler : Error -> M W A) : M W A :=
  fun w =>
    match m w with
    | (inr a, w') => (inr a, w')
    | (inl e, w') => handler e w'
    end.

(** A pure computation that may throw. *)
Definition lift {W A} (r : result A) : M W A := fun w => (r, w).

End Eff.

Declare Scope eff_scope.
Delimit Scope eff_scope with eff.
Notation "x <- m ;; k" := (Eff.bind m (fun x => k))
  (at level 100, m at next level, right associativity) : eff_scope.
Notation "m ;;; k" := (Eff.bind m (fun _ => k))
  (at level 100, right associativity) : eff_scope.

(* ===================================================================== *)
(** ** The client: src/src/api/productApi.js *)
(* ===================================================================== *)

Module Client.
Import Js Eff.
Local Open Scope eff_scope.

(** *** Endpoint resolver *)

(** What [getApiBaseUrl] reads from its surroundings:
    [process.env.REACT_APP_PRODUCTS_API_URL] ([None] when unset) and
    [window.location.hostname]. *)
Record Env : Type := mkEnv {
  REACT_APP_PRODUCTS_API_URL : option string;
  hostname : string
}.

Fixpoint skip_digits (s : string) : string :=
  match s with
  | String c rest => if is_digit c then skip_digits rest else s
  | EmptyString => s
  end.

(** [\d+] at the head of [s]: what is left after the digits. *)
Definition digits1 (s : string) : option string :=
  match s with
  | String c rest => if is_digit c then Some (skip_digits rest) else None
  | EmptyString => None
  end.

(** [\.] at the head of [s]. *)
Definition dot (s : string) : option string :=
  match s with
  | String "." rest => Some rest
  | _ => None
  end.

Definition andThen {A B} (o : option A) (f : A -> option B) : option B :=
  match o with Some a => f a | None => None end.

(** [hostname.match(/^\d+\.\d+\.\d+\.\d+$/)] is not null. *)
Definition matches_ipv4 (h : string) : bool :=
  match
    andThen (digits1 h) (fun s1 => andThen (dot s1) (fun s2 =>
    andThen (digits1 s2) (fun s3 => andThen (dot s3) (fun s4 =>
    andThen (digits1 s4) (fun s5 => andThen (dot s5) (fun s6 =>
    digits1 s6))))))
  with
  | Some EmptyString => true
  | _ => false
  end.

Definition truthy_string (o : option string) : bool :=
  match o with
  | Some s => negb (s =? EmptyString)%string
  | None => false
  end.

Definition isDeployedEnvironment (h : string) : bool :=
  negb (includes h "localhost") && negb (includes h "127.0.0.1")
  && negb (matches_ipv4 h).

(** [getApiBaseUrl]; [None] is the [null] of local-only mode. *)
Definition getApiBaseUrl (env : Env) : option string :=
  if truthy_string (REACT_APP_PRODUCTS_API_URL env)
  then REACT_APP_PRODUCTS_API_URL env
  else
    let h := hostname env in
    if isDeployedEnvironment h then None
    else if negb (h =? "localhost")%string && negb (h =? "127.0.0.1")%string
    then Some ("http://" ++ h ++ ":5004/api")
    else Some "http://localhost:5004/api".

(** The string does not start with a digit. *)
Definition no_digit_ahead (s : string) : Prop :=
  match s with
  | String c _ => is_digit c = false
  | EmptyString => True
  end.

(** A non-empty run of decimal digits. *)
Definition digit_run (s : string) : Prop :=
  s <> EmptyString /\ all_digits s = true.

(** A bare IPv4 literal: four digit runs separated by dots. *)
Definition bare_ipv4 (h : string) : Prop :=
  exists a b c d,
    digit_run a /\ digit_run b /\ digit_run c /\ digit_run d
    /\ h = a ++ "." ++ b ++ "." ++ c ++ "." ++ d.

(** The host name contains one of the loopback names. *)
Definition contains_loopback_name (h : string) : bool :=
  includes h "localhost" || includes h "127.0.0.1".

(** No override address is configured. *)
Definition no_override (e : Env) : Prop :=
  truthy_string (REACT_APP_PRODUCTS_API_URL e) = false.

(** *** The platform around the module *)

(** What the module takes from outside the repository: the environment it
    is loaded in, the [JSON] built-ins ([JSON.parse] throws on malformed
    text; [JSON.stringify] gives [undefined], here [None], for a value with
    no JSON text) and the bundled [sampleProducts] of
    [../utils/addSampleProducts], an array of product objects. *)
Class Platform : Type := {
  env : Env;
  JSON_parse : string -> result value;
  JSON_stringify : value -> option string;
  sampleProducts : list (list (string * value))
}.

Record Request : Type := mkRequest {
  url : string;
  method : option string;
  headers : list (string * string);
  body : option string
}.

(** A response received: [response.ok] is read off the status, and [json]
    is what [response.json()] resolves to, or the error it rejects with. *)
Record Response : Type := mkResponse {
  status : Z;
  statusText : string;
  json : result value
}.

Definition ok (r : Response) : bool :=
  (200 <=? status r) && (status r <=? 299).

(** What [fetch] does with a request: it rejects (no response was
    received) or resolves to a response. *)
Inductive FetchOutcome : Type :=
| Rejects (e : Error)
| Resolves (r : Response).

(** The browser: the one localStorage slot the module uses, whether the
    storage refuses reads or a given write, how the network answers a
    request given the requests sent before it, and the requests sent so
    far, oldest first. *)
Record World : Type := mkWorld {
  ls_item : option string;
  ls_read_fails : bool;
  ls_write_fails : string -> bool;
  net : list Request -> Request -> FetchOutcome;
  sent : list Request
}.

Definition fetch (r : Request) : M World Response := fun w =>
  let w' := mkWorld (ls_item w) (ls_read_fails w) (ls_write_fails w)
                    (net w) (sent w ++ [r])%list in
  match net w (sent w) r with
  | Rejects e => (inl e, w')
  | Resolves resp => (inr resp, w')
  end.

(** [localStorage.getItem('eyewear_products_backup')]; [None] is [null]. *)
Definition localStorage_getItem : M World (option string) := fun w =>
  if ls_read_fails w
  then (inl (mkError "SecurityError" "The operation is insecure."), w)
  else (inr (ls_item w), w).

(** [localStorage.setItem('eyewear_products_backup', text)]; an
    [undefined] text is stored as the string "undefined". *)
Definition localStorage_setItem (text : option string) : M World unit := fun w =>
  let s := match text with Some s => s | None => "undefined" end in
  if ls_write_fails w s
  then (inl (mkError "QuotaExceededError" "The quota has been exceeded."), w)
  else (inr tt, mkWorld (Some s) (ls_read_fails w) (ls_write_fails w)
                        (net w) (sent w)).

(** The same browser behind another network. *)
Definition with_net (w : World) (n : list Request -> Request -> FetchOutcome)
  : World :=
  mkWorld (ls_item w) (ls_read_fails w) (ls_write_fails w) n (sent w).

Section Module_productApi.
Context {P : Platform}.

(** [const API_BASE_URL = getApiBaseUrl();] *)
Definition API_BASE_URL : option string := getApiBaseUrl env.

(** *** Remote request executor *)

(** The chain of tests at the end of [apiRequest]'s [try] block. *)
Definition normalize (data : value) : result value :=
  rbind (js_and (get data "success") (get data "products")) (fun c1 =>
  if truthy c1 then get data "products"
  else
    rbind (js_and (get data "success") (get data "product")) (fun c2 =>
    if truthy c2 then get data "product"
    else if isArray data then inr data
    else inr data)).

Definition apiRequest (endpoint : string) (method : option string)
           (body : option string) : M World value :=
  match API_BASE_URL with
  | Some base =>
      if (base =? EmptyString)%string
      then throw (mkError "Error" "No API URL configured - using localStorage")
      else
        let url := base ++ endpoint in
        try_catch
          (response <-
             fetch (mkRequest url method
                              [("Content-Type", "application/json")] body) ;;
           if negb (ok response) then
             errorData <-
               ret (match json response with
                    | inr v => v
                    | inl _ => VObj []
                    end) ;;
             error <- lift (get errorData "error") ;;
             let errorMessage :=
               if truthy error then error
               else VStr ("HTTP " ++ dec (status response) ++ ": "
                          ++ statusText response) in
             throw (mkError "Error" (to_string errorMessage))
           else
             data <- lift (json response) ;;
             lift (normalize data))
          (fun error => throw error)
  | None => throw (mkError "Error" "No API URL configured - using localStorage")
  end.

(** *** Local backup store *)

Fixpoint with_ids (index : Z) (products : list (list (string * value)))
  : list value :=
  match products with
  | [] => []
  | product :: rest =>
      VObj (set_field "id" (VNum (index + 1)) product)
      :: with_ids (index + 1) rest
  end.

(** [sampleProducts.map((product, index) => ({...product, id: index + 1}))] *)
Definition seeded : value := VArr (with_ids 0 sampleProducts).

Definition getStoredProducts : M World value :=
  try_catch
    (stored <- localStorage_getItem ;;
     match stored with
     | Some text =>
         if truthy (VStr text) then lift (JSON_parse text) else ret seeded
     | None => ret seeded
     end)
    (fun _ => ret seeded).

Definition saveProductsBackup (products : value) : M World unit :=
  try_catch
    (localStorage_setItem (JSON_stringify products))
    (fun _ => ret tt).

(** *** Catalogue operations *)

(** Local-only mode is [!API_BASE_URL]. *)
Definition local_only : bool := negb (truthy_string API_BASE_URL).

(** The log lines of [getAllProducts] read [products.length]; the read is
    kept because it throws on [null]. *)
Definition getAllProducts : M World value :=
  if local_only then
    products <- getStoredProducts ;;
    _ <- lift (get products "length") ;;
    ret products
  else
    try_catch
      (products <- apiRequest "/products" None None ;;
       _ <- lift (get products "length") ;;
       saveProductsBackup products ;;;
       ret products)
      (fun _ =>
         backupProducts <- getStoredProducts ;;
         _ <- lift (get backupProducts "length") ;;
         ret backupProducts).

Definition not_a_function (what : string) : Error :=
  TypeError (what ++ " is not a function").

(** [items.find(p => p.id === n)]: the first match, [undefined] when
    there is none; the read [p.id] throws on a [null] element. *)
Fixpoint find_by_id (n : number) (items : list value) : result value :=
  match items with
  | [] => inr VUndefined
  | p :: rest =>
      match get p "id" with
      | inl e => inl e
      | inr i => if strictly_equal i n then inr p else find_by_id n rest
      end
  end.

(** [products.find(...)] on whatever the backup holds: the method is
    there on arrays only. *)
Definition find (products : value) (n : number) : result value :=
  rbind (get products "find") (fun _ =>
  match products with
  | VArr items => find_by_id n items
  | _ => inl (not_a_function "products.find")
  end).

Definition getProductById (id : value) : M World value :=
  try_catch
    (apiRequest ("/products/" ++ to_string id) None None)
    (fun _ =>
       products <- getStoredProducts ;;
       product <- lift (find products (parseInt id)) ;;
       if negb (truthy product)
       then throw (mkError "Error"
                     ("Product with ID " ++ to_string id ++ " not found"))
       else ret product).

(** The backup refresh after a successful mutation, in its own [try]. *)
Definition refresh_backup : M World unit :=
  try_catch
    (products <- getAllProducts ;;
     saveProductsBackup products)
    (fun _ => ret tt).

Definition createProduct (productData : value) : M World value :=
  try_catch
    (newProduct <-
       apiRequest "/products" (Some "POST") (JSON_stringify productData) ;;
     refresh_backup ;;;
     ret newProduct)
    (fun error =>
       throw (mkError "Error" ("Failed to create product: " ++ message error))).

Definition updateProduct (id : value) (productData : value) : M World value :=
  try_catch
    (updatedProduct <-
       apiRequest ("/products/" ++ to_string id) (Some "PUT")
                  (JSON_stringify productData) ;;
     refresh_backup ;;;
     ret updatedProduct)
    (fun error =>
       throw (mkError "Error" ("Failed to update product: " ++ message error))).

Definition deleteProduct (id : value) : M World value :=
  try_catch
    (result <- apiRequest ("/products/" ++ to_string id) (Some "DELETE") None ;;
     refresh_backup ;;;
     ret result)
    (fun error =>
       throw (mkError "Error" ("Failed to delete product: " ++ message error))).

(** [testConnection]: a probe of [${API_BASE_URL}/health] that answers
    with a boolean and never throws. *)
Definition testConnection : M World bool :=
  if local_only then ret false
  else
    try_catch
      (response <-
         fetch (mkRequest
                  (match API_BASE_URL with
                   | Some base => base
                   | None => "null"
                   end ++ "/health")
                  None [] None) ;;
       if ok response then ret true else ret false)
      (fun _ => ret false).

End Module_productApi.

End Client.

(* ===================================================================== *)
(** ** The client without the resolver: the second productApi.js *)
(* ===================================================================== *)

(** The second module kept under the same file name (lines 290 to 469 of
    src/src/api/productApi.js): the base address is the override or the
    fixed default, [apiRequest] returns the parsed body as it is, and
    [getAllProducts] logs nothing about its result.  The backup functions
    are, line for line, those of the first module. *)
Module BasicClient.
Import Js Eff Client.
Local Open Scope eff_scope.

Section Module_productApi.
Context {P : Platform}.

(** [process.env.REACT_APP_PRODUCTS_API_URL || 'http://localhost:5004/api'] *)
Definition API_BASE_URL : string :=
  if truthy_string (REACT_APP_PRODUCTS_API_URL env)
  then match REACT_APP_PRODUCTS_API_URL env with
       | Some u => u
       | None => "http://localhost:5004/api"
       end
  else "http://localhost:5004/api".

Definition apiRequest (endpoint : string) (method : option string)
           (body : option string) : M World value :=
  let url := API_BASE_URL ++ endpoint in
  try_catch
    (response <-
       fetch (mkRequest url method [("Content-Type", "application/json")] body) ;;
     if negb (ok response) then
       errorData <-
         ret (match json response with
              | inr v => v
              | inl _ => VObj []
              end) ;;
       error <- lift (get errorData "error") ;;
       let errorMessage :=
         if truthy error then error
         else VStr ("HTTP " ++ dec (status response) ++ ": "
                    ++ statusText response) in
       throw (mkError "Error" (to_string errorMessage))
     else
       data <- lift (json response) ;;
       ret data)
    (fun error => throw error).

Definition getAllProducts : M World value :=
  try_catch
    (products <- apiRequest "/products" None None ;;
     saveProductsBackup products ;;;
     ret products)
    (fun _ => getStoredProducts).

Definition getProductById (id : value) : M World value :=
  try_catch
    (apiRequest ("/products/" ++ to_string id) None None)
    (fun _ =>
       products <- getStoredProducts ;;
       product <- lift (find products (parseInt id)) ;;
       if negb (truthy product)
       then throw (mkError "Error"
                     ("Product with ID " ++ to_string id ++ " not found"))
       else ret product).

Definition refresh_backup : M World unit :=
  try_catch
    (products <- getAllProducts ;;
     saveProductsBackup products)
    (fun _ => ret tt).

Definition createProduct (productData : value) : M World value :=
  try_catch
    (newProduct <-
       apiRequest "/products" (Some "POST") (JSON_stringify productData) ;;
     refresh_backup ;;;
     ret newProduct)
    (fun error =>
       throw (mkError "Error" ("Failed to create product: " ++ message error))).

Definition updateProduct (id : value) (productData : value) : M World value :=
  try_catch
    (updatedProduct <-
       apiRequest ("/products/" ++ to_string id) (Some "PUT")
                  (JSON_stringify productData) ;;
     refresh_backup ;;;
     ret updatedProduct)
    (fun error =>
       throw (mkError "Error" ("Failed to update product: " ++ message error))).

Definition deleteProduct (id : value) : M World value :=
  try_catch
    (result <- apiRequest ("/products/" ++ to_string id) (Some "DELETE") None ;;
     refresh_backup ;;;
     ret result)
    (fun error =>
       throw (mkError "Error" ("Failed to delete product: " ++ message error))).

End Module_productApi.

End BasicClient.

(* ===================================================================== *)
(** ** The server: src/api/products.js *)
(* ===================================================================== *)

Module Server.
Import Js Eff.
Local Open Scope eff_scope.

(** *** The relational store *)

(** The statements the handler sends, one constructor per statement text
    of the source, carrying the values bound to its placeholders. *)
Inductive Statement : Type :=
| CreateProductsTable
| AlterAddColumn (column : string) (default : value)
| CreateCommentsTable
| SelectById (id : value)
| SelectSearch (pattern : string)
| SelectCategory (pattern : string)
| SelectAll
| Insert (values : list (string * value))
| Update (values : list (string * value)) (id : value)
| Delete (id : value).

Definition Row : Type := list (string * value).

Record Table : Type := mkTable {
  columns : list string;
  rows : list Row
}.

(** Modelled from the spec: the relational store behind [sql] (the Neon
    driver and the database are outside the repository; the spec takes
    them as an opaque store reached through parameterised statements).
    The state is the products table when it exists, whether the comments
    table exists, the next serial id and the clock of [NOW()], together
    with the statements sent so far and an oracle telling which statement
    the store refuses, by position and text: a lost connection is such a
    refusal, and so is a value that the store cannot convert to the type
    of its column (how the store converts a value that is not of the
    type of its column is not modelled: what is said of the rows written
    is said for values of the type of their column, see [well_typed]).
    The products table is the one the CREATE TABLE text of [handleGet]
    declares, or an earlier shape of it: [name] and [price] are NOT
    NULL. *)
Record Store : Type := mkStore {
  products : option Table;
  comments : bool;
  next_id : Z;
  now : Z;
  refuses : nat -> Statement -> bool;
  sent : list Statement
}.

Definition product_fields : list string :=
  [ "name"; "price"; "original_price"; "category"; "brand"; "material";
    "shape"; "color"; "size"; "image"; "gallery"; "description";
    "features"; "specifications"; "status"; "framecolor"; "style"; "rim";
    "gender"; "type"; "featured"; "bestseller"; "sizes"; "lenstypes";
    "discount"; "colorimages" ].

(** The columns of [CREATE TABLE IF NOT EXISTS products], in its order. *)
Definition created_columns : list string :=
  [ "id"; "name"; "price"; "original_price"; "category"; "brand";
    "material"; "shape"; "color"; "size"; "image"; "gallery";
    "description"; "features"; "specifications"; "status"; "created_at";
    "updated_at"; "framecolor"; "style"; "rim"; "gender"; "type";
    "featured"; "bestseller"; "sizes"; "lenstypes"; "discount";
    "colorimages" ].

(** The columns that text declares NOT NULL ([id] and the two timestamps
    are given by the store). *)
Definition not_null_columns : list string := [ "name"; "price" ].

Definition mem (c : string) (l : list string) : bool :=
  existsb (String.eqb c) l.

(** A bound [undefined] reaches the store as NULL. *)
Definition to_sql (v : value) : value := if nullish v then VNull else v.

(** The integer a parameter compared with [id] stands for, if any. *)
Definition as_integer (v : value) : option Z :=
  match v with
  | VNum n => Some n
  | VStr (String "-" rest) =>
      if all_digits rest then option_map Z.opp (digits 10 None rest) else None
  | VStr s => if all_digits s then digits 10 None s else None
  | _ => None
  end.

Definition field (k : string) (r : Row) : value :=
  match lookup k r with Some v => v | None => VNull end.

(** [WHERE id = p]. *)
Definition id_is (p : value) (r : Row) : bool :=
  strict_eq_number (field "id" r) (as_integer p).

Definition lower (c : ascii) : ascii :=
  let n := nat_of_ascii c in
  if andb (Nat.leb 65 n) (Nat.leb n 90) then ascii_of_nat (n + 32) else c.

Fixpoint lowercase (s : string) : string :=
  match s with
  | EmptyString => EmptyString
  | String c rest => String (lower c) (lowercase rest)
  end.

(** [s LIKE p]: [%] is any run of characters, [_] any one character and a
    backslash takes the next character literally. *)
Fixpoint like (p : string) : string -> bool :=
  match p with
  | EmptyString =>
      fun s => match s with EmptyString => true | _ => false end
  | String "%" p' =>
      fix any (s : string) : bool :=
        like p' s
        || match s with EmptyString => false | String _ s' => any s' end
  | String "_" p' =>
      fun s => match s with String _ s' => like p' s' | _ => false end
  | String "\" (String c p') =>
      fun s => match s with
               | String d s' => (c =? d)%char && like p' s'
               | _ => false
               end
  | String c p' =>
      fun s => match s with
               | String d s' => (c =? d)%char && like p' s'
               | _ => false
               end
  end.

(** [column ILIKE p] on a row; NULL matches nothing. *)
Definition ilike (column : string) (p : string) (r : Row) : bool :=
  match field column r with
  | VStr s => like (lowercase p) (lowercase s)
  | _ => false
  end.

Definition created_at (r : Row) : Z :=
  match field "created_at" r with VNum t => t | _ => 0 end.

Fixpoint insert_newest_first (r : Row) (l : list Row) : list Row :=
  match l with
  | [] => [r]
  | r' :: rest =>
      if created_at r' <? created_at r then r :: l
      else r' :: insert_newest_first r rest
  end.

(** [ORDER BY created_at DESC]. *)
Definition newest_first (l : list Row) : list Row :=
  fold_right insert_newest_first [] l.

Definition relation_missing (table : string) : Error :=
  mkError "NeonDbError" ("relation " ++ table ++ " does not exist").

Definition column_missing (column : string) : Error :=
  mkError "NeonDbError" ("column " ++ column ++ " of relation products does not exist").

Definition refused : Error :=
  mkError "NeonDbError" "the statement could not be executed".

Definition double_quote : string := String (ascii_of_nat 34) EmptyString.

Definition not_null_violation (column : string) : Error :=
  mkError "NeonDbError"
          ("null value in column " ++ double_quote ++ column ++ double_quote
           ++ " of relation " ++ double_quote ++ "products" ++ double_quote
           ++ " violates not-null constraint").

(** The first NOT NULL column in which the row holds NULL. *)
Definition null_in (r : Row) : option string :=
  List.find (fun c => nullish (field c r)) not_null_columns.

(** The first violation of NOT NULL among the rows. *)
Fixpoint violation (l : list Row) : option string :=
  match l with
  | [] => None
  | r :: rest =>
      match null_in r with
      | Some c => Some c
      | None => violation rest
      end
  end.

Definition with_products (db : Store) (t : Table) : Store :=
  mkStore (Some t) (comments db) (next_id db) (now db) (refuses db) (sent db).

(** Every assigned column must be a column of the table. *)
Definition unknown_column (values : list (string * value)) (t : Table)
  : option string :=
  List.find (fun c => negb (mem c (columns t))) (map fst values).

(** [SET c = v, ...] on one row. *)
Definition assign (values : list (string * value)) (r : Row) : Row :=
  fold_left (fun acc cv => set_field (fst cv) (to_sql (snd cv)) acc) values r.

(** What an accepted statement does. *)
Definition run (s : Statement) (db : Store) : result (list Row) * Store :=
  match s, products db with
  | CreateProductsTable, Some _ => (inr [], db)
  | CreateProductsTable, None =>
      (inr [], with_products db (mkTable created_columns []))
  | CreateCommentsTable, _ =>
      (inr [], mkStore (products db) true (next_id db) (now db)
                       (refuses db) (sent db))
  | _, None => (inl (relation_missing "products"), db)
  | AlterAddColumn c d, Some t =>
      if mem c (columns t) then (inr [], db)
      else (inr [], with_products db
                      (mkTable (columns t ++ [c])%list
                               (map (fun r => (r ++ [(c, d)])%list) (rows t))))
  | SelectById p, Some t => (inr (filter (id_is p) (rows t)), db)
  | SelectSearch p, Some t =>
      (inr (newest_first
              (filter (fun r => ilike "name" p r || ilike "category" p r
                                || ilike "brand" p r) (rows t))), db)
  | SelectCategory p, Some t =>
      (inr (newest_first (filter (ilike "category" p) (rows t))), db)
  | SelectAll, Some t => (inr (newest_first (rows t)), db)
  | Insert values, Some t =>
      match unknown_column values t with
      | Some c => (inl (column_missing c), db)
      | None =>
          let r := assign values
                     (map (fun c =>
                             (c, if (c =? "id")%string then VNum (next_id db)
                                 else if (c =? "created_at")%string
                                         || (c =? "updated_at")%string
                                 then VNum (now db)
                                 else VNull))
                          (columns t)) in
          match null_in r with
          | Some c =>
              (* the serial id drawn for the row is not given again *)
              (inl (not_null_violation c),
               mkStore (Some t) (comments db) (next_id db + 1) (now db)
                       (refuses db) (sent db))
          | None =>
              (inr [r],
               mkStore (Some (mkTable (columns t) (rows t ++ [r])%list))
                       (comments db) (next_id db + 1) (now db) (refuses db)
                       (sent db))
          end
      end
  | Update values p, Some t =>
      match unknown_column values t with
      | Some c => (inl (column_missing c), db)
      | None =>
          let change r :=
            if id_is p r
            then set_field "updated_at" (VNum (now db)) (assign values r)
            else r in
          match violation (map change (filter (id_is p) (rows t))) with
          | Some c => (inl (not_null_violation c), db)
          | None =>
              (inr (map change (filter (id_is p) (rows t))),
               with_products db (mkTable (columns t) (map change (rows t))))
          end
      end
  | Delete p, Some t =>
      (inr (filter (id_is p) (rows t)),
       with_products db
         (mkTable (columns t) (filter (fun r => negb (id_is p r)) (rows t))))
  end.

(** [await sql`...`]: the statement is sent, the clock moves, and the
    store refuses it or runs it. *)
Definition sql (s : Statement) : M Store (list Row) := fun db =>
  let db' := mkStore (products db) (comments db) (next_id db) (now db + 1)
                     (refuses db) (sent db ++ [s])%list in
  if refuses db (List.length (sent db)) s then (inl refused, db')
  else run s db'.

(** *** The handler *)

Record Req : Type := mkReq {
  req_method : string;
  req_query : value;
  req_body : value
}.

Record Res : Type := mkRes {
  res_status : Z;
  res_headers : list (string * string);
  res_json : value
}.

Definition corsHeaders : list (string * string) :=
  [ ("Access-Control-Allow-Origin", "*");
    ("Access-Control-Allow-Methods", "GET, POST, PUT, DELETE, OPTIONS");
    ("Access-Control-Allow-Headers",
     "Content-Type, Authorization, X-Requested-With");
    ("Access-Control-Allow-Credentials", "false") ].

(** [res.status(n).json(v)], before the headers are put on it. *)
Definition Reply : Type := (Z * value)%type.

Definition rows_json (l : list Row) : value := VArr (map VObj l).

Definition count (l : list Row) : value := VNum (Z.of_nat (List.length l)).

(** The properties of the keys, read in order. *)
Fixpoint properties (obj : value) (keys : list string)
  : result (list (string * value)) :=
  match keys with
  | [] => inr []
  | k :: rest =>
      rbind (get obj k) (fun v =>
      rbind (properties obj rest) (fun vs => inr ((k, v) :: vs)))
  end.

(** The TypeError of a destructuring of [null] or [undefined], which
    names the first key of the pattern and the text of the expression. *)
Definition cannot_destructure (source : string) (obj : value)
           (keys : list string) : Error :=
  TypeError
    (match keys with
     | k :: _ =>
         "Cannot destructure property '" ++ k ++ "' of '" ++ source
         ++ "' as it is " ++ to_string obj ++ "."
     | [] => "Cannot destructure '" ++ source ++ "' as it is "
             ++ to_string obj ++ "."
     end).

(** [const { k1, k2, ... } = source], where [obj] is the value of the
    expression [source]: throws when [obj] is [null] or [undefined]. *)
Definition destructure (source : string) (obj : value) (keys : list string)
  : result (list (string * value)) :=
  if nullish obj then inl (cannot_destructure source obj keys)
  else properties obj keys.

(** The variable a pattern binds to a key. *)
Definition bound (k : string) (fields : list (string * value)) : value :=
  match lookup k fields with Some v => v | None => VUndefined end.

(** The eleven [ALTER TABLE products ADD COLUMN IF NOT EXISTS]
    statements, in source order. *)
Definition add_column_statements : list Statement :=
  [ AlterAddColumn "framecolor" VNull;
    AlterAddColumn "style" VNull;
    AlterAddColumn "rim" VNull;
    AlterAddColumn "gender" VNull;
    AlterAddColumn "type" VNull;
    AlterAddColumn "featured" (VBool false);
    AlterAddColumn "bestseller" (VBool false);
    AlterAddColumn "sizes" VNull;
    AlterAddColumn "lenstypes" VNull;
    AlterAddColumn "discount" VNull;
    AlterAddColumn "colorimages" VNull ].

(** Statements awaited one after the other. *)
Fixpoint in_sequence (l : list Statement) : M Store unit :=
  match l with
  | [] => ret tt
  | s :: rest => sql s ;;; in_sequence rest
  end.

(** The [try { ... } catch (alterError) { console.log(...) }] block of
    [handleGet]. *)
Definition add_missing_columns : M Store unit :=
  try_catch (in_sequence add_column_statements) (fun _ => ret tt).

Definition not_found : Reply :=
  (404, VObj [("success", VBool false); ("error", VStr "Product not found")]).

Definition handleGet (req : Req) : M Store Reply :=
  sql CreateProductsTable ;;;
  add_missing_columns ;;;
  sql CreateCommentsTable ;;;
  query <- lift (destructure "req.query" (req_query req)
                             ["id"; "search"; "category"]) ;;
  let id := bound "id" query in
  let search := bound "search" query in
  let category := bound "category" query in
  if truthy id then
    result <- sql (SelectById id) ;;
    match result with
    | [] => ret not_found
    | first :: _ =>
        ret (200, VObj [("success", VBool true); ("data", VObj first)])
    end
  else if truthy search then
    result <- sql (SelectSearch ("%" ++ to_string search ++ "%")) ;;
    ret (200, VObj [("success", VBool true); ("data", rows_json result);
                    ("count", count result); ("query", search)])
  else if truthy category then
    result <- sql (SelectCategory ("%" ++ to_string category ++ "%")) ;;
    ret (200, VObj [("success", VBool true); ("data", rows_json result);
                    ("count", count result); ("category", category)])
  else
    result <- sql SelectAll ;;
    ret (200, VObj [("success", VBool true); ("data", rows_json result);
                    ("count", count result); ("source", VStr "neon")]).

(** The defaults of [handlePost]'s destructuring pattern; a default
    applies to [undefined] only. *)
Definition with_default (kv : string * value) : string * value :=
  let (k, v) := kv in
  match v with
  | VUndefined =>
      if (k =? "status")%string then (k, VStr "active")
      else if (k =? "featured")%string || (k =? "bestseller")%string
      then (k, VBool false)
      else (k, v)
  | _ => (k, v)
  end.

Definition reading_of_undefined (k : string) : Error :=
  TypeError ("Cannot read properties of undefined (reading '" ++ k ++ "')").

Definition handlePost (req : Req) : M Store Reply :=
  fields <- lift (destructure "req.body" (req_body req) product_fields) ;;
  result <- sql (Insert (map with_default fields)) ;;
  match result with
  | [] => throw (reading_of_undefined "name")
  | first :: _ =>
      ret (201, VObj [("success", VBool true); ("data", VObj first);
                      ("message", VStr "Product created successfully")])
  end.

Definition handlePut (req : Req) : M Store Reply :=
  query <- lift (destructure "req.query" (req_query req) ["id"]) ;;
  let id := bound "id" query in
  fields <- lift (destructure "req.body" (req_body req) product_fields) ;;
  result <- sql (Update fields id) ;;
  match result with
  | [] => ret not_found
  | first :: _ =>
      ret (200, VObj [("success", VBool true); ("data", VObj first);
                      ("message", VStr "Product updated successfully")])
  end.

Definition handleDelete (req : Req) : M Store Reply :=
  query <- lift (destructure "req.query" (req_query req) ["id"]) ;;
  let id := bound "id" query in
  if negb (truthy id) then
    ret (400, VObj [("success", VBool false);
                    ("error", VStr "Product ID is required")])
  else
    existingProduct <- sql (SelectById id) ;;
    match existingProduct with
    | [] =>
        ret (404, VObj [("success", VBool false);
                        ("error", VStr "Product not found");
                        ("message", VStr "Product not found")])
    | _ :: _ =>
        result <- sql (Delete id) ;;
        match result with
        | [] => throw (reading_of_undefined "name")
        | first :: _ =>
            ret (200, VObj [("success", VBool true);
                            ("message", VStr "Product deleted successfully");
                            ("data", VObj first)])
        end
    end.

Definition dispatch (req : Req) : M Store Reply :=
  let m := req_method req in
  if (m =? "GET")%string then handleGet req
  else if (m =? "POST")%string then handlePost req
  else if (m =? "PUT")%string then handlePut req
  else if (m =? "DELETE")%string then handleDelete req
  else ret (405, VObj [("success", VBool false);
                       ("error", VStr "Method not allowed")]).

(** [export default async function handler(req, res)]. *)
Definition handler (req : Req) (db : Store) : Res * Store :=
  if (req_method req =? "OPTIONS")%string
  then (mkRes 200 [] (VObj []), db)
  else
    match dispatch req db with
    | (inr (code, payload), db') => (mkRes code corsHeaders payload, db')
    | (inl error, db') =>
        (mkRes 500 corsHeaders
               (VObj [("success", VBool false);
                      ("error", VStr "Internal server error");
                      ("message", VStr (message error))]),
         db')
    end.

(** A store that refuses nothing. *)
Definition obliging (db : Store) : Prop :=
  forall k s, refuses db k s = false.

(** The table has every column the handler writes. *)
Definition has_product_columns (t : Table) : bool :=
  forallb (fun c => mem c (columns t)) product_fields.

(** The statement is an add-column statement. *)
Definition is_alter (s : Statement) : Prop :=
  match s with AlterAddColumn _ _ => True | _ => False end.

(** The statement creates a table. *)
Definition is_create (s : Statement) : bool :=
  match s with
  | CreateProductsTable | CreateCommentsTable => true
  | _ => false
  end.

(** An object with neither a [products] nor a [product] field. *)
Definition plain (v : value) : Prop :=
  exists fields,
    v = VObj fields
    /\ lookup "products" fields = None /\ lookup "product" fields = None.

(** The table has every column of [CREATE TABLE IF NOT EXISTS products]. *)
Definition has_created_columns (t : Table) : bool :=
  forallb (fun c => mem c (columns t)) created_columns.

(** The product columns of the table's first shape, before the eleven
    that [handleGet] adds. *)
Definition first_shape_fields : list string :=
  [ "name"; "price"; "original_price"; "category"; "brand"; "material";
    "shape"; "color"; "size"; "image"; "gallery"; "description";
    "features"; "specifications"; "status" ].

(** The column an add-column statement names. *)
Definition added_column (s : Statement) : option string :=
  match s with
  | AlterAddColumn c _ => Some c
  | _ => None
  end.

(** The table [t'] has the rows of [t], in order, each with its fields
    and possibly more after them, and at least the columns of [t]. *)
Definition grows (t t' : Table) : Prop :=
  Forall2 (fun r r' => exists extra, r' = (r ++ extra)%list) (rows t) (rows t')
  /\ forall c, mem c (columns t) = true -> mem c (columns t') = true.

(** Nothing of the products table is lost from [db] to [db']. *)
Definition no_loss (db db' : Store) : Prop :=
  match products db with
  | Some t => exists t', products db' = Some t' /\ grows t t'
  | None => True
  end.

(** The statement only creates, adds a column or reads. *)
Definition reads_or_migrates (s : Statement) : bool :=
  match s with
  | Insert _ | Update _ _ | Delete _ => false
  | _ => true
  end.

(** The rows have an [id] column, pairwise different ids, and every id is
    below the next serial id. *)
Definition well_keyed (db : Store) : Prop :=
  match products db with
  | Some t =>
      mem "id" (columns t) = true
      /\ NoDup (map (field "id") (rows t))
      /\ Forall (fun r => exists k, field "id" r = VNum k /\ k < next_id db)
                (rows t)
  | None => True
  end.

(** [r1] is at least as new as [r2]. *)
Definition not_older (r1 r2 : Row) : Prop := created_at r2 <= created_at r1.

(** The part of [handleGet] that follows the schema statements. *)
Definition query_part (req : Req) : M Store Reply :=
  (query <- lift (destructure "req.query" (req_query req)
                              ["id"; "search"; "category"]) ;;
   let id := bound "id" query in
   let search := bound "search" query in
   let category := bound "category" query in
   if truthy id then
     result <- sql (SelectById id) ;;
     match result with
     | [] => ret not_found
     | first :: _ =>
         ret (200, VObj [("success", VBool true); ("data", VObj first)])
     end
   else if truthy search then
     result <- sql (SelectSearch ("%" ++ to_string search ++ "%")) ;;
     ret (200, VObj [("success", VBool true); ("data", rows_json result);
                     ("count", count result); ("query", search)])
   else if truthy category then
     result <- sql (SelectCategory ("%" ++ to_string category ++ "%")) ;;
     ret (200, VObj [("success", VBool true); ("data", rows_json result);
                     ("count", count result); ("category", category)])
   else
     result <- sql SelectAll ;;
     ret (200, VObj [("success", VBool true); ("data", rows_json result);
                     ("count", count result); ("source", VStr "neon")]))%eff.

(** The status of a reply together with its [success] field. *)
Definition outcome (r : Res) : Z * result value :=
  (res_status r, get (res_json r) "success").

(** The computation keeps the property of the store, whether it returns
    or throws. *)
Definition keeps {A} (I : Store -> Prop) (m : M Store A) : Prop :=
  forall db, I db -> I (snd (m db)).

(** The statement is a SELECT. *)
Definition is_select (s : Statement) : bool :=
  match s with
  | SelectById _ | SelectSearch _ | SelectCategory _ | SelectAll => true
  | _ => false
  end.

(** The table has the column. *)
Definition has_column (c : string) (db : Store) : Prop :=
  exists t, products db = Some t /\ mem c (columns t) = true.

(** The statement assigns no value to [id]. *)
Definition leaves_id (s : Statement) : bool :=
  match s with
  | Insert values | Update values _ => negb (mem "id" (map fst values))
  | _ => true
  end.

(** The statements a request added to those already sent. *)
Definition issued (before after : Store) : list Statement :=
  skipn (List.length (sent before)) (sent after).

(** The store once the statements have been sent one after the other,
    whatever it answered. *)
Fixpoint store_after (l : list Statement) (db : Store) : Store :=
  match l with
  | [] => db
  | s :: rest => store_after rest (snd (sql s db))
  end.

(** The types the CREATE TABLE text gives the listed fields. *)
Inductive ColumnType : Type :=
| Varchar (n : nat)
| Text
| Decimal (precision scale : nat)
| Boolean.

Definition column_types : list (string * ColumnType) :=
  [ ("name", Varchar 255); ("price", Decimal 10 2);
    ("original_price", Decimal 10 2); ("category", Varchar 100);
    ("brand", Varchar 100); ("material", Varchar 100);
    ("shape", Varchar 100); ("color", Varchar 100); ("size", Varchar 50);
    ("image", Text); ("gallery", Text); ("description", Text);
    ("features", Text); ("specifications", Text); ("status", Varchar 50);
    ("framecolor", Varchar 100); ("style", Varchar 100);
    ("rim", Varchar 100); ("gender", Varchar 50); ("type", Varchar 100);
    ("featured", Boolean); ("bestseller", Boolean); ("sizes", Text);
    ("lenstypes", Text); ("discount", Decimal 5 2); ("colorimages", Text) ].

(** The number of characters of a string, and whether it has the
    character of code zero, which no text of the store holds. *)
Fixpoint characters (s : string) : nat :=
  match s with
  | EmptyString => 0
  | String c rest =>
      let b := nat_of_ascii c in
      ((if Nat.ltb b 128 then 1 else if Nat.ltb b 192 then 0 else 1)
       + characters rest)%nat
  end.

Fixpoint has_zero (s : string) : bool :=
  match s with
  | EmptyString => false
  | String c rest => Nat.eqb (nat_of_ascii c) 0 || has_zero rest
  end.

(** The value is NULL or of the type: a text within the declared length,
    an integer within the declared precision, a boolean. *)
Definition fits (ty : ColumnType) (v : value) : bool :=
  match v, ty with
  | VUndefined, _ | VNull, _ => true
  | VStr s, Varchar n => Nat.leb (characters s) n && negb (has_zero s)
  | VStr s, Text => negb (has_zero s)
  | VNum k, Decimal precision scale =>
      Z.abs k <? 10 ^ Z.of_nat (precision - scale)
  | VBool _, Boolean => true
  | _, _ => false
  end.

(** Every value bound to a listed field is NULL or of the type of its
    column. *)
Definition well_typed (values : list (string * value)) : bool :=
  forallb (fun kv =>
             match List.find (fun ct => (fst ct =? fst kv)%string)
                             column_types with
             | Some (_, ty) => fits ty (snd kv)
             | None => true
             end) values.

(** The values a PUT with the object [body] binds to the listed fields. *)
Definition bindings (body : list (string * value)) : list (string * value) :=
  map (fun k => (k, bound k body)) product_fields.

(** The row an accepted UPDATE of the handler writes over [r]. *)
Definition rewritten (body : list (string * value)) (time : Z) (r : Row)
  : Row :=
  set_field "updated_at" (VNum time) (assign (bindings body) r).

(** The NOT NULL field for which the body supplies nothing, the first one
    if there are several. *)
Definition missing (fields : list (string * value)) : option string :=
  if nullish (bound "name" fields) then Some "name"
  else if nullish (bound "price" fields) then Some "price"
  else None.


(** The values a POST with the object [body] binds to the listed fields. *)
Definition insertions (body : list (string * value))
  : list (string * value) :=
  map with_default (bindings body).

(** The row the store forms for an INSERT of the values: the serial id,
    the clock in the two timestamps and NULL in the other columns, then
    the values. *)
Definition inserted (columns : list string) (id time : Z)
           (values : list (string * value)) : Row :=
  assign values
    (map (fun c =>
            (c, if (c =? "id")%string then VNum id
                else if (c =? "created_at")%string || (c =? "updated_at")%string
                     then VNum time
                     else VNull))
         columns).

(** [row] is what a POST with the object [body] creates with the serial
    id [id] at [time]: every listed field is what the body supplies, NULL
    for [null] and for a field it omits, except that an omitted [status]
    is "active" and an omitted [featured] or [bestseller] is false. *)
Definition creates (body : list (string * value)) (id time : Z) (row : Row)
  : Prop :=
  field "id" row = VNum id
  /\ field "created_at" row = VNum time
  /\ field "updated_at" row = VNum time
  /\ (forall k, In k product_fields ->
                field k row
                = match bound k body with
                  | VUndefined =>
                      if (k =? "status")%string then VStr "active"
                      else if (k =? "featured")%string
                              || (k =? "bestseller")%string
                           then VBool false
                           else VNull
                  | VNull => VNull
                  | v => v
                  end).

(** The store answers the statement with an error. *)
Definition answers_error (s : Statement) (db : Store) : bool :=
  match fst (sql s db) with
  | inl _ => true
  | inr _ => false
  end.

End Server.

(* ===================================================================== *)
(** ** Sample platforms, browsers and stores *)
(* ===================================================================== *)

Module Samples.
Import Js Eff.

Definition quote : string := String (ascii_of_nat 34) EmptyString.

(** The JSON text of a value with integers, strings free of quotes and
    backslashes, arrays and objects. *)
Fixpoint json_text (v : value) : string :=
  match v with
  | VUndefined | VNull => "null"
  | VBool true => "true"
  | VBool false => "false"
  | VNum n => to_string (VNum n)
  | VStr s => quote ++ s ++ quote
  | VArr items => "[" ++ join "," (map json_text items) ++ "]"
  | VObj fields =>
      "{" ++ join ","
               ((fix members (l : list (string * value)) : list string :=
                   match l with
                   | [] => []
                   | (k, VUndefined) :: rest => members rest
                   | (k, x) :: rest =>
                       (quote ++ k ++ quote ++ ":" ++ json_text x)
                       :: members rest
                   end) fields)
      ++ "}"
  end.

Definition stringify (v : value) : option string :=
  match v with
  | VUndefined => None
  | _ => Some (json_text v)
  end.

Definition SyntaxError : Error :=
  mkError "SyntaxError" "Unexpected token in JSON".

(** [JSON.parse] on the texts of the given values and on no other text. *)
Definition parse_known (known : list value) (text : string) : result value :=
  match List.find (fun v => (json_text v =? text)%string) known with
  | Some v => inr v
  | None => inl SyntaxError
  end.

Definition aviator : list (string * value) :=
  [("name", VStr "Aviator Classic"); ("price", VNum 120)].

Definition wayfarer : list (string * value) :=
  [("id", VNum 40); ("name", VStr "Wayfarer"); ("price", VNum 95)].

(** A backup as [saveProductsBackup] writes it. *)
Definition backup : value :=
  VArr [ VObj [("id", VNum 3); ("name", VStr "Round Metal")];
         VObj [("id", VNum 7); ("name", VStr "Clubmaster")] ].

Definition known_texts : list value := [VNull; VArr []; VObj []; backup].

(** A backup with an id beyond the integers that are all doubles. *)
Definition large_backup : value :=
  VArr [ VObj [("id", VNum 9007199254740992); ("name", VStr "Panto")] ].

(** U+00A0. *)
Definition no_break_space : string :=
  String (ascii_of_nat 194) (String (ascii_of_nat 160) EmptyString).

(** The module loaded on a development machine, on a deployed site, and
    on a host whose name only contains a loopback name. *)
Definition on_localhost : Client.Platform := {|
  Client.env := Client.mkEnv None "localhost";
  Client.JSON_parse := parse_known known_texts;
  Client.JSON_stringify := stringify;
  Client.sampleProducts := [aviator; wayfarer]
|}.

Definition on_localhost_large : Client.Platform := {|
  Client.env := Client.mkEnv None "localhost";
  Client.JSON_parse := parse_known [large_backup];
  Client.JSON_stringify := stringify;
  Client.sampleProducts := [aviator; wayfarer]
|}.

Definition on_deployed_site : Client.Platform := {|
  Client.env := Client.mkEnv None "shop.example.com";
  Client.JSON_parse := parse_known known_texts;
  Client.JSON_stringify := stringify;
  Client.sampleProducts := [aviator; wayfarer]
|}.

Definition failed_to_fetch : Error := mkError "TypeError" "Failed to fetch".

(** A browser with the given backup text and no reachable backend. *)
Definition offline (item : option string) : Client.World :=
  Client.mkWorld item false (fun _ => false)
                 (fun _ _ => Client.Rejects failed_to_fetch) [].

(** A browser whose backend answers every request with the given body. *)
Definition answering (code : Z) (body : value) : Client.World :=
  Client.mkWorld None false (fun _ => false)
                 (fun _ _ => Client.Resolves (Client.mkResponse code "OK" (inr body)))
                 [].

(** A database in which nothing has been created yet. *)
Definition fresh : Server.Store :=
  Server.mkStore None false 1 1000 (fun _ _ => false) [].

(** The same, behind a connection that loses the first add-column
    statement. *)
Definition losing_framecolor : Server.Store :=
  Server.mkStore None false 1 1000
    (fun _ s => match s with
                | Server.AlterAddColumn "framecolor" _ => true
                | _ => false
                end) [].

(** A database with the first shape of the products table, behind a
    connection that loses the fourth add-column statement. *)
Definition losing_gender : Server.Store :=
  Server.mkStore
    (Some (Server.mkTable ("id" :: "created_at" :: "updated_at"
                             :: Server.first_shape_fields)
                          []))
    false 1 1000
    (fun _ s => match s with
                | Server.AlterAddColumn "gender" _ => true
                | _ => false
                end) [].

Definition stocked_table_or_empty (db : Server.Store) : Server.Table :=
  match Server.products db with
  | Some t => t
  | None => Server.mkTable [] []
  end.

Definition get_all : Server.Req := Server.mkReq "GET" (VObj []) VUndefined.

Definition post_test : Server.Req :=
  Server.mkReq "POST" (VObj [])
               (VObj [("name", VStr "Test"); ("price", VNum 10)]).

(** The database after a first read and two inserts. *)
Definition stocked : Server.Store :=
  snd (Server.handler
         (Server.mkReq "POST" (VObj [])
            (VObj [("name", VStr "Wayfarer"); ("price", VNum 95);
                   ("brand", VStr "Ray")]))
         (snd (Server.handler post_test
                 (snd (Server.handler get_all fresh))))).

End Samples.

(* ===================================================================== *)
(** ** The client, verified *)
(* ===================================================================== *)

Module ClientProofs.
Import Js Eff Client.
Local Open Scope eff_scope.

#[local] Arguments is_digit : simpl never.

Ltac run_eff :=
  unfold bind, ret, throw, lift, try_catch in *; simpl in *.

(** *** Strings *)

Example parseInt_reads_a_leading_integer :
  parseInt (VStr "  42px") = Finite 42 /\ parseInt (VStr "-7") = Finite (-7)
  /\ parseInt (VStr "0x1f") = Finite 31 /\ parseInt (VNum 7) = Finite 7
  /\ parseInt (VStr "seven") = NaN /\ parseInt VUndefined = NaN
  /\ parseInt (VStr (Samples.no_break_space ++ "7")) = Finite 7
  /\ parseInt (VStr "9007199254740993") = Finite 9007199254740992
  /\ parseInt (VNum (10 ^ 21)) = Finite 1.
Proof. repeat split; vm_compute; reflexivity. Qed.

Example String_of_a_number :
  to_string (VNum 42) = "42" /\ to_string (VNum (-7)) = "-7"
  /\ to_string (VNum (2 ^ 53)) = "9007199254740992"
  /\ to_string (VNum (2 ^ 69)) = "590295810358705700000"
  /\ to_string (VNum (10 ^ 21)) = "1e+21"
  /\ to_string (VNum (- 2 ^ 70)) = "-1.1805916207174113e+21".
Proof. repeat split; vm_compute; reflexivity. Qed.

Lemma prefix_app (p s : string) : prefix p (p ++ s) = true.
Proof.
  induction p as [|c p IH]; simpl.
  - now destruct s.
  - destruct (ascii_dec c c) as [_|ne]; [exact IH | now elim ne].
Qed.

Lemma includes_app (p s : string) : includes (p ++ s) p = true.
Proof.
  destruct p as [|c p]; destruct s as [|d s]; simpl; try reflexivity.
  - destruct (ascii_dec c c) as [_|ne]; [|now elim ne].
    now rewrite (prefix_app p EmptyString).
  - destruct (ascii_dec c c) as [_|ne]; [|now elim ne].
    now rewrite (prefix_app p (String d s)).
Qed.

Lemma lookup_set_field (k : string) (v : value) (fields : list (string * value)) :
  lookup k (set_field k v fields) = Some v.
Proof.
  induction fields as [|[k' v'] rest IH]; simpl.
  - now rewrite String.eqb_refl.
  - destruct (k' =? k)%string eqn:E; simpl.
    + now rewrite String.eqb_refl.
    + now rewrite E.
Qed.

Lemma lookup_set_field_other (k k0 : string) (v : value)
      (fields : list (string * value)) :
  k0 <> k -> lookup k0 (set_field k v fields) = lookup k0 fields.
Proof.
  intros ne. induction fields as [|[k' v'] rest IH]; simpl.
  - destruct (k =? k0)%string eqn:E; [|reflexivity].
    apply String.eqb_eq in E. congruence.
  - destruct (k' =? k)%string eqn:E; simpl.
    + apply String.eqb_eq in E. subst k'.
      destruct (k =? k0)%string eqn:E'; [|reflexivity].
      apply String.eqb_eq in E'. congruence.
    + now rewrite IH.
Qed.

(** *** Numbers and their decimal text *)

Lemma of_uint_acc_horner (l : Decimal.uint) :
  forall acc, Z.pos (Pos.of_uint_acc l acc) = horner (Z.pos acc) l.
Proof.
  induction l; intros acc; cbn [Pos.of_uint_acc horner];
    try reflexivity; rewrite IHl; f_equal;
    rewrite ?Pos2Z.inj_add, ?Pos2Z.inj_mul; lia.
Qed.

Lemma of_uint_horner (u : Decimal.uint) : Z.of_uint u = horner 0 u.
Proof.
  unfold Z.of_uint.
  induction u; simpl; try reflexivity; try exact IHu;
    rewrite of_uint_acc_horner; reflexivity.
Qed.

Lemma digits_horner (u : Decimal.uint) :
  forall acc,
    digits 10 (Some acc) (NilEmpty.string_of_uint u) = Some (horner acc u).
Proof.
  induction u; intros acc;
    cbn [NilEmpty.string_of_uint digits horner]; try reflexivity;
    match goal with
    | |- context [digit_value ?c] =>
        let v := eval vm_compute in (digit_value c) in
        change (digit_value c) with v
    end;
    cbv iota beta;
    match goal with
    | |- context [(?d <? 10)] => change (d <? 10) with true
    end;
    cbv iota; rewrite IHu; f_equal; f_equal; lia.
Qed.

Lemma to_uint_not_nil (p : positive) : Pos.to_uint p <> Decimal.Nil.
Proof.
  intros E. pose proof (DecimalPos.Unsigned.of_to p) as H.
  rewrite E in H. discriminate H.
Qed.

Lemma horner_to_uint (p : positive) : horner 0 (Pos.to_uint p) = Z.pos p.
Proof.
  rewrite <- of_uint_horner. unfold Z.of_uint.
  now rewrite DecimalPos.Unsigned.of_to.
Qed.

(** The text of a positive number is read back by the digit reader, has
    only digits, and starts with neither a blank, a sign nor "0x". *)
Lemma positive_text (p : positive) :
  let s := NilEmpty.string_of_uint (Pos.to_uint p) in
  digits 10 None s = Some (Z.pos p)
  /\ all_digits s = true
  /\ parseInt_string s = to_number (Z.pos p)
  /\ match s with
     | String c _ => is_digit c = true
     | EmptyString => False
     end.
Proof.
  cbv zeta. pose proof (to_uint_not_nil p) as Hn.
  pose proof (horner_to_uint p) as Hh.
  assert (Hall : forall u, all_digits (NilEmpty.string_of_uint u) = true)
    by (induction u; simpl; auto).
  assert (Hd : forall u, u <> Decimal.Nil ->
                         digits 10 None (NilEmpty.string_of_uint u)
                         = Some (horner 0 u)).
  { intros u Hu. destruct u; try contradiction; simpl;
      rewrite digits_horner; reflexivity. }
  split; [now rewrite Hd, Hh|]. split; [apply Hall|].
  split.
  - assert (E : forall u, u <> Decimal.Nil ->
                          parseInt_string (NilEmpty.string_of_uint u)
                          = match digits 10 None (NilEmpty.string_of_uint u) with
                            | Some m => to_number (1 * m)
                            | None => NaN
                            end).
    { intros u Hu. destruct u as [|u|u|u|u|u|u|u|u|u|u]; try contradiction;
        destruct u; reflexivity. }
    rewrite (E _ Hn), (Hd _ Hn), Hh. reflexivity.
  - destruct (Pos.to_uint p); try contradiction; reflexivity.
Qed.

Lemma safe_below_overflow (a : Z) : a < 2 ^ 53 -> (2 ^ 1024 <=? a) = false.
Proof.
  intros H. apply Z.leb_gt.
  assert (2 ^ 53 <= 2 ^ 1024) by (apply Z.pow_le_mono_r; lia).
  lia.
Qed.

(** An integer of absolute value below 2^53 is the Number value for
    itself, and its text is its decimal digits. *)
Lemma to_number_safe (n : Z) : Z.abs n < 2 ^ 53 -> to_number n = Finite n.
Proof.
  intros H. unfold to_number, nearest_double.
  rewrite (proj2 (Z.ltb_lt _ _) H), (safe_below_overflow _ H).
  f_equal. destruct n; reflexivity.
Qed.

Lemma number_text_safe (n : Z) : Z.abs n < 2 ^ 53 -> number_text n = dec n.
Proof.
  intros H. unfold number_text. now rewrite (proj2 (Z.ltb_lt _ _) H).
Qed.

Lemma parseInt_string_dec (n : Z) : parseInt_string (dec n) = to_number n.
Proof.
  unfold dec.
  destruct n as [|p|p]; [vm_compute; reflexivity| |].
  - unfold Z.to_int, NilZero.string_of_int, NilZero.string_of_uint.
    pose proof (to_uint_not_nil p) as Hn.
    destruct (positive_text p) as (_ & _ & H & _).
    destruct (Pos.to_uint p); try contradiction; exact H.
  - unfold Z.to_int, NilZero.string_of_int, NilZero.string_of_uint.
    pose proof (to_uint_not_nil p) as Hn.
    destruct (positive_text p) as (Hd & _ & _ & Hc).
    assert (E : parseInt_string
                  (String "-" (NilEmpty.string_of_uint (Pos.to_uint p)))
                = match digits 10 None
                          (NilEmpty.string_of_uint (Pos.to_uint p)) with
                  | Some m => to_number (-1 * m)
                  | None => NaN
                  end).
    { destruct (Pos.to_uint p) as [|u|u|u|u|u|u|u|u|u|u]; try contradiction;
        destruct u; reflexivity. }
    destruct (Pos.to_uint p); try contradiction;
      rewrite E, Hd; reflexivity.
Qed.

(** [parseInt(n)] and [parseInt(String(n))] are [n] for an integer [n] of
    absolute value below 2^53. *)
Lemma parseInt_of_safe_integer (n : Z) :
  Z.abs n < 2 ^ 53 ->
  parseInt (VNum n) = Finite n /\ parseInt (VStr (dec n)) = Finite n.
Proof.
  intros H. unfold parseInt. cbn [to_string].
  rewrite (number_text_safe n H), parseInt_string_dec.
  split; now apply to_number_safe.
Qed.

Section Backup.
Context {P : Platform}.

(** *** Local backup store *)

Lemma with_ids_nth (products : list (list (string * value))) :
  forall (start : Z) (i : nat) (product : list (string * value)),
    nth_error products i = Some product ->
    nth_error (with_ids start products) i
    = Some (VObj (set_field "id" (VNum (start + Z.of_nat i + 1)) product)).
Proof.
  induction products as [|p rest IH]; intros start i product H.
  - now destruct i.
  - destruct i as [|i]; simpl in *.
    + injection H as ->. now rewrite Z.add_0_r.
    + rewrite (IH (start + 1) i product H).
      do 4 f_equal. lia.
Qed.

Lemma with_ids_length (products : list (list (string * value))) :
  forall start, List.length (with_ids start products) = List.length products.
Proof.
  induction products as [|p rest IH]; intros start; simpl; [|rewrite IH]; reflexivity.
Qed.

Lemma getStoredProducts_world (w : World) : snd (getStoredProducts w) = w.
Proof.
  unfold getStoredProducts, localStorage_getItem. run_eff.
  destruct (ls_read_fails w); simpl; [reflexivity|].
  destruct (ls_item w) as [text|]; simpl; [|reflexivity].
  destruct (negb (text =? EmptyString)%string); simpl; [|reflexivity].
  now destruct (JSON_parse text).
Qed.

Lemma getStoredProducts_returns (w : World) :
  exists v, fst (getStoredProducts w) = inr v.
Proof.
  unfold getStoredProducts, localStorage_getItem. run_eff.
  destruct (ls_read_fails w); simpl; [now eexists|].
  destruct (ls_item w) as [text|]; simpl; [|now eexists].
  destruct (negb (text =? EmptyString)%string); simpl; [|now eexists].
  destruct (JSON_parse text); simpl; now eexists.
Qed.

(** What the backup holds, when it holds something readable. *)
Lemma getStoredProducts_parsed (w : World) (text : string) (v : value) :
  ls_read_fails w = false -> ls_item w = Some text -> text <> EmptyString ->
  JSON_parse text = inr v ->
  fst (getStoredProducts w) = inr v.
Proof.
  intros Hr Hi Hne Hp.
  unfold getStoredProducts, localStorage_getItem. run_eff.
  rewrite Hr; simpl. rewrite Hi; simpl.
  destruct (text =? EmptyString)%string eqn:E.
  - apply String.eqb_eq in E. contradiction.
  - simpl. now rewrite Hp.
Qed.

(** C10. [getStoredProducts] never throws and leaves the browser as it
    was; when the storage refuses the read, when the slot is unset or
    holds the empty string, and when its text is not valid JSON, the
    result is the bundled sample set, whose i-th element (from 0) is the
    i-th sample product with [id] set to i + 1. *)
Theorem getStoredProducts_total (w : World) :
  (exists v, fst (getStoredProducts w) = inr v)
  /\ snd (getStoredProducts w) = w
  /\ (ls_read_fails w = true -> fst (getStoredProducts w) = inr seeded)
  /\ (ls_item w = None -> fst (getStoredProducts w) = inr seeded)
  /\ (ls_item w = Some EmptyString -> fst (getStoredProducts w) = inr seeded)
  /\ (forall text e, ls_item w = Some text -> JSON_parse text = inl e ->
      fst (getStoredProducts w) = inr seeded)
  /\ (exists items,
        seeded = VArr items
        /\ List.length items = List.length sampleProducts
        /\ forall i product,
            nth_error sampleProducts i = Some product ->
            exists p,
              nth_error items i = Some p
              /\ get p "id" = inr (VNum (Z.of_nat i + 1))
              /\ forall k, k <> "id" -> get p k = get (VObj product) k).
Proof.
  split; [apply getStoredProducts_returns|].
  split; [apply getStoredProducts_world|].
  unfold getStoredProducts, localStorage_getItem. run_eff.
  repeat split.
  - intros ->. reflexivity.
  - intros ->. now destruct (ls_read_fails w).
  - intros ->. now destruct (ls_read_fails w).
  - intros text e -> Hp. destruct (ls_read_fails w); simpl; [reflexivity|].
    destruct (negb (text =? EmptyString)%string); simpl; [|reflexivity].
    now rewrite Hp.
  - exists (with_ids 0 sampleProducts).
    split; [reflexivity|]. split; [apply with_ids_length|].
    intros i product H. eexists. split; [apply with_ids_nth, H|].
    split.
    + simpl. now rewrite lookup_set_field.
    + intros k ne. simpl. now rewrite lookup_set_field_other.
Qed.

(** *** Remote request executor *)

Lemma truthy_not_nullish (v : value) : truthy v = true -> nullish v = false.
Proof. now destruct v. Qed.

Lemma get_defined (v : value) (k : string) :
  nullish v = false -> exists x, get v k = inr x.
Proof. destruct v; simpl; intros H; try discriminate; now eexists. Qed.

Lemma normalize_not_nullish (data v : value) :
  normalize data = inr v -> nullish v = false.
Proof.
  unfold normalize, js_and, rbind.
  destruct data; simpl; try discriminate;
    repeat match goal with
           | |- context [truthy ?x] =>
               let T := fresh "T" in destruct (truthy x) eqn:T; simpl
           end;
    intros [= <-]; try reflexivity; now apply truthy_not_nullish.
Qed.

(** A request touches the network only: the storage is as before. *)
Lemma apiRequest_storage (endpoint : string) (m body : option string) (w : World) :
  let w' := snd (apiRequest endpoint m body w) in
  ls_item w' = ls_item w /\ ls_read_fails w' = ls_read_fails w
  /\ ls_write_fails w' = ls_write_fails w.
Proof.
  unfold apiRequest.
  destruct API_BASE_URL as [base|]; [|now run_eff].
  destruct (base =? EmptyString)%string; [now run_eff|].
  run_eff. unfold fetch.
  destruct (net w (sent w) _) as [e|resp]; simpl; [auto|].
  destruct (negb (ok resp)); simpl.
  - destruct (get _ "error"); simpl; auto.
  - destruct (json resp) as [e|data]; simpl; [auto|].
    destruct (normalize data); simpl; auto.
Qed.

Lemma apiRequest_not_nullish (endpoint : string) (m body : option string)
      (w w' : World) (v : value) :
  apiRequest endpoint m body w = (inr v, w') -> nullish v = false.
Proof.
  unfold apiRequest.
  destruct API_BASE_URL as [base|]; [|now run_eff].
  destruct (base =? EmptyString)%string; [now run_eff|].
  run_eff. unfold fetch.
  destruct (net w (sent w) _) as [e|resp]; simpl; [discriminate|].
  destruct (negb (ok resp)); simpl.
  - destruct (get _ "error"); simpl; discriminate.
  - destruct (json resp) as [e|data]; simpl; [discriminate|].
    destruct (normalize data) as [e|x] eqn:N; simpl; [discriminate|].
    intros [= <- _]. eapply normalize_not_nullish, N.
Qed.

(** In local-only mode a request is refused before any [fetch]. *)
Lemma apiRequest_local_only (endpoint : string) (m body : option string) (w : World) :
  local_only = true ->
  apiRequest endpoint m body w
  = (inl (mkError "Error" "No API URL configured - using localStorage"), w).
Proof.
  unfold local_only, apiRequest, truthy_string.
  destruct API_BASE_URL as [base|]; [|reflexivity].
  destruct (base =? EmptyString)%string; [reflexivity|discriminate].
Qed.

Lemma saveProductsBackup_returns (products : value) (w : World) :
  fst (saveProductsBackup products w) = inr tt.
Proof.
  unfold saveProductsBackup, localStorage_setItem. run_eff.
  now destruct (ls_write_fails w _).
Qed.

(** *** Read-all *)

Lemma read_length (v : value) (w : World) :
  nullish v = false ->
  (_ <- lift (get v "length") ;; ret v) w = (inr v, w).
Proof.
  intros H. destruct (get_defined v "length" H) as [x Hx].
  run_eff. now rewrite Hx.
Qed.

Lemma getAllProducts_from_backup (w : World) (v : value) :
  fst (getStoredProducts w) = inr v -> nullish v = false ->
  (backupProducts <- getStoredProducts ;;
   _ <- lift (get backupProducts "length") ;;
   ret backupProducts) w = (inr v, w).
Proof.
  intros Hv Hn. unfold bind at 1.
  destruct (getStoredProducts w) as [r w'] eqn:G.
  pose proof (getStoredProducts_world w) as Hw. rewrite G in Hw.
  simpl in *. subst r w'. now apply read_length.
Qed.

(** C3, amended. In local-only mode [getAllProducts] sends no request
    and returns what [getStoredProducts] returns; in remote mode every
    failure of the remote read is replaced by what [getStoredProducts]
    returns; and it returns a value, propagating no failure, whenever the
    backup text, if there is one, does not parse to [null]. *)
Theorem getAllProducts_falls_back (w : World) :
  (local_only = true ->
     sent (snd (getAllProducts w)) = sent w
     /\ forall v, fst (getStoredProducts w) = inr v -> nullish v = false ->
          fst (getAllProducts w) = inr v)
  /\ (forall e w1,
        local_only = false ->
        apiRequest "/products" None None w = (inl e, w1) ->
        forall v, fst (getStoredProducts w1) = inr v -> nullish v = false ->
          fst (getAllProducts w) = inr v)
  /\ ((forall text v, ls_item w = Some text -> JSON_parse text = inr v ->
         nullish v = false) ->
      exists v, fst (getAllProducts w) = inr v).
Proof.
  assert (Hseed : forall w0 v,
             (forall text x, ls_item w0 = Some text -> JSON_parse text = inr x ->
                             nullish x = false) ->
             fst (getStoredProducts w0) = inr v -> nullish v = false).
  { intros w0 v H. unfold getStoredProducts, localStorage_getItem. run_eff.
    destruct (ls_read_fails w0); simpl; [now intros [= <-]|].
    destruct (ls_item w0) as [text|]; simpl; [|now intros [= <-]].
    destruct (negb (text =? EmptyString)%string); simpl; [|now intros [= <-]].
    destruct (JSON_parse text) as [e|x] eqn:Hp; simpl; [now intros [= <-]|].
    intros [= <-]. eapply H; [reflexivity|exact Hp]. }
  unfold getAllProducts. split; [|split].
  - intros L. rewrite L. split.
    + unfold bind at 1. destruct (getStoredProducts w) as [r w'] eqn:G.
      pose proof (getStoredProducts_world w) as Hw. rewrite G in Hw.
      simpl in Hw. subst w'.
      destruct r as [e|v]; simpl; [reflexivity|].
      run_eff. now destruct (get v "length").
    + intros v Hv Hn.
      now rewrite (getAllProducts_from_backup w v Hv Hn).
  - intros e w1 L A v Hv Hn. rewrite L. unfold try_catch, bind at 1.
    rewrite A.
    now rewrite (getAllProducts_from_backup w1 v Hv Hn).
  - intros H. destruct local_only.
    + destruct (getStoredProducts_returns w) as [v Hv]. exists v.
      rewrite (getAllProducts_from_backup w v Hv); [reflexivity|].
      eapply Hseed; eauto.
    + unfold try_catch, bind at 1.
      destruct (apiRequest "/products" None None w) as [[e|v] w1] eqn:A.
      * destruct (getStoredProducts_returns w1) as [b Hb]. exists b.
        rewrite (getAllProducts_from_backup w1 b Hb); [reflexivity|].
        eapply Hseed; [|exact Hb].
        pose proof (apiRequest_storage "/products" None None w) as [Hi _].
        rewrite A in Hi. simpl in Hi. rewrite Hi. exact H.
      * exists v. pose proof (apiRequest_not_nullish _ _ _ _ _ _ A) as Hn.
        destruct (get_defined v "length" Hn) as [x Hx].
        run_eff. rewrite Hx. simpl.
        pose proof (saveProductsBackup_returns v w1) as S.
        destruct (saveProductsBackup v w1) as [r w2].
        simpl in S. subst r. reflexivity.
Qed.

(** *** Create, update, delete *)

Lemma wrap_failure (label : string) (m : M World value)
      (after : value -> M World value) (w w1 : World) (e : Error) :
  m w = (inl e, w1) ->
  try_catch (x <- m ;; after x)
            (fun error => throw (mkError "Error" (label ++ message error))) w
  = (inl (mkError "Error" (label ++ message e)), w1).
Proof. intros H. run_eff. now rewrite H. Qed.

(** C6. When the remote call of [createProduct], [updateProduct] or
    [deleteProduct] fails, the operation fails with the cause wrapped
    under its own label, nothing more is done, and the backup slot is as
    it was; the message of a failed create contains
    "Failed to create product". *)
Theorem mutations_propagate_failure (w : World) (id productData : value) :
  (forall e w1,
      apiRequest "/products" (Some "POST") (JSON_stringify productData) w
      = (inl e, w1) ->
      createProduct productData w
      = (inl (mkError "Error" ("Failed to create product: " ++ message e)), w1)
      /\ ls_item w1 = ls_item w
      /\ includes ("Failed to create product: " ++ message e)
                  "Failed to create product" = true)
  /\ (forall e w1,
        apiRequest ("/products/" ++ to_string id) (Some "PUT")
                   (JSON_stringify productData) w
        = (inl e, w1) ->
        updateProduct id productData w
        = (inl (mkError "Error" ("Failed to update product: " ++ message e)), w1)
        /\ ls_item w1 = ls_item w)
  /\ (forall e w1,
        apiRequest ("/products/" ++ to_string id) (Some "DELETE") None w
        = (inl e, w1) ->
        deleteProduct id w
        = (inl (mkError "Error" ("Failed to delete product: " ++ message e)), w1)
        /\ ls_item w1 = ls_item w).
Proof.
  split; [|split]; intros e w1 A;
    (split; [now apply wrap_failure|]);
    match type of A with
    | apiRequest ?ep ?m ?b w = _ =>
        pose proof (apiRequest_storage ep m b w) as [Hi _]
    end;
    rewrite A in Hi; simpl in Hi; try exact Hi.
  split; [exact Hi|].
  exact (includes_app "Failed to create product" (String ":" (String " " (message e)))).
Qed.

(** *** Read-one *)

Lemma strictly_equal_true (v : value) (n : Z) :
  strictly_equal v (Finite n) = true <-> v = VNum n.
Proof.
  destruct v; simpl; split; try discriminate.
  - intros H. apply Z.eqb_eq in H. now subst.
  - intros [= ->]. apply Z.eqb_refl.
Qed.

Lemma find_by_id_first (n : Z) (pre : list value) (p : value) (post : list value) :
  Forall (fun q => nullish q = false) pre ->
  (forall q, In q pre -> get q "id" <> inr (VNum n)) ->
  get p "id" = inr (VNum n) ->
  find_by_id (Finite n) (pre ++ p :: post) = inr p.
Proof.
  intros Hdef Hpre Hp. induction pre as [|q pre IH]; simpl.
  - rewrite Hp. simpl. now rewrite Z.eqb_refl.
  - inversion Hdef as [|? ? Hq Hrest]; subst.
    destruct (get_defined q "id" Hq) as [i Hi]. rewrite Hi.
    destruct (strictly_equal i (Finite n)) eqn:E.
    + apply strictly_equal_true in E. subst i.
      exfalso. apply (Hpre q); [now left|exact Hi].
    + apply IH; [exact Hrest|]. intros q' Hin. apply Hpre. now right.
Qed.

Lemma find_by_id_none (n : number) (items : list value) :
  Forall (fun q => nullish q = false) items ->
  (forall q, In q items -> forall k, n = Finite k -> get q "id" <> inr (VNum k)) ->
  find_by_id n items = inr VUndefined.
Proof.
  intros Hdef Hno. induction items as [|q items IH]; simpl; [reflexivity|].
  inversion Hdef as [|? ? Hq Hrest]; subst.
  destruct (get_defined q "id" Hq) as [i Hi]. rewrite Hi.
  destruct (strictly_equal i n) eqn:E.
  - destruct n as [|neg|k]; [now destruct i|now destruct i|].
    apply strictly_equal_true in E. subst i.
    exfalso. apply (Hno q (or_introl eq_refl) k eq_refl Hi).
  - apply IH; [exact Hrest|]. intros q' Hin. apply Hno. now right.
Qed.

Lemma has_id_truthy (p : value) (n : Z) :
  get p "id" = inr (VNum n) -> truthy p = true.
Proof. destruct p; simpl; try discriminate; reflexivity. Qed.

(** C9. When the remote read of [getProductById] fails and the backup
    holds a list of products, the result is the first product of the list
    whose [id] is the number [parseInt(id)], and when no product of the
    list has that id (or [parseInt(id)] is [NaN] or an infinity) the call
    fails with "Product with ID <id> not found".  For an integer of
    absolute value below 2^53, given as a number or as its decimal text,
    [parseInt(id)] is that integer. *)
Theorem getProductById_fallback (w : World) (id : value) :
  forall e w1 items,
    apiRequest ("/products/" ++ to_string id) None None w = (inl e, w1) ->
    fst (getStoredProducts w1) = inr (VArr items) ->
    Forall (fun p => nullish p = false) items ->
    (forall pre p post n,
        items = (pre ++ p :: post)%list ->
        parseInt id = Finite n ->
        get p "id" = inr (VNum n) ->
        (forall q, In q pre -> get q "id" <> inr (VNum n)) ->
        fst (getProductById id w) = inr p)
    /\ ((forall p, In p items ->
                  forall n, parseInt id = Finite n -> get p "id" <> inr (VNum n)) ->
        fst (getProductById id w)
        = inl (mkError "Error"
                 ("Product with ID " ++ to_string id ++ " not found")))
    /\ (forall n, Z.abs n < 2 ^ 53 ->
                  id = VNum n \/ id = VStr (dec n) -> parseInt id = Finite n).
Proof.
  intros e w1 items A G Hdef.
  assert (Step : forall r,
             find (VArr items) (parseInt id) = r ->
             fst (getProductById id w)
             = match r with
               | inl e' => inl e'
               | inr product =>
                   if negb (truthy product)
                   then inl (mkError "Error"
                               ("Product with ID " ++ to_string id ++ " not found"))
                   else inr product
               end).
  { intros r Hr. unfold getProductById, try_catch. rewrite A.
    unfold bind at 1. destruct (getStoredProducts w1) as [b w2].
    simpl in G. subst b. run_eff. rewrite Hr.
    destruct r as [e'|product]; simpl; [reflexivity|].
    now destruct (negb (truthy product)). }
  split; [|split].
  - intros pre p post n -> Hn Hp Hpre.
    rewrite (Step (inr p)).
    + now rewrite (has_id_truthy p n Hp).
    + unfold find. simpl. rewrite Hn.
      apply find_by_id_first; [|exact Hpre|exact Hp].
      apply Forall_app in Hdef. tauto.
  - intros Hno. rewrite (Step (inr VUndefined)); [reflexivity|].
    unfold find. simpl. apply find_by_id_none; [exact Hdef|].
    intros q Hin k Hk. now apply Hno.
  - intros n Hn [->| ->]; now apply parseInt_of_safe_integer.
Qed.

End Backup.

(** *** Read-all on a backup that parses to null *)

(** C3, as stated, fails: with the text "null" in the backup slot
    [getAllProducts] throws, in local-only mode and, once the remote read
    has failed, in remote mode; and with the text "{}" there it returns
    an object, not a list. *)
Lemma getAllProducts_null_backup :
  @local_only Samples.on_deployed_site = true
  /\ fst (@getAllProducts Samples.on_deployed_site (Samples.offline (Some "null")))
     = inl (TypeError "Cannot read properties of null (reading 'length')")
  /\ @local_only Samples.on_localhost = false
  /\ fst (@getAllProducts Samples.on_localhost (Samples.offline (Some "null")))
     = inl (TypeError "Cannot read properties of null (reading 'length')")
  /\ fst (@getAllProducts Samples.on_deployed_site (Samples.offline (Some "{}")))
     = inr (VObj []).
Proof. repeat split; vm_compute; reflexivity. Qed.

Lemma getAllProducts_falls_back_witness :
  (Client.sent (snd (@getAllProducts Samples.on_deployed_site
                       (Samples.offline (Some (Samples.json_text Samples.backup)))))
   = []
   /\ fst (@getAllProducts Samples.on_deployed_site
             (Samples.offline (Some (Samples.json_text Samples.backup))))
      = inr Samples.backup)
  /\ fst (@getAllProducts Samples.on_localhost (Samples.offline None))
     = inr (@seeded Samples.on_localhost)
  /\ exists v,
      fst (@getAllProducts Samples.on_localhost
             (Samples.answering 200 (VArr [VObj Samples.wayfarer])))
      = inr v.
Proof.
  split; [|split].
  - destruct (@getAllProducts_falls_back Samples.on_deployed_site
                (Samples.offline (Some (Samples.json_text Samples.backup))))
      as (H & _ & _).
    destruct (H eq_refl) as [Hs Hv].
    split; [exact Hs|]. apply Hv; reflexivity.
  - destruct (@getAllProducts_falls_back Samples.on_localhost
                (Samples.offline None)) as (_ & H & _).
    apply (H Samples.failed_to_fetch
             (snd (@apiRequest Samples.on_localhost "/products" None None
                     (Samples.offline None))));
      reflexivity.
  - destruct (@getAllProducts_falls_back Samples.on_localhost
                (Samples.answering 200 (VArr [VObj Samples.wayfarer])))
      as (_ & _ & H).
    apply H. intros text v Hi. discriminate Hi.
Defined.

Lemma getStoredProducts_total_witness :
  fst (@getStoredProducts Samples.on_localhost
         (Client.mkWorld (Some "[]") true (fun _ => false)
                         (fun _ _ => Rejects Samples.failed_to_fetch) []))
  = inr (@seeded Samples.on_localhost)
  /\ fst (@getStoredProducts Samples.on_localhost (Samples.offline None))
     = inr (@seeded Samples.on_localhost)
  /\ fst (@getStoredProducts Samples.on_localhost (Samples.offline (Some EmptyString)))
     = inr (@seeded Samples.on_localhost)
  /\ fst (@getStoredProducts Samples.on_localhost (Samples.offline (Some "{oops")))
     = inr (@seeded Samples.on_localhost).
Proof.
  split; [|split; [|split]].
  - destruct (@getStoredProducts_total Samples.on_localhost
                (Client.mkWorld (Some "[]") true (fun _ => false)
                   (fun _ _ => Rejects Samples.failed_to_fetch) []))
      as (_ & _ & H & _).
    exact (H eq_refl).
  - destruct (@getStoredProducts_total Samples.on_localhost
                (Samples.offline None)) as (_ & _ & _ & H & _).
    exact (H eq_refl).
  - destruct (@getStoredProducts_total Samples.on_localhost
                (Samples.offline (Some EmptyString))) as (_ & _ & _ & _ & H & _).
    exact (H eq_refl).
  - destruct (@getStoredProducts_total Samples.on_localhost
                (Samples.offline (Some "{oops"))) as (_ & _ & _ & _ & _ & H & _).
    apply (H "{oops" Samples.SyntaxError); reflexivity.
Defined.

Lemma mutations_propagate_failure_witness :
  @createProduct Samples.on_localhost
     (VObj [("name", VStr "Test"); ("price", VNum 10)]) (Samples.offline None)
  = (inl (mkError "Error" "Failed to create product: Failed to fetch"),
     snd (@apiRequest Samples.on_localhost "/products" (Some "POST")
            (Samples.stringify (VObj [("name", VStr "Test"); ("price", VNum 10)]))
            (Samples.offline None)))
  /\ fst (@updateProduct Samples.on_localhost (VNum 7)
            (VObj [("price", VNum 12)]) (Samples.offline None))
     = inl (mkError "Error" "Failed to update product: Failed to fetch")
  /\ fst (@deleteProduct Samples.on_localhost (VNum 7) (Samples.offline None))
     = inl (mkError "Error" "Failed to delete product: Failed to fetch").
Proof.
  destruct (@mutations_propagate_failure Samples.on_localhost
              (Samples.offline None) (VNum 7)
              (VObj [("name", VStr "Test"); ("price", VNum 10)]))
    as (Hc & _ & Hd).
  destruct (@mutations_propagate_failure Samples.on_localhost
              (Samples.offline None) (VNum 7) (VObj [("price", VNum 12)]))
    as (_ & Hu & _).
  split; [|split].
  - eapply (proj1 (Hc Samples.failed_to_fetch _ eq_refl)).
  - rewrite (proj1 (Hu Samples.failed_to_fetch _ eq_refl)). reflexivity.
  - rewrite (proj1 (Hd Samples.failed_to_fetch _ eq_refl)). reflexivity.
Defined.

Lemma getProductById_fallback_witness :
  fst (@getProductById Samples.on_localhost (VStr "7")
         (Samples.offline (Some (Samples.json_text Samples.backup))))
  = inr (VObj [("id", VNum 7); ("name", VStr "Clubmaster")])
  /\ fst (@getProductById Samples.on_localhost (VStr "8")
            (Samples.offline (Some (Samples.json_text Samples.backup))))
     = inl (mkError "Error" "Product with ID 8 not found")
  /\ fst (@getProductById Samples.on_localhost
            (VStr (Samples.no_break_space ++ "7"))
            (Samples.offline (Some (Samples.json_text Samples.backup))))
     = inr (VObj [("id", VNum 7); ("name", VStr "Clubmaster")])
  /\ fst (@getProductById Samples.on_localhost_large
            (VStr "9007199254740993")
            (Samples.offline (Some (Samples.json_text Samples.large_backup))))
     = inr (VObj [("id", VNum 9007199254740992); ("name", VStr "Panto")]).
Proof.
  split; [|split; [|split]].
  - destruct (@getProductById_fallback Samples.on_localhost
                (Samples.offline (Some (Samples.json_text Samples.backup)))
                (VStr "7") Samples.failed_to_fetch _
                [VObj [("id", VNum 3); ("name", VStr "Round Metal")];
                 VObj [("id", VNum 7); ("name", VStr "Clubmaster")]]
                eq_refl eq_refl) as [H _].
    + repeat constructor.
    + apply (H [VObj [("id", VNum 3); ("name", VStr "Round Metal")]]
               (VObj [("id", VNum 7); ("name", VStr "Clubmaster")]) [] 7).
      * reflexivity.
      * vm_compute. reflexivity.
      * reflexivity.
      * intros q [<-|[]]. discriminate.
  - destruct (@getProductById_fallback Samples.on_localhost
                (Samples.offline (Some (Samples.json_text Samples.backup)))
                (VStr "8") Samples.failed_to_fetch _
                [VObj [("id", VNum 3); ("name", VStr "Round Metal")];
                 VObj [("id", VNum 7); ("name", VStr "Clubmaster")]]
                eq_refl eq_refl) as [_ [H _]].
    + repeat constructor.
    + apply H. intros p [<-|[<-|[]]] n [= <-]; discriminate.
  - destruct (@getProductById_fallback Samples.on_localhost
                (Samples.offline (Some (Samples.json_text Samples.backup)))
                (VStr (Samples.no_break_space ++ "7"))
                Samples.failed_to_fetch _
                [VObj [("id", VNum 3); ("name", VStr "Round Metal")];
                 VObj [("id", VNum 7); ("name", VStr "Clubmaster")]]
                eq_refl eq_refl) as [H _].
    + repeat constructor.
    + apply (H [VObj [("id", VNum 3); ("name", VStr "Round Metal")]]
               (VObj [("id", VNum 7); ("name", VStr "Clubmaster")]) [] 7).
      * reflexivity.
      * vm_compute. reflexivity.
      * reflexivity.
      * intros q [<-|[]]. discriminate.
  - destruct (@getProductById_fallback Samples.on_localhost_large
                (Samples.offline (Some (Samples.json_text Samples.large_backup)))
                (VStr "9007199254740993")
                Samples.failed_to_fetch _
                [VObj [("id", VNum 9007199254740992); ("name", VStr "Panto")]]
                eq_refl eq_refl) as [H _].
    + repeat constructor.
    + apply (H [] (VObj [("id", VNum 9007199254740992); ("name", VStr "Panto")])
               [] 9007199254740992).
      * reflexivity.
      * vm_compute. reflexivity.
      * reflexivity.
      * intros q [].
Defined.

(** *** What the request executor does with the handler's envelope *)

(** C5, at the envelope [handleGet] answers a read of the whole table
    with: [apiRequest] returns the envelope itself, and so does
    [getAllProducts]; the rows under [data] are not unwrapped. *)
Theorem apiRequest_keeps_handler_envelope (rows : list Server.Row) :
  let envelope :=
    VObj [("success", VBool true); ("data", Server.rows_json rows);
          ("count", Server.count rows); ("source", VStr "neon")] in
  @normalize envelope = inr envelope
  /\ fst (@apiRequest Samples.on_localhost "/products" None None
            (Samples.answering 200 envelope)) = inr envelope
  /\ fst (@getAllProducts Samples.on_localhost (Samples.answering 200 envelope))
     = inr envelope
  /\ envelope <> Server.rows_json rows.
Proof. repeat split; try reflexivity. discriminate. Qed.

(** *** Endpoint resolver *)

(** The matcher of the host pattern accepts the bare IPv4 literals and
    nothing else. *)

Lemma append_empty (s : string) : s ++ EmptyString = s.
Proof. induction s as [|c s IH]; simpl; [|rewrite IH]; reflexivity. Qed.

Lemma append_assoc (a b c : string) : (a ++ b) ++ c = a ++ (b ++ c).
Proof. induction a as [|x a IH]; simpl; [|rewrite IH]; reflexivity. Qed.

Lemma skip_digits_app (a rest : string) :
  all_digits a = true -> no_digit_ahead rest ->
  skip_digits (a ++ rest) = rest.
Proof.
  intros Ha Hr. induction a as [|c a IH]; simpl in *.
  - destruct rest as [|c r]; [reflexivity|]. simpl in *. now rewrite Hr.
  - apply andb_true_iff in Ha as [Hc Ha]. rewrite Hc. now apply IH.
Qed.

Lemma skip_digits_split (s : string) :
  exists a, all_digits a = true /\ s = a ++ skip_digits s
            /\ no_digit_ahead (skip_digits s).
Proof.
  induction s as [|c s (a & Ha & Hs & Hn)]; simpl.
  - exists EmptyString. simpl. auto.
  - destruct (is_digit c) eqn:D.
    + exists (String c a). simpl. rewrite D, Ha. split; [reflexivity|].
      split; [now rewrite <- Hs|exact Hn].
    + exists EmptyString. simpl. auto.
Qed.

Lemma digits1_complete (a rest : string) :
  digit_run a -> no_digit_ahead rest -> digits1 (a ++ rest) = Some rest.
Proof.
  intros [Hne Ha] Hr. destruct a as [|c a]; [contradiction|].
  simpl in *. apply andb_true_iff in Ha as [Hc Ha]. rewrite Hc.
  now rewrite skip_digits_app.
Qed.

Lemma digits1_sound (s r : string) :
  digits1 s = Some r -> exists a, digit_run a /\ s = a ++ r.
Proof.
  destruct s as [|c s]; simpl; [discriminate|].
  destruct (is_digit c) eqn:D; [|discriminate].
  intros [= <-]. destruct (skip_digits_split s) as (a & Ha & Hs & _).
  exists (String c a). split.
  - split; [discriminate|]. simpl. now rewrite D.
  - simpl. now rewrite <- Hs.
Qed.

Lemma dot_sound (s r : string) : dot s = Some r -> s = String "." r.
Proof.
  destruct s as [|c s]; simpl; [discriminate|].
  destruct c as [[] [] [] [] [] [] [] []]; try discriminate.
  now intros [= ->].
Qed.

Lemma matches_ipv4_correct (h : string) :
  matches_ipv4 h = true <-> bare_ipv4 h.
Proof.
  unfold matches_ipv4, bare_ipv4, andThen. split.
  - destruct (digits1 h) as [s1|] eqn:D1; [|discriminate].
    destruct (dot s1) as [s2|] eqn:P1; [|discriminate].
    destruct (digits1 s2) as [s3|] eqn:D2; [|discriminate].
    destruct (dot s3) as [s4|] eqn:P2; [|discriminate].
    destruct (digits1 s4) as [s5|] eqn:D3; [|discriminate].
    destruct (dot s5) as [s6|] eqn:P3; [|discriminate].
    destruct (digits1 s6) as [s7|] eqn:D4; [|discriminate].
    destruct s7; [|discriminate]. intros _.
    apply digits1_sound in D1 as (a & Ha & ->).
    apply digits1_sound in D2 as (b & Hb & ->).
    apply digits1_sound in D3 as (c & Hc & ->).
    apply digits1_sound in D4 as (d & Hd & ->).
    apply dot_sound in P1 as ->. apply dot_sound in P2 as ->.
    apply dot_sound in P3 as ->.
    exists a, b, c, d. rewrite append_empty. simpl. auto.
  - intros (a & b & c & d & Ha & Hb & Hc & Hd & ->). simpl.
    rewrite digits1_complete; [simpl|exact Ha|reflexivity].
    rewrite digits1_complete; [simpl|exact Hb|reflexivity].
    rewrite digits1_complete; [simpl|exact Hc|reflexivity].
    rewrite <- (append_empty d).
    now rewrite (digits1_complete d EmptyString Hd I).
Qed.

(** C4, amended. A non-empty override address is returned as it is.
    Without one: a host whose name contains neither "localhost" nor
    "127.0.0.1" and is not a bare IPv4 literal gives local-only mode; any
    other host that is not exactly "localhost" or "127.0.0.1" gives
    http://<host>:5004/api; and the hosts "localhost" and "127.0.0.1" give
    http://localhost:5004/api. *)
Theorem getApiBaseUrl_decision_order (e : Env) :
  let h := hostname e in
  (forall u, REACT_APP_PRODUCTS_API_URL e = Some u -> u <> EmptyString ->
             getApiBaseUrl e = Some u)
  /\ (no_override e ->
      contains_loopback_name h = false -> ~ bare_ipv4 h ->
      getApiBaseUrl e = None)
  /\ (no_override e ->
      contains_loopback_name h = true \/ bare_ipv4 h ->
      h <> "localhost" -> h <> "127.0.0.1" ->
      getApiBaseUrl e = Some ("http://" ++ h ++ ":5004/api"))
  /\ (no_override e ->
      h = "localhost" \/ h = "127.0.0.1" ->
      getApiBaseUrl e = Some "http://localhost:5004/api").
Proof.
  unfold no_override, getApiBaseUrl, isDeployedEnvironment,
    contains_loopback_name.
  cbv zeta. split; [|split; [|split]].
  - intros u -> Hu. simpl.
    destruct (u =? EmptyString)%string eqn:E; [|reflexivity].
    apply String.eqb_eq in E. contradiction.
  - intros -> Hl Hip. apply orb_false_iff in Hl as [-> ->].
    destruct (matches_ipv4 (hostname e)) eqn:M; [|reflexivity].
    apply matches_ipv4_correct in M. contradiction.
  - intros -> Hin H1 H2.
    apply String.eqb_neq in H1, H2. rewrite H1, H2.
    assert (D : negb (includes (hostname e) "localhost")
                && negb (includes (hostname e) "127.0.0.1")
                && negb (matches_ipv4 (hostname e)) = false).
    { destruct Hin as [Hl | Hip].
      - apply orb_true_iff in Hl as [-> | ->]; simpl;
          rewrite ?andb_false_r; reflexivity.
      - apply matches_ipv4_correct in Hip. rewrite Hip. simpl.
        now rewrite andb_false_r. }
    rewrite D. reflexivity.
  - intros -> [-> | ->]; reflexivity.
Qed.

Lemma getApiBaseUrl_decision_order_witness :
  getApiBaseUrl (mkEnv (Some "https://api.example.com") "shop.example.com")
  = Some "https://api.example.com"
  /\ getApiBaseUrl (mkEnv None "shop.example.com") = None
  /\ getApiBaseUrl (mkEnv None "192.168.1.5") = Some "http://192.168.1.5:5004/api"
  /\ getApiBaseUrl (mkEnv None "localhost.localdomain")
     = Some "http://localhost.localdomain:5004/api"
  /\ getApiBaseUrl (mkEnv None "127.0.0.1") = Some "http://localhost:5004/api".
Proof.
  split; [|split; [|split; [|split]]].
  - apply (getApiBaseUrl_decision_order
             (mkEnv (Some "https://api.example.com") "shop.example.com"));
      [reflexivity|discriminate].
  - apply (getApiBaseUrl_decision_order (mkEnv None "shop.example.com"));
      [reflexivity|reflexivity|].
    intros H. apply matches_ipv4_correct in H. discriminate H.
  - apply (getApiBaseUrl_decision_order (mkEnv None "192.168.1.5"));
      [reflexivity| |discriminate|discriminate].
    right. apply matches_ipv4_correct. reflexivity.
  - apply (getApiBaseUrl_decision_order (mkEnv None "localhost.localdomain"));
      [reflexivity|left; reflexivity|discriminate|discriminate].
  - apply (getApiBaseUrl_decision_order (mkEnv None "127.0.0.1"));
      [reflexivity|right; reflexivity].
Defined.

(** C4, as stated, fails at the host "localhost.localdomain", which is
    not a bare IPv4 literal: whether or not that host counts as a loopback
    name, one of the clauses of the claim is false there. *)
Lemma getApiBaseUrl_loopback_name_inside_host :
  ~ exists loopback : string -> bool,
      let h := "localhost.localdomain" in
      (loopback h = false -> ~ bare_ipv4 h ->
       getApiBaseUrl (mkEnv None h) = None)
      /\ (loopback h = true ->
          getApiBaseUrl (mkEnv None h) = Some "http://localhost:5004/api").
Proof.
  intros [loopback [H2 H4]].
  destruct (loopback "localhost.localdomain") eqn:L.
  - specialize (H4 eq_refl). discriminate H4.
  - assert (N : ~ bare_ipv4 "localhost.localdomain").
    { intros H. apply matches_ipv4_correct in H. discriminate H. }
    specialize (H2 eq_refl N). discriminate H2.
Qed.

End ClientProofs.

(* ===================================================================== *)
(** ** The server, verified *)
(* ===================================================================== *)

Module ServerProofs.
Import Js Eff Server.
Local Open Scope eff_scope.

#[local] Arguments destructure : simpl never.
#[local] Arguments sql : simpl never.
#[local] Arguments add_missing_columns : simpl never.

Ltac run_eff :=
  unfold bind, ret, throw, lift, try_catch in *; simpl in *.

(** *** The store at work *)

(** A search for "aviator" finds the row named "Aviator Classic" and the
    row of category "Sunglasses - Aviator", the newer one first. *)
Example search_aviator :
  let post name category :=
    mkReq "POST" (VObj [])
          (VObj [("name", VStr name); ("price", VNum 50);
                 ("category", VStr category)]) in
  let db :=
    snd (handler (post "Round Metal" "Sunglasses - Aviator")
           (snd (handler (post "Wayfarer" "Optical")
                   (snd (handler (post "Aviator Classic" "Sunglasses")
                           (snd (handler Samples.get_all Samples.fresh))))))) in
  let reply :=
    fst (handler (mkReq "GET" (VObj [("search", VStr "aviator")]) VUndefined) db) in
  res_status reply = 200
  /\ match get (res_json reply) "data" with
     | inr (VArr [newer; older]) =>
         get newer "name" = inr (VStr "Round Metal")
         /\ get older "name" = inr (VStr "Aviator Classic")
     | _ => False
     end.
Proof. vm_compute. repeat split. Qed.

(** *** What a statement leaves in the log *)

Lemma run_sent (s : Statement) (db : Store) :
  sent (snd (run s db)) = sent db /\ refuses (snd (run s db)) = refuses db.
Proof.
  unfold run.
  destruct s; destruct (products db) as [t|]; simpl; auto;
    try (destruct (mem _ _); simpl; auto);
    try (destruct (unknown_column _ _); simpl; auto);
    try (destruct (null_in _); simpl; auto);
    try (destruct (violation _); simpl; auto).
Qed.

Lemma sql_sent (s : Statement) (db : Store) :
  sent (snd (sql s db)) = (sent db ++ [s])%list
  /\ refuses (snd (sql s db)) = refuses db.
Proof.
  unfold sql.
  destruct (refuses db (List.length (sent db)) s); simpl; [auto|].
  match goal with |- context [run s ?d] => pose proof (run_sent s d) as [H1 H2] end.
  rewrite H1, H2. auto.
Qed.

Lemma issued_app (before after : Store) (l : list Statement) :
  sent after = (sent before ++ l)%list -> issued before after = l.
Proof.
  intros H. unfold issued. rewrite H.
  rewrite skipn_app, skipn_all, Nat.sub_diag. reflexivity.
Qed.

(** Statements awaited in sequence: a prefix is sent, all of it when the
    sequence completes, and otherwise the last one sent is the one that
    failed. *)
Lemma in_sequence_sent (l : list Statement) :
  forall db,
  exists n,
    sent (snd (in_sequence l db)) = (sent db ++ firstn n l)%list
    /\ refuses (snd (in_sequence l db)) = refuses db
    /\ ((fst (in_sequence l db) = inr tt /\ n = List.length l)
        \/ (exists e s db1,
              fst (in_sequence l db) = inl e
              /\ nth_error l (n - 1) = Some s /\ (1 <= n)%nat
              /\ sent db1 = (sent db ++ firstn (n - 1) l)%list
              /\ fst (sql s db1) = inl e)).
Proof.
  induction l as [|s rest IH]; intros db.
  - exists 0%nat. simpl. rewrite app_nil_r. auto.
  - simpl. unfold bind.
    destruct (sql s db) as [[e|r] db1] eqn:Q;
      pose proof (sql_sent s db) as [Hs Hr]; rewrite Q in Hs, Hr; simpl in Hs, Hr.
    + exists 1%nat. simpl. split; [exact Hs|]. split; [exact Hr|].
      right. exists e, s, db. simpl. rewrite app_nil_r, Q. auto.
    + destruct (IH db1) as (n & Hn & Hrf & Hcase).
      exists (S n). simpl. rewrite Hn, Hs, <- app_assoc. simpl.
      split; [reflexivity|]. split; [congruence|].
      destruct Hcase as [[Hok Hlen] | (e & s' & db2 & He & Hnth & Hpos & Hsent & Hfail)].
      * left. split; [exact Hok|congruence].
      * right. exists e, s', db2. split; [exact He|].
        destruct n as [|n]; [lia|]. simpl in *. rewrite Nat.sub_0_r in *.
        split; [exact Hnth|]. split; [lia|]. split; [|exact Hfail].
        rewrite Hsent, Hs, <- app_assoc. reflexivity.
Qed.

Lemma sql_sent_eq (s : Statement) (db db' : Store) (r : result (list Row)) :
  sql s db = (r, db') ->
  sent db' = (sent db ++ [s])%list /\ refuses db' = refuses db.
Proof.
  intros Q. pose proof (sql_sent s db) as H. now rewrite Q in H.
Qed.

Lemma alter_accepted (c : string) (d : value) (db : Store) :
  obliging db -> products db <> None ->
  exists db',
    sql (AlterAddColumn c d) db = (inr [], db')
    /\ obliging db' /\ products db' <> None.
Proof.
  intros Hob Ht. unfold sql. rewrite Hob. unfold run. simpl.
  destruct (products db) as [t|]; [|contradiction].
  destruct (mem c (columns t)); eexists; (split; [reflexivity|]);
    split; try discriminate; exact Hob.
Qed.

Lemma in_sequence_alters (l : list Statement) :
  Forall is_alter l ->
  forall db, obliging db -> products db <> None ->
             fst (in_sequence l db) = inr tt.
Proof.
  induction 1 as [|s rest Hs _ IH]; intros db Hob Ht; [reflexivity|].
  destruct s; try contradiction.
  destruct (alter_accepted column default db Hob Ht) as (db' & Q & Hob' & Ht').
  simpl. unfold bind. rewrite Q. now apply IH.
Qed.

(** *** The add-column block *)

Lemma store_after_sent (l : list Statement) :
  forall db,
    sent (store_after l db) = (sent db ++ l)%list
    /\ refuses (store_after l db) = refuses db.
Proof.
  induction l as [|s rest IH]; intros db; cbn [store_after].
  - now rewrite app_nil_r.
  - destruct (IH (snd (sql s db))) as [H1 H2].
    destruct (sql_sent s db) as [H3 H4].
    rewrite H1, H2, H3, H4, <- app_assoc. auto.
Qed.

Lemma sql_keeps_the_table (s : Statement) (db : Store) :
  products db <> None -> products (snd (sql s db)) <> None.
Proof.
  intros Ht. unfold sql.
  destruct (refuses db _ s); [exact Ht|].
  unfold run. cbn [products].
  destruct (products db) as [t|]; [|contradiction].
  destruct s; cbn [snd products with_products]; try discriminate;
    try (destruct (mem _ _); cbn [snd products with_products]; discriminate);
    destruct (unknown_column _ _); cbn [snd products]; try discriminate;
    try (destruct (null_in _); cbn [snd products]; discriminate);
    destruct (violation _); cbn [snd products with_products]; discriminate.
Qed.

Lemma store_after_keeps_the_table (l : list Statement) :
  forall db, products db <> None -> products (store_after l db) <> None.
Proof.
  induction l as [|s rest IH]; intros db Ht; cbn [store_after]; [exact Ht|].
  apply IH. now apply sql_keeps_the_table.
Qed.

(** On a store that has the table an add-column statement is answered
    with an error exactly when the store refuses it. *)
Lemma alter_answer (c : string) (d : value) (db : Store) :
  products db <> None ->
  answers_error (AlterAddColumn c d) db
  = refuses db (List.length (sent db)) (AlterAddColumn c d).
Proof.
  intros Ht. unfold answers_error, sql.
  destruct (refuses db _ _); [reflexivity|].
  unfold run. cbn [products].
  destruct (products db) as [t|]; [|contradiction].
  now destruct (mem c (columns t)).
Qed.

(** Statements awaited in sequence are all sent when none is answered
    with an error. *)
Lemma in_sequence_completes (l : list Statement) :
  forall db,
    (forall k s, nth_error l k = Some s ->
                 answers_error s (store_after (firstn k l) db) = false) ->
    in_sequence l db = (inr tt, store_after l db).
Proof.
  induction l as [|s0 rest IH]; intros db H; [reflexivity|].
  pose proof (H 0%nat s0 eq_refl) as H0.
  cbn [firstn store_after] in H0. unfold answers_error in H0.
  cbn [in_sequence store_after]. unfold bind.
  destruct (sql s0 db) as [[e|r] db1] eqn:Q; cbn [fst snd] in *;
    [discriminate|].
  apply IH. intros k s Hk. specialize (H (S k) s Hk).
  cbn [firstn store_after] in H. now rewrite Q in H.
Qed.

(** Statements awaited in sequence stop at the first one that is
    answered with an error. *)
Lemma in_sequence_stops (l : list Statement) :
  forall db k s,
    nth_error l k = Some s ->
    (forall i s', (i < k)%nat -> nth_error l i = Some s' ->
                  answers_error s' (store_after (firstn i l) db) = false) ->
    answers_error s (store_after (firstn k l) db) = true ->
    exists e,
      in_sequence l db
      = (inl e, snd (sql s (store_after (firstn k l) db))).
Proof.
  induction l as [|s0 rest IH]; intros db k s Hk Hbefore Hfail.
  - destruct k; discriminate.
  - destruct k as [|k].
    + injection Hk as ->. cbn [firstn store_after] in *.
      unfold answers_error in Hfail. cbn [in_sequence]. unfold bind.
      destruct (sql s db) as [[e|r] db1]; cbn [fst snd] in *; [|discriminate].
      now exists e.
    + cbn [nth_error] in Hk.
      pose proof (Hbefore 0%nat s0 ltac:(lia) eq_refl) as H0.
      cbn [firstn store_after] in H0, Hfail |- *.
      unfold answers_error in H0. cbn [in_sequence]. unfold bind.
      destruct (sql s0 db) as [[e|r] db1] eqn:Q; cbn [fst snd] in *;
        [discriminate|].
      apply IH; [exact Hk| |exact Hfail].
      intros i s' Hi Hs'.
      specialize (Hbefore (S i) s' ltac:(lia) Hs').
      cbn [firstn store_after] in Hbefore. now rewrite Q in Hbefore.
Qed.

Lemma firstn_succ {A} (l : list A) :
  forall k x, nth_error l k = Some x -> firstn (S k) l = (firstn k l ++ [x])%list.
Proof.
  induction l as [|a l IH]; intros [|k] x H; try discriminate.
  - now injection H as ->.
  - cbn [firstn app]. f_equal. now apply IH.
Qed.

Lemma nth_error_alter (k : nat) (s : Statement) :
  nth_error add_column_statements k = Some s -> is_alter s.
Proof.
  intros H. apply nth_error_In in H.
  assert (Hal : Forall is_alter add_column_statements) by (repeat constructor).
  rewrite Forall_forall in Hal. now apply Hal.
Qed.

(** On a store that has the table, the add-column statement at position
    [k] of the block is answered with an error exactly when the store
    refuses it at its position. *)
Lemma block_answer (db : Store) (k : nat) (s : Statement) :
  products db <> None ->
  nth_error add_column_statements k = Some s ->
  answers_error s (store_after (firstn k add_column_statements) db)
  = refuses db (List.length (sent db) + k) s.
Proof.
  intros Ht Hk. pose proof (nth_error_alter k s Hk) as Hs.
  destruct s; try contradiction.
  rewrite alter_answer by (now apply store_after_keeps_the_table).
  destruct (store_after_sent (firstn k add_column_statements) db) as [H1 H2].
  rewrite H1, H2, length_app, length_firstn.
  assert (Hlt : (k < List.length add_column_statements)%nat)
    by (apply nth_error_Some; congruence).
  now rewrite Nat.min_l by lia.
Qed.

Lemma query_part_sent (req : Req) (db : Store) :
  exists rest, sent (snd (query_part req db)) = (sent db ++ rest)%list.
Proof.
  unfold query_part, bind, lift, ret.
  destruct (destructure "req.query" (req_query req) _) as [e|query];
    cbn [fst snd]; [exists []; now rewrite app_nil_r|].
  destruct (truthy (bound "id" query));
    [|destruct (truthy (bound "search" query));
      [|destruct (truthy (bound "category" query))]];
    match goal with
    | |- context [sql ?s db] =>
        exists [s]; destruct (sql_sent s db) as [H _];
        destruct (sql s db) as [[e|rows] db1]; cbn [fst snd] in *;
        try exact H; destruct rows; exact H
    end.
Qed.

(** C2, amended. The add-column statements run inside one guard: the
    block never throws; it sends all eleven statements when none of them
    is answered with an error, and otherwise the statements up to and
    including the first one that is answered with an error, and none
    after it; on a store that has the table the statement answered with
    an error is the first one the store refuses at its position; and
    after the block [handleGet] goes on to create the comments table. *)
Theorem add_missing_columns_guarded (db : Store) :
  fst (add_missing_columns db) = inr tt
  /\ ((forall k s,
         nth_error add_column_statements k = Some s ->
         answers_error s (store_after (firstn k add_column_statements) db)
         = false) ->
      issued db (snd (add_missing_columns db)) = add_column_statements)
  /\ (forall k s,
        nth_error add_column_statements k = Some s ->
        (forall i s', (i < k)%nat ->
                      nth_error add_column_statements i = Some s' ->
                      answers_error
                        s' (store_after (firstn i add_column_statements) db)
                      = false) ->
        answers_error s (store_after (firstn k add_column_statements) db)
        = true ->
        issued db (snd (add_missing_columns db))
        = firstn (S k) add_column_statements)
  /\ (products db <> None ->
      forall k s,
        nth_error add_column_statements k = Some s ->
        (forall i s', (i < k)%nat ->
                      nth_error add_column_statements i = Some s' ->
                      refuses db (List.length (sent db) + i) s' = false) ->
        refuses db (List.length (sent db) + k) s = true ->
        issued db (snd (add_missing_columns db))
        = firstn (S k) add_column_statements)
  /\ (obliging db -> products db <> None ->
      issued db (snd (add_missing_columns db)) = add_column_statements)
  /\ (forall req r db1,
        sql CreateProductsTable db = (inr r, db1) ->
        exists rest,
          issued db (snd (handleGet req db))
          = (CreateProductsTable
               :: issued db1 (snd (add_missing_columns db1))
               ++ CreateCommentsTable :: rest)%list).
Proof.
  assert (Never : forall d, fst (add_missing_columns d) = inr tt).
  { intros d. unfold add_missing_columns, try_catch.
    now destruct (in_sequence add_column_statements d) as [[e|[]] d']. }
  assert (Same : forall d, snd (add_missing_columns d)
                           = snd (in_sequence add_column_statements d)).
  { intros d. unfold add_missing_columns, try_catch.
    now destruct (in_sequence add_column_statements d) as [[e|[]] d']. }
  assert (All : forall d,
             (forall k s,
                 nth_error add_column_statements k = Some s ->
                 answers_error
                   s (store_after (firstn k add_column_statements) d)
                 = false) ->
             issued d (snd (add_missing_columns d)) = add_column_statements).
  { intros d H. rewrite Same, (in_sequence_completes _ d H). cbn [snd].
    apply issued_app. apply store_after_sent. }
  assert (Stop : forall d k s,
             nth_error add_column_statements k = Some s ->
             (forall i s', (i < k)%nat ->
                           nth_error add_column_statements i = Some s' ->
                           answers_error
                             s' (store_after (firstn i add_column_statements) d)
                           = false) ->
             answers_error s (store_after (firstn k add_column_statements) d)
             = true ->
             issued d (snd (add_missing_columns d))
             = firstn (S k) add_column_statements).
  { intros d k s Hk Hbefore Hfail.
    destruct (in_sequence_stops _ d k s Hk Hbefore Hfail) as [e E].
    rewrite Same, E. cbn [snd]. apply issued_app.
    destruct (sql_sent s (store_after (firstn k add_column_statements) d))
      as [H1 _].
    destruct (store_after_sent (firstn k add_column_statements) d) as [H2 _].
    rewrite H1, H2, <- app_assoc. f_equal. symmetry. now apply firstn_succ. }
  split; [apply Never|]. split; [apply All|]. split; [apply Stop|].
  split; [|split].
  - intros Ht k s Hk Hbefore Hfail. apply (Stop db k s Hk).
    + intros i s' Hi Hs'. rewrite (block_answer db i s' Ht Hs').
      now apply Hbefore.
    + now rewrite (block_answer db k s Ht Hk).
  - intros Hob Ht. apply All. intros k s Hk.
    rewrite (block_answer db k s Ht Hk). apply Hob.
  - intros req r db1 Q.
    destruct (sql_sent_eq _ _ _ _ Q) as [H1 _].
    change (handleGet req)
      with (sql CreateProductsTable ;;;
            add_missing_columns ;;;
            sql CreateCommentsTable ;;;
            query_part req).
    unfold bind at 1. rewrite Q. unfold bind at 1.
    pose proof (Never db1) as Hret. pose proof (Same db1) as Hsame.
    destruct (in_sequence_sent add_column_statements db1)
      as (n & Hn & _ & _).
    rewrite <- Hsame in Hn.
    rewrite (issued_app db1 (snd (add_missing_columns db1)) _ Hn).
    destruct (add_missing_columns db1) as [[e|[]] db2];
      cbn [fst snd] in *; [discriminate|].
    unfold bind.
    destruct (sql CreateCommentsTable db2) as [[e|r3] db3] eqn:Q3;
      destruct (sql_sent_eq _ _ _ _ Q3) as [H3 _]; cbn [fst snd].
    + exists []. apply issued_app.
      rewrite H3, Hn, H1, <- !app_assoc. reflexivity.
    + destruct (query_part_sent req db3) as [rest Hrest].
      exists rest. apply issued_app.
      rewrite Hrest, H3, Hn, H1, <- !app_assoc. reflexivity.
Qed.

(** C2, as stated, fails: when the store answers the first add-column
    statement with an error, the ten that follow are never sent (the
    request itself is served). *)
Lemma add_column_failure_skips_the_rest :
  let after := snd (handler Samples.get_all Samples.losing_framecolor) in
  In (AlterAddColumn "style" VNull) add_column_statements
  /\ ~ In (AlterAddColumn "style" VNull)
         (issued Samples.losing_framecolor after)
  /\ issued Samples.losing_framecolor after
     = [ CreateProductsTable; AlterAddColumn "framecolor" VNull;
         CreateCommentsTable; SelectAll ]
  /\ res_status (fst (handler Samples.get_all Samples.losing_framecolor)) = 200.
Proof.
  cbv zeta.
  assert (E : issued Samples.losing_framecolor
                (snd (handler Samples.get_all Samples.losing_framecolor))
              = [ CreateProductsTable; AlterAddColumn "framecolor" VNull;
                  CreateCommentsTable; SelectAll ])
    by (vm_compute; reflexivity).
  split; [right; left; reflexivity|].
  split; [|split; [exact E|vm_compute; reflexivity]].
  rewrite E. intros [H|[H|[H|[H|[]]]]]; discriminate H.
Qed.

Lemma add_missing_columns_guarded_witness :
  issued Samples.stocked (snd (add_missing_columns Samples.stocked))
  = add_column_statements
  /\ issued Samples.losing_gender
            (snd (add_missing_columns Samples.losing_gender))
     = [ AlterAddColumn "framecolor" VNull; AlterAddColumn "style" VNull;
         AlterAddColumn "rim" VNull; AlterAddColumn "gender" VNull ]
  /\ issued (snd (sql CreateProductsTable Samples.losing_framecolor))
            (snd (add_missing_columns
                    (snd (sql CreateProductsTable Samples.losing_framecolor))))
     = [ AlterAddColumn "framecolor" VNull ]
  /\ exists rest,
      issued Samples.losing_framecolor
             (snd (handleGet Samples.get_all Samples.losing_framecolor))
      = (CreateProductsTable
           :: issued (snd (sql CreateProductsTable Samples.losing_framecolor))
                     (snd (add_missing_columns
                             (snd (sql CreateProductsTable
                                       Samples.losing_framecolor))))
           ++ CreateCommentsTable :: rest)%list.
Proof.
  split; [|split; [|split]].
  - destruct (add_missing_columns_guarded Samples.stocked)
      as (_ & _ & _ & _ & H & _).
    apply H; [intros k s; reflexivity|].
    intros E. vm_compute in E. discriminate E.
  - destruct (add_missing_columns_guarded Samples.losing_gender)
      as (_ & _ & _ & H & _).
    apply (H ltac:(discriminate) 3%nat (AlterAddColumn "gender" VNull) eq_refl);
      [|reflexivity].
    intros i s' Hi Hs'.
    destruct i as [|[|[|i]]]; [| | |lia];
      injection Hs' as <-; reflexivity.
  - destruct (add_missing_columns_guarded
                (snd (sql CreateProductsTable Samples.losing_framecolor)))
      as (_ & _ & H & _).
    apply (H 0%nat (AlterAddColumn "framecolor" VNull) eq_refl);
      [|reflexivity].
    intros i s' Hi. lia.
  - destruct (add_missing_columns_guarded Samples.losing_framecolor)
      as (_ & _ & _ & _ & _ & H).
    apply (H Samples.get_all []). vm_compute. reflexivity.
Defined.

(** *** Requests that change the table *)

(** C1, at a first request that is a POST: on a database in which nothing
    has been created the handler sends the INSERT and nothing before it,
    the store answers that the table is missing, the reply is a 500 and
    no table exists afterwards; a GET on the same database starts by
    creating the products table. *)
Theorem handler_post_on_fresh_database :
  let reply := handler Samples.post_test Samples.fresh in
  res_status (fst reply) = 500
  /\ res_json (fst reply)
     = VObj [("success", VBool false);
             ("error", VStr "Internal server error");
             ("message", VStr "relation products does not exist")]
  /\ (exists values, issued Samples.fresh (snd reply) = [Insert values])
  /\ products (snd reply) = None
  /\ comments (snd reply) = false
  /\ hd_error (issued Samples.fresh
                 (snd (handler Samples.get_all Samples.fresh)))
     = Some CreateProductsTable.
Proof.
  cbv zeta.
  split; [vm_compute; reflexivity|]. split; [vm_compute; reflexivity|].
  split; [eexists; vm_compute; reflexivity|].
  repeat split; vm_compute; reflexivity.
Qed.

(** No POST, PUT or DELETE sends a create-table statement, whatever the
    request and the store. *)
Lemma mutations_create_no_table (m : string) (q b : value) (db : Store) :
  In m ["POST"; "PUT"; "DELETE"] ->
  existsb is_create (issued db (snd (handler (mkReq m q b) db))) = false.
Proof.
  assert (Nil : existsb is_create (issued db db) = false).
  { unfold issued. now rewrite skipn_all. }
  assert (One : forall s db1 r, sql s db = (r, db1) -> is_create s = false ->
                                existsb is_create (issued db db1) = false).
  { intros s db1 r Q Hs. destruct (sql_sent_eq _ _ _ _ Q) as [H _].
    rewrite (issued_app db db1 [s] H). simpl. now rewrite Hs. }
  assert (Two : forall s1 s2 db1 db2 r1 r2,
             sql s1 db = (r1, db1) -> sql s2 db1 = (r2, db2) ->
             is_create s1 = false -> is_create s2 = false ->
             existsb is_create (issued db db2) = false).
  { intros s1 s2 db1 db2 r1 r2 Q1 Q2 H1 H2.
    destruct (sql_sent_eq _ _ _ _ Q1) as [E1 _].
    destruct (sql_sent_eq _ _ _ _ Q2) as [E2 _].
    rewrite (issued_app db db2 [s1; s2]).
    - simpl. now rewrite H1, H2.
    - rewrite E2, E1, <- app_assoc. reflexivity. }
  intros [<-|[<-|[<-|[]]]]; unfold handler, dispatch;
    cbn [req_method String.eqb Ascii.eqb Bool.eqb].
  - unfold handlePost, bind, lift, ret, throw. cbn [req_body].
    destruct (destructure "req.body" b product_fields) as [e|fields];
      cbn [fst snd]; [exact Nil|].
    destruct (sql (Insert (map with_default fields)) db) as [[e|rows] db1] eqn:Q;
      cbn [fst snd]; [|destruct rows; cbn [fst snd]]; eapply One; eauto.
  - unfold handlePut, bind, lift, ret. cbn [req_query req_body].
    destruct (destructure "req.query" q ["id"]) as [e|query];
      cbn [fst snd]; [exact Nil|].
    destruct (destructure "req.body" b product_fields) as [e|fields];
      cbn [fst snd]; [exact Nil|].
    destruct (sql (Update fields (bound "id" query)) db) as [[e|rows] db1] eqn:Q;
      cbn [fst snd]; [|destruct rows; cbn [fst snd]]; eapply One; eauto.
  - unfold handleDelete, bind, lift, ret, throw. cbn [req_query].
    destruct (destructure "req.query" q ["id"]) as [e|query];
      cbn [fst snd]; [exact Nil|].
    destruct (negb (truthy (bound "id" query))); cbn [fst snd]; [exact Nil|].
    destruct (sql (SelectById (bound "id" query)) db) as [[e|rows] db1] eqn:Q;
      cbn [fst snd]; [eapply One; eauto|].
    destruct rows as [|r rows]; cbn [fst snd]; [eapply One; eauto|].
    destruct (sql (Delete (bound "id" query)) db1) as [[e|rows'] db2] eqn:Q2;
      cbn [fst snd]; [|destruct rows'; cbn [fst snd]]; eapply Two; eauto.
Qed.

(** *** Rows and assignments *)

Lemma field_set_field (k : string) (v : value) (r : Row) :
  field k (set_field k v r) = v.
Proof. unfold field. now rewrite ClientProofs.lookup_set_field. Qed.

Lemma field_set_field_other (k k0 : string) (v : value) (r : Row) :
  k0 <> k -> field k0 (set_field k v r) = field k0 r.
Proof.
  intros ne. unfold field. now rewrite ClientProofs.lookup_set_field_other.
Qed.

Lemma field_assign_other (k : string) (values : list (string * value)) :
  forall r, ~ In k (map fst values) -> field k (assign values r) = field k r.
Proof.
  unfold assign.
  induction values as [|[k0 v0] rest IH]; intros r Hk; simpl; [reflexivity|].
  rewrite IH.
  - apply field_set_field_other. intros ->. apply Hk. now left.
  - intros Hin. apply Hk. now right.
Qed.

Lemma field_assign (k : string) (v : value) (values : list (string * value)) :
  forall r, NoDup (map fst values) -> In (k, v) values ->
            field k (assign values r) = to_sql v.
Proof.
  induction values as [|[k0 v0] rest IH]; intros r Hnd Hin; [contradiction|].
  simpl in Hnd. inversion Hnd as [|? ? Hfresh Hnd']; subst.
  destruct Hin as [[= -> ->] | Hin].
  - unfold assign. simpl.
    change (fold_left _ rest ?x) with (assign rest x).
    rewrite field_assign_other; [apply field_set_field|exact Hfresh].
  - unfold assign. simpl.
    change (fold_left _ rest ?x) with (assign rest x).
    now apply IH.
Qed.

Lemma destructure_object (source : string) (fields : list (string * value))
      (keys : list string) :
  destructure source (VObj fields) keys
  = inr (map (fun k => (k, bound k fields)) keys).
Proof.
  unfold destructure. cbn [nullish].
  induction keys as [|k rest IH]; [reflexivity|].
  unfold properties; fold properties. rewrite IH. reflexivity.
Qed.

Lemma nullish_to_sql (v : value) : nullish (to_sql v) = nullish v.
Proof. now destruct v. Qed.

Lemma null_in_cases (r : Row) :
  null_in r = if nullish (field "name" r) then Some "name"
              else if nullish (field "price" r) then Some "price"
              else None.
Proof.
  unfold null_in, not_null_columns. cbn [List.find].
  destruct (nullish (field "name" r)); [reflexivity|].
  now destruct (nullish (field "price" r)).
Qed.

Lemma violation_same (N : option string) (l : list Row) :
  (forall r, In r l -> null_in r = N) ->
  violation l = match l with [] => None | _ :: _ => N end.
Proof.
  induction l as [|a l IH]; intros H; [reflexivity|].
  cbn [violation]. rewrite (H a (or_introl eq_refl)).
  destruct N as [c|]; [reflexivity|].
  rewrite IH by (intros r Hr; apply H; now right).
  now destruct l.
Qed.


Lemma find_missing_none (cols l : list string) :
  forallb (fun c => mem c cols) l = true ->
  List.find (fun c => negb (mem c cols)) l = None.
Proof.
  induction l as [|c l IH]; simpl; [reflexivity|].
  intros H. apply andb_true_iff in H as [Hc Hl].
  rewrite Hc. simpl. now apply IH.
Qed.

Lemma no_unknown_column (t : Table) (f : string -> value) :
  has_product_columns t = true ->
  unknown_column (map (fun k => (k, f k)) product_fields) t = None.
Proof.
  unfold has_product_columns, unknown_column. intros H.
  rewrite map_map. cbn [fst]. rewrite map_id.
  now apply find_missing_none.
Qed.

Lemma filter_head {A} (f : A -> bool) (l : list A) (x : A) (rest : list A) :
  filter f l = x :: rest -> f x = true.
Proof.
  intros H. assert (Hin : In x (filter f l)) by (rewrite H; now left).
  now apply filter_In in Hin.
Qed.

Lemma product_fields_NoDup : NoDup product_fields.
Proof.
  unfold product_fields.
  repeat (constructor; [simpl; intuition discriminate|]). constructor.
Qed.

(** *** PUT *)

Lemma bindings_keys (body : list (string * value)) :
  map fst (bindings body) = product_fields.
Proof. unfold bindings. rewrite map_map. cbn [fst]. apply map_id. Qed.

Lemma rewritten_listed (body : list (string * value)) (time : Z) (r : Row)
      (k : string) :
  In k product_fields ->
  field k (rewritten body time r) = to_sql (bound k body).
Proof.
  intros Hk. unfold rewritten. rewrite field_set_field_other.
  - apply field_assign.
    + rewrite bindings_keys. apply product_fields_NoDup.
    + unfold bindings. apply in_map_iff. now exists k.
  - intros ->. revert Hk. unfold product_fields. simpl. intuition discriminate.
Qed.

Lemma rewritten_other (body : list (string * value)) (time : Z) (r : Row)
      (c : string) :
  c <> "updated_at" -> ~ In c product_fields ->
  field c (rewritten body time r) = field c r.
Proof.
  intros Hu Hc. unfold rewritten. rewrite field_set_field_other by exact Hu.
  apply field_assign_other. now rewrite bindings_keys.
Qed.


Lemma null_in_rewritten (body : list (string * value)) (time : Z) (r : Row) :
  null_in (rewritten body time r) = missing body.
Proof.
  rewrite null_in_cases.
  rewrite !rewritten_listed by (unfold product_fields; simpl; auto).
  now rewrite !nullish_to_sql.
Qed.

Lemma handlePut_run (q body : list (string * value)) (db : Store) (t : Table) :
  products db = Some t -> has_product_columns t = true -> obliging db ->
  handlePut (mkReq "PUT" (VObj q) (VObj body)) db
  = match filter (id_is (bound "id" q)) (rows t), missing body with
    | _ :: _, Some c =>
        (inl (not_null_violation c),
         mkStore (Some t) (comments db) (next_id db) (now db + 1)
                 (refuses db)
                 (sent db ++ [Update (bindings body) (bound "id" q)])%list)
    | matched, _ =>
        (inr (match matched with
              | [] => not_found
              | r :: _ =>
                  (200, VObj [("success", VBool true);
                              ("data", VObj (rewritten body (now db + 1) r));
                              ("message", VStr "Product updated successfully")])
              end),
         mkStore (Some (mkTable (columns t)
                                (map (fun r =>
                                        if id_is (bound "id" q) r
                                        then rewritten body (now db + 1) r
                                        else r)
                                     (rows t))))
                 (comments db) (next_id db) (now db + 1) (refuses db)
                 (sent db ++ [Update (bindings body) (bound "id" q)])%list)
    end.
Proof.
  intros Ht Hc Hob. unfold handlePut, bind, lift, ret.
  cbn [req_query req_body]. rewrite !destructure_object.
  change (bound "id" (map _ ["id"])) with (bound "id" q).
  change (map _ product_fields) with (bindings body).
  unfold sql. rewrite Hob. unfold run. cbn [products]. rewrite Ht.
  unfold bindings at 1. rewrite (no_unknown_column t _ Hc).
  cbn [now].
  change (fun r : Row =>
            if id_is (bound "id" q) r
            then set_field "updated_at" (VNum (now db + 1))
                           (assign (bindings body) r)
            else r)
    with (fun r : Row => if id_is (bound "id" q) r
                         then rewritten body (now db + 1) r else r).
  rewrite (violation_same (missing body)).
  - unfold with_products. cbn [comments next_id now refuses sent].
    destruct (filter (id_is (bound "id" q)) (rows t)) as [|r rest] eqn:F;
      cbn [map].
    + now destruct (missing body).
    + destruct (missing body); [reflexivity|].
      rewrite (filter_head _ _ _ _ F). reflexivity.
  - intros r' Hr'. apply in_map_iff in Hr' as (r & <- & Hr).
    apply filter_In in Hr as [_ Hr]. rewrite Hr. apply null_in_rewritten.
Qed.


(** *** DELETE *)

Lemma sql_select_by_id (db : Store) (t : Table) (p : value) :
  products db = Some t -> obliging db ->
  sql (SelectById p) db
  = (inr (filter (id_is p) (rows t)),
     mkStore (Some t) (comments db) (next_id db) (now db + 1) (refuses db)
             (sent db ++ [SelectById p])%list).
Proof.
  intros Ht Hob. unfold sql. rewrite Hob. unfold run. cbn [products].
  now rewrite Ht.
Qed.

Lemma sql_delete (db : Store) (t : Table) (p : value) :
  products db = Some t -> (forall k s, refuses db k s = false) ->
  sql (Delete p) db
  = (inr (filter (id_is p) (rows t)),
     mkStore (Some (mkTable (columns t)
                            (filter (fun r => negb (id_is p r)) (rows t))))
             (comments db) (next_id db) (now db + 1) (refuses db)
             (sent db ++ [Delete p])%list).
Proof.
  intros Ht Hob. unfold sql. rewrite Hob. unfold run. cbn [products].
  now rewrite Ht.
Qed.

Section Delete.
Variables (q : list (string * value)) (body : value) (db : Store).

Let id : value :=
  match lookup "id" q with Some v => v | None => VUndefined end.
Let req : Req := mkReq "DELETE" (VObj q) body.

(** C8. A DELETE without an id is answered 400 and the store is not
    touched at all; one whose id matches no row is answered 404 after the
    single SELECT, the table being as before; and one whose id matches a
    row sends the SELECT, then the DELETE, answers 200 with the row that
    was found, and leaves the table without the rows of that id. *)
Theorem handleDelete_checks_then_deletes :
  (truthy id = false ->
   handler req db
   = (mkRes 400 corsHeaders
            (VObj [("success", VBool false);
                   ("error", VStr "Product ID is required")]),
      db))
  /\ (forall t,
        truthy id = true -> products db = Some t -> obliging db ->
        filter (id_is id) (rows t) = [] ->
        fst (handler req db)
        = mkRes 404 corsHeaders
                (VObj [("success", VBool false);
                       ("error", VStr "Product not found");
                       ("message", VStr "Product not found")])
        /\ issued db (snd (handler req db)) = [SelectById id]
        /\ products (snd (handler req db)) = Some t)
  /\ (forall t r rest,
        truthy id = true -> products db = Some t -> obliging db ->
        filter (id_is id) (rows t) = r :: rest ->
        fst (handler req db)
        = mkRes 200 corsHeaders
                (VObj [("success", VBool true);
                       ("message", VStr "Product deleted successfully");
                       ("data", VObj r)])
        /\ issued db (snd (handler req db)) = [SelectById id; Delete id]
        /\ products (snd (handler req db))
           = Some (mkTable (columns t)
                           (filter (fun x => negb (id_is id x)) (rows t)))).
Proof.
  assert (Start : handler req db
                  = match
                      (if negb (truthy id)
                       then ret (400, VObj [("success", VBool false);
                                            ("error", VStr "Product ID is required")])
                       else
                         existingProduct <- sql (SelectById id) ;;
                         match existingProduct with
                         | [] =>
                             ret (404, VObj [("success", VBool false);
                                             ("error", VStr "Product not found");
                                             ("message", VStr "Product not found")])
                         | _ :: _ =>
                             result <- sql (Delete id) ;;
                             match result with
                             | [] => throw (reading_of_undefined "name")
                             | first :: _ =>
                                 ret (200, VObj [("success", VBool true);
                                                 ("message", VStr "Product deleted successfully");
                                                 ("data", VObj first)])
                             end
                         end) db
                    with
                    | (inr (code, payload), db') =>
                        (mkRes code corsHeaders payload, db')
                    | (inl error, db') =>
                        (mkRes 500 corsHeaders
                               (VObj [("success", VBool false);
                                      ("error", VStr "Internal server error");
                                      ("message", VStr (message error))]), db')
                    end) by reflexivity.
  rewrite Start. clear Start. split; [|split].
  - intros ->. reflexivity.
  - intros t -> Ht Hob F. cbn [negb]. unfold bind.
    rewrite (sql_select_by_id db t id Ht Hob), F.
    cbn [fst snd products ret].
    split; [reflexivity|]. split; [|reflexivity].
    now apply issued_app.
  - intros t r rest -> Ht Hob F. cbn [negb]. unfold bind.
    rewrite (sql_select_by_id db t id Ht Hob), F.
    rewrite (sql_delete
               (mkStore (Some t) (comments db) (next_id db) (now db + 1)
                        (refuses db) (sent db ++ [SelectById id])%list)
               t id eq_refl Hob), F.
    cbn [fst snd products ret].
    split; [reflexivity|]. split; [|reflexivity].
    apply issued_app. cbn [sent]. now rewrite <- app_assoc.
Qed.

End Delete.

Lemma stocked_ready :
  products Samples.stocked
  = Some (Samples.stocked_table_or_empty Samples.stocked)
  /\ has_product_columns (Samples.stocked_table_or_empty Samples.stocked) = true
  /\ obliging Samples.stocked.
Proof.
  split; [vm_compute; reflexivity|].
  split; [vm_compute; reflexivity|]. intros k s. reflexivity.
Qed.



Lemma handleDelete_checks_then_deletes_witness :
  res_status (fst (handler (mkReq "DELETE" (VObj []) VUndefined) Samples.stocked))
  = 400
  /\ res_status
       (fst (handler (mkReq "DELETE" (VObj [("id", VStr "7")]) VUndefined)
                     Samples.stocked)) = 404
  /\ issued Samples.stocked
            (snd (handler (mkReq "DELETE" (VObj [("id", VStr "1")]) VUndefined)
                          Samples.stocked))
     = [SelectById (VStr "1"); Delete (VStr "1")].
Proof.
  destruct stocked_ready as (Ht & _ & Hob). split; [|split].
  - destruct (handleDelete_checks_then_deletes [] VUndefined Samples.stocked)
      as (H & _ & _).
    rewrite (H eq_refl). reflexivity.
  - destruct (handleDelete_checks_then_deletes [("id", VStr "7")] VUndefined
                Samples.stocked) as (_ & H & _).
    destruct (H _ eq_refl Ht Hob) as (E & _); [vm_compute; reflexivity|].
    rewrite E. reflexivity.
  - destruct (handleDelete_checks_then_deletes [("id", VStr "1")] VUndefined
                Samples.stocked) as (_ & _ & H).
    destruct (H _ (nth 0 (rows (Samples.stocked_table_or_empty Samples.stocked)) [])
                [] eq_refl Ht Hob) as (_ & E & _); [vm_compute; reflexivity|].
    exact E.
Defined.

(** *** What the handler answers, seen from the client *)

Lemma normalize_plain (v : value) : plain v -> Client.normalize v = inr v.
Proof.
  intros (fields & -> & H1 & H2).
  unfold Client.normalize, js_and, rbind, get. rewrite H1, H2.
  destruct (truthy match lookup "success" fields with
                   | Some x => x
                   | None => VUndefined
                   end) eqn:T; cbn [truthy isArray]; rewrite ?T; reflexivity.
Qed.

Ltac split_cases :=
  repeat match goal with
         | |- context [match ?x with _ => _ end] => destruct x eqn:?
         end.

Ltac plain_payload :=
  let E := fresh "E" in
  intros E; inversion E; subst;
  eexists; repeat (split; try reflexivity).

Ltac plain_reply := split_cases; try discriminate; plain_payload.

Lemma dispatch_plain (req : Req) (db db' : Store) (code : Z) (payload : value) :
  dispatch req db = (inr (code, payload), db') -> plain payload.
Proof.
  unfold dispatch.
  destruct (req_method req =? "GET")%string;
    [|destruct (req_method req =? "POST")%string;
      [|destruct (req_method req =? "PUT")%string;
        [|destruct (req_method req =? "DELETE")%string]]].
  - unfold handleGet, bind, lift, ret, not_found. plain_reply.
  - unfold handlePost, bind, lift, ret, throw. plain_reply.
  - unfold handlePut, bind, lift, ret, not_found. plain_reply.
  - unfold handleDelete, bind, lift, ret, throw. plain_reply.
  - unfold ret. plain_reply.
Qed.

(** Nothing the handler answers is unwrapped by the client's
    normalisation: no reply carries [products] or [product]. *)
Lemma handler_reply_passes_through (req : Req) (db : Store) :
  Client.normalize (res_json (fst (handler req db)))
  = inr (res_json (fst (handler req db))).
Proof.
  apply normalize_plain. unfold handler.
  destruct (req_method req =? "OPTIONS")%string.
  - exists []. auto.
  - destruct (dispatch req db) as [[e|[code payload]] db'] eqn:D; simpl.
    + eexists. split; [reflexivity|]. split; reflexivity.
    + eapply dispatch_plain, D.
Qed.

End ServerProofs.

(* ===================================================================== *)
(** ** More of the client *)
(* ===================================================================== *)

Module ClientMore.
Import Js Eff Client.
Local Open Scope eff_scope.

Ltac run_eff :=
  unfold bind, ret, throw, lift, try_catch in *; simpl in *.

(** *** The resolver never yields an empty address *)

Lemma not_empty_eqb (u : string) :
  negb (u =? EmptyString)%string = true -> u <> EmptyString.
Proof.
  intros H ->. discriminate H.
Qed.

Lemma getApiBaseUrl_not_empty (e : Env) : getApiBaseUrl e <> Some EmptyString.
Proof.
  unfold getApiBaseUrl.
  destruct (truthy_string (REACT_APP_PRODUCTS_API_URL e)) eqn:T.
  - destruct (REACT_APP_PRODUCTS_API_URL e) as [u|]; [|discriminate].
    simpl in T. intros [= ->]. discriminate T.
  - destruct (isDeployedEnvironment _); [discriminate|].
    destruct (_ && _); discriminate.
Qed.

(** X1. [getApiBaseUrl] never returns the empty string, so local-only mode is
    exactly the case where it returns [null]; and without an override
    every address it returns is "http://" ++ host ++ ":5004/api" for the
    page's host or for "localhost". *)
Theorem getApiBaseUrl_never_empty (e : Env) :
  getApiBaseUrl e <> Some EmptyString
  /\ (truthy_string (getApiBaseUrl e) = false <-> getApiBaseUrl e = None)
  /\ (no_override e ->
      forall u, getApiBaseUrl e = Some u ->
                u = "http://" ++ hostname e ++ ":5004/api"
                \/ u = "http://localhost:5004/api").
Proof.
  pose proof (getApiBaseUrl_not_empty e) as N.
  split; [exact N|]. split.
  - split.
    + destruct (getApiBaseUrl e) as [u|]; [|reflexivity].
      simpl. intros H. destruct u; [now elim N|discriminate].
    + intros ->. reflexivity.
  - unfold no_override, getApiBaseUrl. intros -> u.
    destruct (isDeployedEnvironment _); [discriminate|].
    destruct (_ && _); intros [= <-]; auto.
Qed.

Section Operations.
Context {P : Platform}.

(** *** One request per call *)

Lemma local_only_cases :
  (local_only = true /\ API_BASE_URL = None)
  \/ (exists base, local_only = false /\ API_BASE_URL = Some base
                   /\ base <> EmptyString).
Proof.
  unfold local_only, API_BASE_URL.
  pose proof (getApiBaseUrl_not_empty env) as N.
  destruct (getApiBaseUrl env) as [base|]; [|now left].
  right. exists base. destruct base; [now elim N|].
  repeat split. discriminate.
Qed.

Lemma apiRequest_unfold (base endpoint : string) (m body : option string) :
  API_BASE_URL = Some base -> base <> EmptyString ->
  apiRequest endpoint m body
  = try_catch
      (response <-
         fetch (mkRequest (base ++ endpoint) m
                          [("Content-Type", "application/json")] body) ;;
       if negb (ok response) then
         errorData <-
           ret (match json response with
                | inr v => v
                | inl _ => VObj []
                end) ;;
         error <- lift (get errorData "error") ;;
         let errorMessage :=
           if truthy error then error
           else VStr ("HTTP " ++ dec (status response) ++ ": "
                      ++ statusText response) in
         throw (mkError "Error" (to_string errorMessage))
       else
         data <- lift (json response) ;;
         lift (normalize data))
      (fun error => throw error).
Proof.
  intros E Hne. unfold apiRequest. rewrite E.
  destruct (base =? EmptyString)%string eqn:B; [|reflexivity].
  apply String.eqb_eq in B. contradiction.
Qed.

(** X2. [apiRequest] never retries: with a base address it sends exactly one
    request, to the base address followed by the endpoint, with the JSON
    content type, the given method and body, whatever the outcome; in
    local-only mode it sends none and leaves the browser as it was. *)
Theorem apiRequest_sends_one_request (endpoint : string)
        (m body : option string) (w : World) :
  (local_only = true -> snd (apiRequest endpoint m body w) = w)
  /\ (forall base,
        API_BASE_URL = Some base -> base <> EmptyString ->
        Client.sent (snd (apiRequest endpoint m body w))
        = (Client.sent w
             ++ [mkRequest (base ++ endpoint) m
                           [("Content-Type", "application/json")] body])%list).
Proof.
  split.
  - intros L. now rewrite ClientProofs.apiRequest_local_only.
  - intros base E Hne. rewrite (apiRequest_unfold base _ _ _ E Hne).
    run_eff. unfold fetch.
    destruct (net w (Client.sent w) _) as [e|resp]; simpl; [reflexivity|].
    destruct (negb (ok resp)); simpl.
    + destruct (get _ "error"); reflexivity.
    + destruct (json resp) as [e|data]; simpl; [reflexivity|].
      destruct (normalize data); reflexivity.
Qed.

(** *** Failures of the remote call *)

(** X3. What [apiRequest] throws: the rejection of [fetch] as it is; on a
    response outside 200 to 299 an [Error] whose message is the [error]
    field of the JSON body when that field is truthy, and
    "HTTP <status>: <statusText>" when it is not or when the body is not
    JSON; on a successful response whose body is not JSON, the parse
    error. *)
Theorem apiRequest_failures (endpoint : string) (m body : option string)
        (w : World) (base : string) :
  API_BASE_URL = Some base -> base <> EmptyString ->
  let request :=
    mkRequest (base ++ endpoint) m [("Content-Type", "application/json")] body in
  let http r :=
    mkError "Error" ("HTTP " ++ dec (status r) ++ ": " ++ statusText r) in
  (forall e, net w (Client.sent w) request = Rejects e ->
             fst (apiRequest endpoint m body w) = inl e)
  /\ (forall r e,
        net w (Client.sent w) request = Resolves r -> ok r = false ->
        json r = inl e ->
        fst (apiRequest endpoint m body w) = inl (http r))
  /\ (forall r data error,
        net w (Client.sent w) request = Resolves r -> ok r = false ->
        json r = inr data -> get data "error" = inr error ->
        fst (apiRequest endpoint m body w)
        = inl (if truthy error then mkError "Error" (to_string error)
               else http r))
  /\ (forall r e,
        net w (Client.sent w) request = Resolves r -> ok r = true ->
        json r = inl e ->
        fst (apiRequest endpoint m body w) = inl e).
Proof.
  intros E Hne. cbv zeta. rewrite (apiRequest_unfold base _ _ _ E Hne).
  run_eff. unfold fetch.
  split; [|split; [|split]].
  - intros e ->. reflexivity.
  - intros r e -> Hok ->. simpl. rewrite Hok. reflexivity.
  - intros r data error -> Hok -> Hg. simpl. rewrite Hok. simpl.
    rewrite Hg. now destruct (truthy error).
  - intros r e -> Hok ->. simpl. rewrite Hok. reflexivity.
Qed.

(** *** What a successful call returns *)

Lemma normalize_cases (data v : value) :
  normalize data = inr v ->
  v = data
  \/ (exists s, get data "success" = inr s /\ truthy s = true
                /\ truthy v = true
                /\ (get data "products" = inr v \/ get data "product" = inr v)).
Proof.
  unfold normalize, js_and, rbind.
  destruct (get data "success") as [e|s] eqn:S; [discriminate|].
  destruct (truthy s) eqn:Ts.
  - destruct (get data "products") as [e|ps] eqn:Ps; [discriminate|].
    destruct (truthy ps) eqn:Tp.
    + intros [= <-]. right. exists s. auto.
    + destruct (get data "product") as [e|p1] eqn:P1; [discriminate|].
      destruct (truthy p1) eqn:Tq.
      * intros [= <-]. right. exists s. auto.
      * destruct (isArray data); intros [= <-]; now left.
  - rewrite ?Ts. destruct (isArray data); intros [= <-]; now left.
Qed.

(** X4. On a response in 200 to 299 with a JSON body, what [apiRequest]
    returns is the body, or its [products] or [product] field when that
    field and [success] are both truthy, and never [null] or [undefined];
    an array body is returned as it is, and a [null] body makes the call
    fail with a TypeError. *)
Theorem apiRequest_result (endpoint : string) (m body : option string)
        (w : World) (base : string) (r : Response) (data : value) :
  API_BASE_URL = Some base -> base <> EmptyString ->
  net w (Client.sent w)
      (mkRequest (base ++ endpoint) m [("Content-Type", "application/json")] body)
  = Resolves r ->
  ok r = true -> json r = inr data ->
  (forall v, fst (apiRequest endpoint m body w) = inr v ->
             nullish v = false
             /\ (v = data
                 \/ (exists s, get data "success" = inr s /\ truthy s = true
                               /\ truthy v = true
                               /\ (get data "products" = inr v
                                   \/ get data "product" = inr v))))
  /\ (isArray data = true -> fst (apiRequest endpoint m body w) = inr data)
  /\ (data = VNull ->
      exists e, fst (apiRequest endpoint m body w) = inl e
                /\ name e = "TypeError").
Proof.
  intros E Hne Hnet Hok J.
  assert (R : fst (apiRequest endpoint m body w) = normalize data).
  { rewrite (apiRequest_unfold base _ _ _ E Hne). run_eff. unfold fetch.
    rewrite Hnet. simpl. rewrite Hok, J. simpl.
    now destruct (normalize data). }
  rewrite R. split; [|split].
  - intros v N. split; [eapply ClientProofs.normalize_not_nullish, N|].
    now apply normalize_cases.
  - destruct data; try discriminate. reflexivity.
  - intros ->. eexists. split; reflexivity.
Qed.

(** *** Saving and loading the backup *)

Lemma saveProductsBackup_world (products : value) (w : World) :
  let text := match JSON_stringify products with
              | Some t => t
              | None => "undefined"
              end in
  snd (saveProductsBackup products w)
  = if ls_write_fails w text then w
    else mkWorld (Some text) (ls_read_fails w) (ls_write_fails w) (net w)
                 (Client.sent w).
Proof.
  cbv zeta. unfold saveProductsBackup, localStorage_setItem. run_eff.
  now destruct (ls_write_fails w _).
Qed.

(** X5. [saveProductsBackup] never throws and sends nothing; when the storage
    refuses the write the browser is left exactly as it was, and otherwise
    only the backup slot changes, to the JSON text of the value (the
    string "undefined" when the value has no JSON text). *)
Theorem saveProductsBackup_best_effort (products : value) (w : World) :
  let text := match JSON_stringify products with
              | Some t => t
              | None => "undefined"
              end in
  fst (saveProductsBackup products w) = inr tt
  /\ Client.sent (snd (saveProductsBackup products w)) = Client.sent w
  /\ (ls_write_fails w text = true -> snd (saveProductsBackup products w) = w)
  /\ (ls_write_fails w text = false ->
      snd (saveProductsBackup products w)
      = mkWorld (Some text) (ls_read_fails w) (ls_write_fails w) (net w)
                (Client.sent w)).
Proof.
  cbv zeta. split; [apply ClientProofs.saveProductsBackup_returns|].
  rewrite saveProductsBackup_world. cbv zeta.
  destruct (ls_write_fails w _); split; try reflexivity;
    split; intros H; try discriminate H; reflexivity.
Qed.

(** X6. Saving and then loading gives the saved value back, provided the
    storage accepts the write and allows the read, and [JSON.parse] reads
    the value back from the non-empty text [JSON.stringify] wrote. *)
Theorem save_then_load (products : value) (text : string) (w : World) :
  JSON_stringify products = Some text -> text <> EmptyString ->
  JSON_parse text = inr products ->
  ls_write_fails w text = false -> ls_read_fails w = false ->
  fst (getStoredProducts (snd (saveProductsBackup products w))) = inr products.
Proof.
  intros Hs Hne Hp Hw Hr.
  pose proof (saveProductsBackup_world products w) as H. cbv zeta in H.
  rewrite Hs, Hw in H. rewrite H.
  now apply (ClientProofs.getStoredProducts_parsed _ text).
Qed.

(** *** Read-all, write-through *)

Lemma getAllProducts_online (w w1 : World) (v : value) :
  local_only = false ->
  apiRequest "/products" None None w = (inr v, w1) ->
  getAllProducts w = (inr v, snd (saveProductsBackup v w1)).
Proof.
  intros L A. unfold getAllProducts. rewrite L.
  unfold try_catch, bind at 1. rewrite A.
  pose proof (ClientProofs.apiRequest_not_nullish _ _ _ _ _ _ A) as Hn.
  destruct (ClientProofs.get_defined v "length" Hn) as [x Hx].
  unfold bind, lift, ret. rewrite Hx.
  pose proof (ClientProofs.saveProductsBackup_returns v w1) as S.
  destruct (saveProductsBackup v w1) as [r w2]. simpl in S. subst r.
  reflexivity.
Qed.

(** X7. When the remote read succeeds, [getAllProducts] returns the remote
    payload and writes it through: the backup slot then holds the JSON
    text of the payload when the storage accepts the write, and a refused
    write changes neither the result nor the slot. *)
Theorem getAllProducts_writes_through (w w1 : World) (v : value) :
  local_only = false ->
  apiRequest "/products" None None w = (inr v, w1) ->
  let text := match JSON_stringify v with
              | Some t => t
              | None => "undefined"
              end in
  fst (getAllProducts w) = inr v
  /\ (ls_write_fails w text = false ->
      ls_item (snd (getAllProducts w)) = Some text)
  /\ (ls_write_fails w text = true ->
      ls_item (snd (getAllProducts w)) = ls_item w).
Proof.
  intros L A. cbv zeta. rewrite (getAllProducts_online w w1 v L A).
  cbn [fst snd]. split; [reflexivity|].
  pose proof (ClientProofs.apiRequest_storage "/products" None None w)
    as (Hi & _ & Hwf).
  rewrite A in Hi, Hwf. cbn [snd] in Hi, Hwf.
  rewrite saveProductsBackup_world. cbv zeta. rewrite Hwf.
  split; intros ->; [reflexivity|exact Hi].
Qed.

(** X8. What was read while the backend answered is what is read once it
    no longer does: after a successful [getAllProducts] whose payload was
    written to the backup, a later [getAllProducts] behind a network on
    which the remote read fails returns that same payload. *)
Theorem getAllProducts_offline_after_online
        (w w1 : World) (v : value) (text : string)
        (later : list Request -> Request -> FetchOutcome)
        (e : Error) (w2 : World) :
  local_only = false ->
  apiRequest "/products" None None w = (inr v, w1) ->
  JSON_stringify v = Some text -> text <> EmptyString ->
  JSON_parse text = inr v ->
  ls_write_fails w text = false -> ls_read_fails w = false ->
  apiRequest "/products" None None
             (with_net (snd (getAllProducts w)) later) = (inl e, w2) ->
  fst (getAllProducts (with_net (snd (getAllProducts w)) later)) = inr v.
Proof.
  intros L A Hs Hne Hp Hw Hr A2.
  pose proof (ClientProofs.apiRequest_not_nullish _ _ _ _ _ _ A) as Hn.
  assert (HW : ls_item (snd (getAllProducts w)) = Some text
               /\ ls_read_fails (snd (getAllProducts w)) = false).
  { pose proof (ClientProofs.apiRequest_storage "/products" None None w)
      as (_ & Hrf & Hwf).
    rewrite A in Hrf, Hwf. simpl in Hrf, Hwf.
    rewrite (getAllProducts_online w w1 v L A). simpl snd.
    pose proof (saveProductsBackup_world v w1) as S. cbv zeta in S.
    rewrite Hs, Hwf, Hw in S. rewrite S. simpl. split; congruence. }
  destruct HW as [Hitem Hread].
  remember (with_net (snd (getAllProducts w)) later) as W eqn:EW.
  assert (HW2 : ls_item w2 = Some text /\ ls_read_fails w2 = false).
  { pose proof (ClientProofs.apiRequest_storage "/products" None None W)
      as (Hi2 & Hrf2 & _).
    rewrite A2 in Hi2, Hrf2. simpl in Hi2, Hrf2.
    rewrite Hi2, Hrf2, EW. simpl. auto. }
  destruct HW2 as [Hitem2 Hread2].
  unfold getAllProducts. rewrite L. unfold try_catch, bind at 1. rewrite A2.
  rewrite (ClientProofs.getAllProducts_from_backup w2 v); [reflexivity| |exact Hn].
  now apply (ClientProofs.getStoredProducts_parsed _ text).
Qed.

(** *** Mutations that succeed *)

Lemma refresh_backup_returns (w : World) : fst (refresh_backup w) = inr tt.
Proof.
  unfold refresh_backup, try_catch, bind.
  destruct (getAllProducts w) as [[e|products] w1]; [reflexivity|].
  pose proof (ClientProofs.saveProductsBackup_returns products w1) as S.
  now destruct (saveProductsBackup products w1) as [[e|[]] w2].
Qed.

(** X9. When the remote call of [createProduct], [updateProduct] or
    [deleteProduct] succeeds, the operation returns the remote result,
    whatever happens while the backup is refreshed afterwards. *)
Theorem mutations_return_remote_result (w : World) (id productData : value) :
  (forall v w1,
      apiRequest "/products" (Some "POST") (JSON_stringify productData) w
      = (inr v, w1) ->
      fst (createProduct productData w) = inr v)
  /\ (forall v w1,
        apiRequest ("/products/" ++ to_string id) (Some "PUT")
                   (JSON_stringify productData) w
        = (inr v, w1) ->
        fst (updateProduct id productData w) = inr v)
  /\ (forall v w1,
        apiRequest ("/products/" ++ to_string id) (Some "DELETE") None w
        = (inr v, w1) ->
        fst (deleteProduct id w) = inr v).
Proof.
  split; [|split]; intros v w1 A;
    unfold createProduct, updateProduct, deleteProduct, try_catch, bind;
    rewrite A;
    pose proof (refresh_backup_returns w1) as R;
    destruct (refresh_backup w1) as [[e|[]] w2]; simpl in R;
    try discriminate; reflexivity.
Qed.

(** *** Read-one by number *)

(** X10. When the remote read fails and the backup holds a list of
    products, [getProductById] given the integer [n] of absolute value
    below 2^53, or its decimal text, returns the first product whose [id]
    is [n]. *)
Theorem getProductById_numeric_id (w w1 : World) (n : Z) (id : value)
        (e : Error) (pre post : list value) (p : value) :
  Z.abs n < 2 ^ 53 ->
  id = VNum n \/ id = VStr (dec n) ->
  apiRequest ("/products/" ++ to_string id) None None w = (inl e, w1) ->
  fst (getStoredProducts w1) = inr (VArr (pre ++ p :: post)%list) ->
  Forall (fun q => nullish q = false) pre ->
  (forall q, In q pre -> get q "id" <> inr (VNum n)) ->
  get p "id" = inr (VNum n) ->
  fst (getProductById id w) = inr p.
Proof.
  intros Hsafe Hid A G Hdef Hpre Hp.
  assert (Hparse : parseInt id = Finite n).
  { destruct (ClientProofs.parseInt_of_safe_integer n Hsafe) as [H1 H2].
    now destruct Hid as [-> | ->]. }
  unfold getProductById, try_catch. rewrite A.
  unfold bind at 1. destruct (getStoredProducts w1) as [b w2].
  simpl in G. subst b. unfold bind, lift, ret, throw.
  unfold find. simpl. rewrite Hparse.
  rewrite (ClientProofs.find_by_id_first n pre p post Hdef Hpre Hp).
  now rewrite (ClientProofs.has_id_truthy p n Hp).
Qed.

(** *** The connection probe *)

(** X11. [testConnection] never throws: in local-only mode it answers false
    without sending anything; otherwise it sends one request, to the base
    address followed by "/health", and answers true exactly when a
    response with a status in 200 to 299 comes back. *)
Theorem testConnection_answers (w : World) :
  (local_only = true -> testConnection w = (inr false, w))
  /\ (forall base,
        API_BASE_URL = Some base -> base <> EmptyString ->
        let probe := mkRequest (base ++ "/health") None [] None in
        Client.sent (snd (testConnection w)) = (Client.sent w ++ [probe])%list
        /\ fst (testConnection w)
           = inr (match net w (Client.sent w) probe with
                  | Resolves r => ok r
                  | Rejects _ => false
                  end)).
Proof.
  unfold testConnection. split.
  - intros ->. reflexivity.
  - intros base E Hne. cbv zeta.
    assert (L : local_only = false).
    { unfold local_only. rewrite E. simpl.
      destruct base; [now elim Hne|reflexivity]. }
    rewrite L, E. unfold try_catch, bind, fetch, ret.
    destruct (net w (Client.sent w) _) as [e|r]; simpl; [auto|].
    destruct (ok r); auto.
Qed.

End Operations.

(** *** The module without the resolver *)

Section Basic.
Context {P : Platform}.

(** X12. In the module without the resolver [getAllProducts] never throws,
    whatever the network and the storage do, and when the remote read
    fails it returns what [getStoredProducts] returns. *)
Theorem basic_getAllProducts_total (w : World) :
  (exists v, fst (BasicClient.getAllProducts w) = inr v)
  /\ (forall e w1,
        BasicClient.apiRequest "/products" None None w = (inl e, w1) ->
        BasicClient.getAllProducts w = getStoredProducts w1).
Proof.
  unfold BasicClient.getAllProducts, try_catch, bind. split.
  - destruct (BasicClient.apiRequest "/products" None None w)
      as [[e|v] w1].
    + apply ClientProofs.getStoredProducts_returns.
    + pose proof (ClientProofs.saveProductsBackup_returns v w1) as S.
      destruct (saveProductsBackup v w1) as [[e|[]] w2]; [discriminate|].
      now exists v.
  - intros e w1 ->. reflexivity.
Qed.

End Basic.

(** *** Instances *)

Lemma getApiBaseUrl_never_empty_witness :
  no_override (mkEnv None "192.168.1.20")
  /\ ("http://192.168.1.20:5004/api"
      = "http://" ++ hostname (mkEnv None "192.168.1.20") ++ ":5004/api"
      \/ "http://192.168.1.20:5004/api" = "http://localhost:5004/api").
Proof.
  split; [reflexivity|].
  destruct (getApiBaseUrl_never_empty (mkEnv None "192.168.1.20"))
    as (_ & _ & H).
  apply (H eq_refl). vm_compute. reflexivity.
Defined.

Lemma apiRequest_sends_one_request_witness :
  Client.sent (snd (@apiRequest Samples.on_localhost "/products" None None
                      (Samples.offline None)))
  = [mkRequest "http://localhost:5004/api/products" None
               [("Content-Type", "application/json")] None]
  /\ snd (@apiRequest Samples.on_deployed_site "/products" None None
            (Samples.offline None))
     = Samples.offline None.
Proof.
  split.
  - destruct (@apiRequest_sends_one_request Samples.on_localhost "/products"
                None None (Samples.offline None)) as [_ H].
    apply (H "http://localhost:5004/api"); [reflexivity|discriminate].
  - destruct (@apiRequest_sends_one_request Samples.on_deployed_site "/products"
                None None (Samples.offline None)) as [H _].
    apply H. reflexivity.
Defined.

Lemma apiRequest_failures_witness :
  fst (@apiRequest Samples.on_localhost "/products/9" None None
         (Samples.offline None))
  = inl Samples.failed_to_fetch
  /\ fst (@apiRequest Samples.on_localhost "/products/9" None None
            (Samples.answering 404
               (VObj [("success", VBool false);
                      ("error", VStr "Product not found")])))
     = inl (mkError "Error" "Product not found")
  /\ fst (@apiRequest Samples.on_localhost "/products/9" None None
            (Samples.answering 500 (VObj [])))
     = inl (mkError "Error" "HTTP 500: OK").
Proof.
  split; [|split].
  - pose proof (@apiRequest_failures Samples.on_localhost "/products/9" None
                  None (Samples.offline None) "http://localhost:5004/api"
                  eq_refl ltac:(discriminate)) as H.
    cbv zeta in H. destruct H as (H & _). apply H. reflexivity.
  - pose proof (@apiRequest_failures Samples.on_localhost "/products/9" None
                  None
                  (Samples.answering 404
                     (VObj [("success", VBool false);
                            ("error", VStr "Product not found")]))
                  "http://localhost:5004/api"
                  eq_refl ltac:(discriminate)) as H.
    cbv zeta in H. destruct H as (_ & _ & H & _).
    apply (H (mkResponse 404 "OK"
                (inr (VObj [("success", VBool false);
                            ("error", VStr "Product not found")])))
             (VObj [("success", VBool false);
                    ("error", VStr "Product not found")])
             (VStr "Product not found")); reflexivity.
  - pose proof (@apiRequest_failures Samples.on_localhost "/products/9" None
                  None (Samples.answering 500 (VObj []))
                  "http://localhost:5004/api"
                  eq_refl ltac:(discriminate)) as H.
    cbv zeta in H. destruct H as (_ & _ & H & _).
    apply (H (mkResponse 500 "OK" (inr (VObj []))) (VObj []) VUndefined);
      reflexivity.
Defined.

Lemma apiRequest_result_witness :
  fst (@apiRequest Samples.on_localhost "/products" None None
         (Samples.answering 200 Samples.backup))
  = inr Samples.backup
  /\ exists e,
      fst (@apiRequest Samples.on_localhost "/products" None None
             (Samples.answering 200 VNull)) = inl e
      /\ name e = "TypeError".
Proof.
  split.
  - destruct (@apiRequest_result Samples.on_localhost "/products" None None
                (Samples.answering 200 Samples.backup)
                "http://localhost:5004/api"
                (mkResponse 200 "OK" (inr Samples.backup)) Samples.backup
                eq_refl ltac:(discriminate) eq_refl eq_refl eq_refl)
      as (_ & H & _).
    apply H. reflexivity.
  - destruct (@apiRequest_result Samples.on_localhost "/products" None None
                (Samples.answering 200 VNull)
                "http://localhost:5004/api"
                (mkResponse 200 "OK" (inr VNull)) VNull
                eq_refl ltac:(discriminate) eq_refl eq_refl eq_refl)
      as (_ & _ & H).
    apply H. reflexivity.
Defined.

Lemma saveProductsBackup_best_effort_witness :
  ls_item (snd (@saveProductsBackup Samples.on_localhost Samples.backup
                  (Samples.offline None)))
  = Some (Samples.json_text Samples.backup)
  /\ snd (@saveProductsBackup Samples.on_localhost Samples.backup
            (mkWorld None false (fun _ => true)
                     (fun _ _ => Rejects Samples.failed_to_fetch) []))
     = mkWorld None false (fun _ => true)
               (fun _ _ => Rejects Samples.failed_to_fetch) [].
Proof.
  split.
  - pose proof (@saveProductsBackup_best_effort Samples.on_localhost
                  Samples.backup (Samples.offline None)) as H.
    cbv zeta in H. destruct H as (_ & _ & _ & H).
    rewrite (H eq_refl). reflexivity.
  - pose proof (@saveProductsBackup_best_effort Samples.on_localhost
                  Samples.backup
                  (mkWorld None false (fun _ => true)
                           (fun _ _ => Rejects Samples.failed_to_fetch) []))
      as H.
    cbv zeta in H. destruct H as (_ & _ & H & _).
    apply H. reflexivity.
Defined.

Lemma save_then_load_witness :
  fst (@getStoredProducts Samples.on_localhost
         (snd (@saveProductsBackup Samples.on_localhost Samples.backup
                 (Samples.offline None))))
  = inr Samples.backup.
Proof.
  apply (@save_then_load Samples.on_localhost Samples.backup
           (Samples.json_text Samples.backup) (Samples.offline None));
    try reflexivity.
  vm_compute. discriminate.
Defined.

Lemma getAllProducts_writes_through_witness :
  fst (@getAllProducts Samples.on_localhost
         (Samples.answering 200 Samples.backup))
  = inr Samples.backup
  /\ ls_item (snd (@getAllProducts Samples.on_localhost
                     (Samples.answering 200 Samples.backup)))
     = Some (Samples.json_text Samples.backup).
Proof.
  pose proof (@getAllProducts_writes_through Samples.on_localhost
                (Samples.answering 200 Samples.backup)
                (snd (@apiRequest Samples.on_localhost "/products" None None
                        (Samples.answering 200 Samples.backup)))
                Samples.backup eq_refl eq_refl) as H.
  cbv zeta in H. destruct H as (H1 & H2 & _).
  split; [exact H1|]. apply H2. reflexivity.
Defined.

Lemma getAllProducts_offline_after_online_witness :
  fst (@getAllProducts Samples.on_localhost
         (with_net
            (snd (@getAllProducts Samples.on_localhost
                    (Samples.answering 200 Samples.backup)))
            (fun _ _ => Rejects Samples.failed_to_fetch)))
  = inr Samples.backup.
Proof.
  apply (@getAllProducts_offline_after_online Samples.on_localhost
           (Samples.answering 200 Samples.backup)
           (snd (@apiRequest Samples.on_localhost "/products" None None
                   (Samples.answering 200 Samples.backup)))
           Samples.backup (Samples.json_text Samples.backup)
           (fun _ _ => Rejects Samples.failed_to_fetch)
           Samples.failed_to_fetch
           (snd (@apiRequest Samples.on_localhost "/products" None None
                   (with_net
                      (snd (@getAllProducts Samples.on_localhost
                              (Samples.answering 200 Samples.backup)))
                      (fun _ _ => Rejects Samples.failed_to_fetch)))));
    try reflexivity.
  vm_compute. discriminate.
Defined.

Lemma mutations_return_remote_result_witness :
  fst (@createProduct Samples.on_localhost (VObj [("name", VStr "Test")])
         (Samples.answering 201 (VObj [("id", VNum 5); ("name", VStr "Test")])))
  = inr (VObj [("id", VNum 5); ("name", VStr "Test")])
  /\ fst (@deleteProduct Samples.on_localhost (VNum 5)
            (Samples.answering 200 (VObj [("id", VNum 5)])))
     = inr (VObj [("id", VNum 5)]).
Proof.
  split.
  - destruct (@mutations_return_remote_result Samples.on_localhost
                (Samples.answering 201
                   (VObj [("id", VNum 5); ("name", VStr "Test")]))
                (VNum 5) (VObj [("name", VStr "Test")])) as (H & _ & _).
    apply (H _ (snd (@apiRequest Samples.on_localhost "/products" (Some "POST")
                       (Samples.stringify (VObj [("name", VStr "Test")]))
                       (Samples.answering 201
                          (VObj [("id", VNum 5); ("name", VStr "Test")]))))).
    reflexivity.
  - destruct (@mutations_return_remote_result Samples.on_localhost
                (Samples.answering 200 (VObj [("id", VNum 5)]))
                (VNum 5) (VObj [])) as (_ & _ & H).
    apply (H _ (snd (@apiRequest Samples.on_localhost "/products/5"
                       (Some "DELETE") None
                       (Samples.answering 200 (VObj [("id", VNum 5)]))))).
    reflexivity.
Defined.

Lemma getProductById_numeric_id_witness :
  fst (@getProductById Samples.on_localhost (VNum 7)
         (Samples.offline (Some (Samples.json_text Samples.backup))))
  = inr (VObj [("id", VNum 7); ("name", VStr "Clubmaster")]).
Proof.
  apply (@getProductById_numeric_id Samples.on_localhost
           (Samples.offline (Some (Samples.json_text Samples.backup)))
           (snd (@apiRequest Samples.on_localhost "/products/7" None None
                   (Samples.offline (Some (Samples.json_text Samples.backup)))))
           7 (VNum 7) Samples.failed_to_fetch
           [VObj [("id", VNum 3); ("name", VStr "Round Metal")]] []
           (VObj [("id", VNum 7); ("name", VStr "Clubmaster")])).
  - vm_compute. reflexivity.
  - left. reflexivity.
  - reflexivity.
  - reflexivity.
  - repeat constructor.
  - intros q [<-|[]]. discriminate.
  - reflexivity.
Defined.

Lemma testConnection_answers_witness :
  @testConnection Samples.on_deployed_site (Samples.offline None)
  = (inr false, Samples.offline None)
  /\ fst (@testConnection Samples.on_localhost
            (Samples.answering 200 (VObj [])))
     = inr true
  /\ fst (@testConnection Samples.on_localhost (Samples.offline None))
     = inr false.
Proof.
  split; [|split].
  - destruct (@testConnection_answers Samples.on_deployed_site
                (Samples.offline None)) as [H _].
    apply H. reflexivity.
  - destruct (@testConnection_answers Samples.on_localhost
                (Samples.answering 200 (VObj []))) as [_ H].
    destruct (H "http://localhost:5004/api" eq_refl ltac:(discriminate))
      as [_ E].
    exact E.
  - destruct (@testConnection_answers Samples.on_localhost
                (Samples.offline None)) as [_ H].
    destruct (H "http://localhost:5004/api" eq_refl ltac:(discriminate))
      as [_ E].
    exact E.
Defined.

Lemma basic_getAllProducts_total_witness :
  fst (@BasicClient.getAllProducts Samples.on_deployed_site
         (Samples.offline (Some (Samples.json_text Samples.backup))))
  = inr Samples.backup.
Proof.
  destruct (@basic_getAllProducts_total Samples.on_deployed_site
              (Samples.offline (Some (Samples.json_text Samples.backup))))
    as [_ H].
  rewrite (H Samples.failed_to_fetch
             (snd (@BasicClient.apiRequest Samples.on_deployed_site "/products"
                     None None
                     (Samples.offline (Some (Samples.json_text Samples.backup)))))
             eq_refl).
  vm_compute. reflexivity.
Defined.

End ClientMore.

(* ===================================================================== *)
(** ** More of the server *)
(* ===================================================================== *)

Module ServerMore.
Import Js Eff Server.
Local Open Scope eff_scope.

#[local] Arguments destructure : simpl never.
#[local] Arguments sql : simpl never.
#[local] Arguments add_missing_columns : simpl never.

(** *** Replies *)

Lemma dispatch_outcomes (req : Req) (db db' : Store) (code : Z) (payload : value) :
  dispatch req db = (inr (code, payload), db') ->
  In (code, get payload "success")
     [ (200, inr (VBool true)); (201, inr (VBool true));
       (400, inr (VBool false)); (404, inr (VBool false));
       (405, inr (VBool false)) ].
Proof.
  unfold dispatch.
  destruct (req_method req =? "GET")%string;
    [|destruct (req_method req =? "POST")%string;
      [|destruct (req_method req =? "PUT")%string;
        [|destruct (req_method req =? "DELETE")%string]]].
  - unfold handleGet, bind, lift, ret, not_found.
    ServerProofs.split_cases; try discriminate;
      intros E; inversion E; subst; simpl; auto 6.
  - unfold handlePost, bind, lift, ret, throw.
    ServerProofs.split_cases; try discriminate;
      intros E; inversion E; subst; simpl; auto 6.
  - unfold handlePut, bind, lift, ret, not_found.
    ServerProofs.split_cases; try discriminate;
      intros E; inversion E; subst; simpl; auto 6.
  - unfold handleDelete, bind, lift, ret, throw.
    ServerProofs.split_cases; try discriminate;
      intros E; inversion E; subst; simpl; auto 6.
  - unfold ret. intros E; inversion E; subst; simpl; auto 6.
Qed.

(** X13. Whatever the request and the store, a reply to a verb other than
    OPTIONS carries the four CORS headers, its status is one of 200, 201,
    400, 404, 405 and 500, and its [success] field is true exactly for 200
    and 201. *)
Theorem handler_status_and_success (req : Req) (db : Store) :
  req_method req <> "OPTIONS" ->
  res_headers (fst (handler req db)) = corsHeaders
  /\ In (outcome (fst (handler req db)))
        [ (200, inr (VBool true)); (201, inr (VBool true));
          (400, inr (VBool false)); (404, inr (VBool false));
          (405, inr (VBool false)); (500, inr (VBool false)) ].
Proof.
  intros Hm. unfold handler, outcome.
  apply String.eqb_neq in Hm. rewrite Hm.
  destruct (dispatch req db) as [[e|[code payload]] db'] eqn:D; simpl.
  - split; [reflexivity|]. do 5 right. now left.
  - split; [reflexivity|].
    pose proof (dispatch_outcomes _ _ _ _ _ D) as H.
    simpl in H. simpl. intuition.
Qed.

(** *** Requests that never reach the store *)

(** X14. An OPTIONS request is answered 200 with an empty object and no
    header at all, and a verb other than GET, POST, PUT, DELETE and
    OPTIONS is answered 405; in both cases the store is not touched. *)
Theorem handler_preflight_and_unknown_verbs (q b : value) (db : Store) :
  handler (mkReq "OPTIONS" q b) db = (mkRes 200 [] (VObj []), db)
  /\ (forall m,
        ~ In m ["GET"; "POST"; "PUT"; "DELETE"; "OPTIONS"] ->
        handler (mkReq m q b) db
        = (mkRes 405 corsHeaders
                 (VObj [("success", VBool false);
                        ("error", VStr "Method not allowed")]),
           db)).
Proof.
  split; [reflexivity|].
  intros m Hm. unfold handler, dispatch. cbn [req_method].
  assert (N : forall x, In x ["GET"; "POST"; "PUT"; "DELETE"; "OPTIONS"] ->
                        (m =? x)%string = false).
  { intros x Hx. apply String.eqb_neq. intros ->. contradiction. }
  rewrite !N by (simpl; auto 6). reflexivity.
Qed.

(** X15. A POST or PUT whose body is [null] or [undefined] is answered 500
    with the TypeError of the destructuring, "Cannot destructure property
    'name' of 'req.body' as it is undefined." (or "null."), before
    anything is sent to the store. *)
Theorem handler_without_body (m : string) (q : list (string * value))
        (b : value) (db : Store) :
  m = "POST" \/ m = "PUT" -> nullish b = true ->
  handler (mkReq m (VObj q) b) db
  = (mkRes 500 corsHeaders
           (VObj [("success", VBool false);
                  ("error", VStr "Internal server error");
                  ("message",
                   VStr ("Cannot destructure property 'name' of 'req.body' as it is "
                         ++ to_string b ++ "."))]),
     db).
Proof.
  intros [-> | ->] Hb; destruct b; try discriminate; reflexivity.
Qed.

(** *** Properties kept along a computation *)

Lemma keeps_ret {A} (I : Store -> Prop) (a : A) : keeps I (ret a).
Proof. intros db H. exact H. Qed.

Lemma keeps_throw {A} (I : Store -> Prop) (e : Error) : keeps I (@throw Store A e).
Proof. intros db H. exact H. Qed.

Lemma keeps_lift {A} (I : Store -> Prop) (r : result A) : keeps I (lift r).
Proof. intros db H. exact H. Qed.

Lemma keeps_bind {A B} (I : Store -> Prop) (m : M Store A) (k : A -> M Store B) :
  keeps I m -> (forall a, keeps I (k a)) -> keeps I (bind m k).
Proof.
  intros Hm Hk db H. unfold bind. specialize (Hm db H).
  destruct (m db) as [[e|a] db1]; simpl in *; [exact Hm|].
  now apply Hk.
Qed.

Lemma keeps_try_catch {A} (I : Store -> Prop) (m : M Store A)
      (h : Error -> M Store A) :
  keeps I m -> (forall e, keeps I (h e)) -> keeps I (try_catch m h).
Proof.
  intros Hm Hh db H. unfold try_catch. specialize (Hm db H).
  destruct (m db) as [[e|a] db1]; simpl in *; [|exact Hm].
  now apply Hh.
Qed.

Lemma keeps_in_sequence (I : Store -> Prop) (l : list Statement) :
  (forall s, In s l -> keeps I (sql s)) -> keeps I (in_sequence l).
Proof.
  induction l as [|s rest IH]; intros H; simpl.
  - apply keeps_ret.
  - apply keeps_bind; [apply H; now left|].
    intros _. apply IH. intros s' Hin. apply H. now right.
Qed.

(** What [handleGet] keeps, given that each statement it can send keeps
    it. *)
Lemma keeps_handleGet (I : Store -> Prop) (req : Req) :
  (forall s, reads_or_migrates s = true -> keeps I (sql s)) ->
  keeps I (handleGet req).
Proof.
  intros H. unfold handleGet, add_missing_columns.
  apply keeps_bind; [now apply H|]. intros _.
  apply keeps_bind.
  { apply keeps_try_catch; [|intros; apply keeps_ret].
    apply keeps_in_sequence. intros s Hs. apply H.
    unfold add_column_statements in Hs. simpl in Hs.
    repeat (destruct Hs as [<-|Hs]; [reflexivity|]). contradiction. }
  intros _.
  apply keeps_bind; [now apply H|]. intros _.
  apply keeps_bind; [apply keeps_lift|]. intros query. cbv zeta.
  destruct (truthy (bound "id" query));
    [|destruct (truthy (bound "search" query));
      [|destruct (truthy (bound "category" query))]];
    (apply keeps_bind; [now apply H|]);
    intros result; try destruct result; apply keeps_ret.
Qed.

(** *** Nothing is lost by a read *)

Lemma grows_refl (t : Table) : grows t t.
Proof.
  split; [|auto].
  induction (rows t) as [|r l IH]; constructor; [|exact IH].
  exists []. now rewrite app_nil_r.
Qed.

Lemma grows_trans (t1 t2 t3 : Table) : grows t1 t2 -> grows t2 t3 -> grows t1 t3.
Proof.
  intros [R12 C12] [R23 C23]. split; [|auto].
  revert R23. generalize (rows t3). induction R12 as [|r1 r2 l1 l2 [e1 ->] _ IH];
    intros l3 R23; inversion R23 as [|? r3 ? l3' [e2 ->] R23']; subst;
    constructor.
  - exists (e1 ++ e2)%list. now rewrite app_assoc.
  - now apply IH.
Qed.

Lemma no_loss_refl (db db' : Store) : products db' = products db -> no_loss db db'.
Proof.
  intros E. unfold no_loss. destruct (products db) as [t|]; [|exact I].
  exists t. split; [exact E|apply grows_refl].
Qed.

Lemma no_loss_trans (a b c : Store) : no_loss a b -> no_loss b c -> no_loss a c.
Proof.
  unfold no_loss. destruct (products a) as [t|]; [|auto].
  intros (t' & E & G). rewrite E. intros (t'' & E' & G').
  exists t''. split; [exact E'|]. eapply grows_trans; eauto.
Qed.

Lemma mem_app_left (c : string) (l extra : list string) :
  mem c l = true -> mem c (l ++ extra) = true.
Proof.
  unfold mem. rewrite existsb_app. intros ->. reflexivity.
Qed.

Lemma sql_no_loss (s : Statement) (db : Store) :
  reads_or_migrates s = true -> no_loss db (snd (sql s db)).
Proof.
  intros Hs. unfold sql.
  destruct (refuses db _ s); [now apply no_loss_refl|].
  unfold run. cbn [products].
  destruct s; try discriminate; destruct (products db) as [t|] eqn:E;
    try (apply no_loss_refl; cbn [snd products]; now rewrite ?E);
    try (unfold no_loss; rewrite E; exact I).
  unfold no_loss. rewrite E.
  destruct (mem column (columns t)) eqn:M; cbn [snd products with_products].
  - exists t. split; [reflexivity|apply grows_refl].
  - eexists. split; [reflexivity|]. split; cbn [rows columns].
    + induction (rows t) as [|r l IH]; constructor; [|exact IH].
      now exists [(column, default)].
    + intros c. apply mem_app_left.
Qed.

Lemma keeps_no_loss (db0 : Store) (s : Statement) :
  reads_or_migrates s = true -> keeps (no_loss db0) (sql s).
Proof.
  intros Hs db H. eapply no_loss_trans; [exact H|]. now apply sql_no_loss.
Qed.

(** X16. A GET loses nothing, whatever it asks for and whatever the store
    refuses: when the products table exists it still exists afterwards,
    with the same rows in the same order, each keeping its fields (columns
    can only have been added after them), and with at least the columns it
    had. *)
Theorem handleGet_loses_nothing (q b : value) (db : Store) (t : Table) :
  products db = Some t ->
  exists t',
    products (snd (handler (mkReq "GET" q b) db)) = Some t' /\ grows t t'.
Proof.
  intros Ht.
  assert (H : no_loss db (snd (handleGet (mkReq "GET" q b) db))).
  { apply (keeps_handleGet (no_loss db)).
    - intros s Hs. now apply keeps_no_loss.
    - now apply no_loss_refl. }
  unfold no_loss in H. rewrite Ht in H.
  unfold handler, dispatch. cbn [req_method String.eqb Ascii.eqb Bool.eqb].
  destruct (handleGet (mkReq "GET" q b) db) as [[e|[code payload]] db'];
    exact H.
Qed.

(** *** The migration *)

Lemma sql_refuses (s : Statement) (db : Store) :
  refuses (snd (sql s db)) = refuses db.
Proof. apply ServerProofs.sql_sent. Qed.

Lemma keeps_obliging (s : Statement) : keeps obliging (sql s).
Proof.
  intros db H k s'. rewrite sql_refuses. apply H.
Qed.

(** A read changes neither table nor the serial id, whether the store
    answers it or not. *)
Lemma sql_select_unchanged (s : Statement) (db : Store) :
  is_select s = true ->
  products (snd (sql s db)) = products db
  /\ comments (snd (sql s db)) = comments db
  /\ next_id (snd (sql s db)) = next_id db.
Proof.
  intros Hs. unfold sql.
  destruct (refuses db _ s); [auto|].
  unfold run. cbn [products].
  destruct s; try discriminate; destruct (products db); auto.
Qed.

(** An add-column statement for a column the table has changes nothing
    of the tables, whether the store answers it or not; so does the
    creation of a products table that exists. *)
Lemma sql_migration_idle (s : Statement) (db : Store) (t : Table) :
  products db = Some t ->
  s = CreateProductsTable
  \/ (exists c d, s = AlterAddColumn c d /\ mem c (columns t) = true) ->
  products (snd (sql s db)) = Some t.
Proof.
  intros Ht Hs. unfold sql.
  destruct (refuses db _ s); [exact Ht|].
  unfold run. cbn [products]. rewrite Ht.
  destruct Hs as [-> | (c & d & -> & M)]; [reflexivity|].
  rewrite M. reflexivity.
Qed.

Lemma sql_comments_kept (s : Statement) :
  keeps (fun db => comments db = true) (sql s).
Proof.
  intros db H. unfold sql.
  destruct (refuses db _ s); [exact H|].
  unfold run. cbn [products].
  destruct s; destruct (products db); cbn [snd comments with_products];
    try exact H; try reflexivity;
    try (destruct (mem _ _); exact H);
    destruct (unknown_column _ _); cbn [snd comments]; try exact H;
    try (destruct (null_in _); exact H);
    destruct (violation _); exact H.
Qed.

Lemma has_column_no_loss (c : string) (db db' : Store) :
  has_column c db -> no_loss db db' -> has_column c db'.
Proof.
  intros (t & Ht & M). unfold no_loss. rewrite Ht.
  intros (t' & Ht' & _ & C). exists t'. auto.
Qed.

Lemma keeps_has_column (c : string) (s : Statement) :
  reads_or_migrates s = true -> keeps (has_column c) (sql s).
Proof.
  intros Hs db H. eapply has_column_no_loss; [exact H|now apply sql_no_loss].
Qed.

Lemma mem_app_right (c : string) (l : list string) : mem c (l ++ [c]) = true.
Proof.
  unfold mem. rewrite existsb_app. simpl. rewrite String.eqb_refl.
  now rewrite orb_true_r.
Qed.

Lemma alter_adds_column (c : string) (d : value) (db : Store) :
  obliging db -> products db <> None ->
  has_column c (snd (sql (AlterAddColumn c d) db)).
Proof.
  intros Hob Ht. unfold sql. rewrite Hob. unfold run. cbn [products].
  destruct (products db) as [t|] eqn:E; [|contradiction].
  destruct (mem c (columns t)) eqn:M; cbn [snd].
  - exists t. cbn [products]. auto.
  - eexists. cbn [products with_products]. split; [reflexivity|].
    apply mem_app_right.
Qed.

Lemma table_kept (s : Statement) :
  reads_or_migrates s = true -> keeps (fun db => products db <> None) (sql s).
Proof.
  intros Hs db H. pose proof (sql_no_loss s db Hs) as L.
  unfold no_loss in L. destruct (products db); [|contradiction].
  destruct L as (t' & -> & _). discriminate.
Qed.

(** Add-column statements sent in sequence to a store that refuses
    nothing and has the table leave a table with each of their columns. *)
Lemma in_sequence_adds (l : list Statement) :
  Forall is_alter l ->
  forall db, obliging db -> products db <> None ->
  forall s c, In s l -> added_column s = Some c ->
              has_column c (snd (in_sequence l db)).
Proof.
  induction 1 as [|s0 rest Hs0 Hrest IH]; intros db Hob Ht s c Hin Hc;
    [contradiction|].
  destruct s0; try contradiction.
  assert (Hrm : forall x, In x rest -> reads_or_migrates x = true).
  { intros x Hx. rewrite Forall_forall in Hrest. specialize (Hrest x Hx).
    destruct x; try contradiction; reflexivity. }
  simpl. unfold bind.
  pose proof (alter_adds_column column default db Hob Ht) as Hadd.
  pose proof (keeps_obliging (AlterAddColumn column default) db Hob) as Hob1.
  pose proof (table_kept (AlterAddColumn column default) eq_refl db Ht) as Ht1.
  destruct (sql (AlterAddColumn column default) db) as [[e|r] db1] eqn:Q;
    cbn [snd] in *.
  - destruct (ServerProofs.alter_accepted column default db Hob Ht)
      as (db' & Q' & _). rewrite Q in Q'. discriminate.
  - destruct Hin as [<- | Hin].
    + injection Hc as <-.
      apply (keeps_in_sequence (has_column column) rest); [|exact Hadd].
      intros x Hx. apply keeps_has_column. now apply Hrm.
    + now apply (IH db1 Hob1 Ht1 s c).
Qed.

Lemma product_fields_split :
  product_fields
  = (first_shape_fields
       ++ [ "framecolor"; "style"; "rim"; "gender"; "type"; "featured";
            "bestseller"; "sizes"; "lenstypes"; "discount"; "colorimages" ])%list.
Proof. reflexivity. Qed.

(** X17. On a store that refuses nothing, a GET leaves both tables in place
    and the products table with every column the handler writes, provided
    the table did not exist or had the product columns of its first
    shape; and the rows it had are kept. *)
Theorem handleGet_migrates (q b : value) (db : Store) :
  obliging db ->
  products db = None
  \/ (exists t, products db = Some t
                /\ forallb (fun c => mem c (columns t)) first_shape_fields = true) ->
  let after := snd (handler (mkReq "GET" q b) db) in
  (exists t', products after = Some t' /\ has_product_columns t' = true)
  /\ comments after = true
  /\ no_loss db after.
Proof.
  intros Hob Hshape. cbv zeta.
  assert (Hsnd : snd (handler (mkReq "GET" q b) db)
                 = snd (handleGet (mkReq "GET" q b) db)).
  { unfold handler, dispatch. cbn [req_method String.eqb Ascii.eqb Bool.eqb].
    now destruct (handleGet (mkReq "GET" q b) db) as [[e|[code payload]] db']. }
  rewrite Hsnd. clear Hsnd.
  assert (Hloss : no_loss db (snd (handleGet (mkReq "GET" q b) db))).
  { apply (keeps_handleGet (no_loss db)).
    - intros s Hs. now apply keeps_no_loss.
    - now apply no_loss_refl. }
  (* the store once the products table is there *)
  assert (Hcreate : exists r db1,
             sql CreateProductsTable db = (inr r, db1)
             /\ obliging db1 /\ products db1 <> None
             /\ forall c, In c first_shape_fields -> has_column c db1).
  { unfold sql. rewrite Hob. unfold run. cbn [products].
    destruct Hshape as [-> | (t & -> & Hf)]; eexists; eexists;
      (split; [reflexivity|]); cbn [products with_products refuses];
      (split; [exact Hob|]); (split; [discriminate|]); intros c Hc;
      eexists; (split; [reflexivity|]).
    - unfold first_shape_fields in Hc. simpl in Hc.
      repeat (destruct Hc as [<-|Hc]; [reflexivity|]). contradiction.
    - rewrite forallb_forall in Hf. now apply Hf. }
  destruct Hcreate as (r1 & db1 & Q1 & Hob1 & Ht1 & Hfirst).
  (* the store once the add-column block is over *)
  assert (Hblock : exists db2,
             add_missing_columns db1 = (inr tt, db2)
             /\ obliging db2 /\ products db2 <> None
             /\ forall c, In c product_fields -> has_column c db2).
  { pose proof (ServerProofs.in_sequence_alters add_column_statements) as Hok.
    assert (Hal : Forall is_alter add_column_statements)
      by (repeat constructor).
    specialize (Hok Hal db1 Hob1 Ht1).
    assert (Hrm : forall s, In s add_column_statements ->
                            reads_or_migrates s = true).
    { intros s Hs. rewrite Forall_forall in Hal. specialize (Hal s Hs).
      destruct s; try contradiction; reflexivity. }
    pose proof (in_sequence_adds add_column_statements Hal db1 Hob1 Ht1) as Hadd.
    pose proof (keeps_in_sequence obliging add_column_statements
                  (fun s _ => keeps_obliging s) db1 Hob1) as Hob2.
    pose proof (keeps_in_sequence (fun d => products d <> None)
                  add_column_statements
                  (fun s Hs => table_kept s (Hrm s Hs)) db1 Ht1) as Ht2.
    assert (Hkeep : forall c, In c first_shape_fields ->
                              has_column c (snd (in_sequence add_column_statements db1))).
    { intros c Hc.
      apply (keeps_in_sequence (has_column c) add_column_statements).
      - intros s Hs. apply keeps_has_column. now apply Hrm.
      - now apply Hfirst. }
    unfold add_missing_columns, try_catch.
    destruct (in_sequence add_column_statements db1) as [[e|[]] db2];
      cbn [fst snd] in *; [discriminate|].
    exists db2. split; [reflexivity|]. split; [exact Hob2|].
    split; [exact Ht2|]. intros c Hc. rewrite product_fields_split in Hc.
    apply in_app_or in Hc as [Hc|Hc]; [now apply Hkeep|].
    simpl in Hc.
    repeat (destruct Hc as [<-|Hc];
            [match goal with
             | |- has_column ?c _ =>
                 first [ apply (Hadd (AlterAddColumn c VNull) c);
                         [simpl; tauto|reflexivity]
                       | apply (Hadd (AlterAddColumn c (VBool false)) c);
                         [simpl; tauto|reflexivity] ]
             end|]).
    contradiction. }
  destruct Hblock as (db2 & Q2 & Hob2 & Ht2 & Hcols).
  (* the rest of the request keeps the columns and creates the comments table *)
  set (Goal := fun d : Store =>
                 comments d = true
                 /\ forall c, In c product_fields -> has_column c d).
  assert (Hrest : forall (k : M Store Reply),
             keeps Goal k ->
             Goal (snd (bind (sql CreateCommentsTable) (fun _ => k) db2))).
  { intros k Hk. unfold bind.
    assert (Q3 : exists r db3, sql CreateCommentsTable db2 = (inr r, db3)
                               /\ Goal db3).
    { unfold sql. rewrite Hob2. unfold run. cbn [products].
      eexists; eexists. split; [reflexivity|]. split; [reflexivity|].
      intros c Hc. destruct (Hcols c Hc) as (t & E & M).
      exists t. cbn [products]. auto. }
    destruct Q3 as (r3 & db3 & -> & H3).
    now apply Hk. }
  assert (Final : Goal (snd (handleGet (mkReq "GET" q b) db))).
  { unfold handleGet. unfold bind at 1. rewrite Q1.
    unfold bind at 1. rewrite Q2.
    apply Hrest.
    assert (Hsel : forall s, is_select s = true -> keeps Goal (sql s)).
    { intros s Hs d [Hc Hh]. split; [now apply sql_comments_kept|].
      intros c Hin. apply keeps_has_column; [|now apply Hh].
      destruct s; try discriminate; reflexivity. }
    apply keeps_bind; [apply keeps_lift|]. intros query. cbv zeta.
    destruct (truthy (bound "id" query));
      [|destruct (truthy (bound "search" query));
        [|destruct (truthy (bound "category" query))]];
      (apply keeps_bind; [now apply Hsel|]);
      intros result; try destruct result; apply keeps_ret. }
  destruct Final as [Hcom Hall].
  split; [|split; [exact Hcom|exact Hloss]].
  destruct (Hall "name") as (t' & Et' & _); [simpl; auto|].
  exists t'. split; [exact Et'|].
  unfold has_product_columns. apply forallb_forall. intros c Hc.
  destruct (Hall c Hc) as (t'' & Et'' & M). congruence.
Qed.

(** X18. Once the products table has the eleven added columns, a GET changes
    nothing of it, whatever it asks for and whatever the store refuses: the
    schema statements are idle and the rest only reads. *)
Theorem handleGet_idle_on_migrated_table (q b : value) (db : Store) (t : Table) :
  products db = Some t ->
  (forall s c, In s add_column_statements -> added_column s = Some c ->
               mem c (columns t) = true) ->
  products (snd (handler (mkReq "GET" q b) db)) = Some t.
Proof.
  intros Ht Hcols.
  assert (K : forall s,
             s = CreateProductsTable \/ s = CreateCommentsTable
             \/ In s add_column_statements \/ is_select s = true ->
             keeps (fun d => products d = Some t) (sql s)).
  { intros s Hs d Hd.
    destruct Hs as [-> | [-> | [Hin | Hsel]]].
    - apply (sql_migration_idle _ d t Hd). now left.
    - unfold sql. destruct (refuses d _ _); exact Hd.
    - apply (sql_migration_idle _ d t Hd). right.
      assert (Hal : Forall is_alter add_column_statements) by (repeat constructor).
      rewrite Forall_forall in Hal. specialize (Hal s Hin).
      destruct s; try contradiction.
      exists column, default. split; [reflexivity|].
      now apply (Hcols (AlterAddColumn column default)).
    - destruct (sql_select_unchanged s d Hsel) as (-> & _). exact Hd. }
  assert (H : products (snd (handleGet (mkReq "GET" q b) db)) = Some t).
  { revert Ht. generalize db.
    change (keeps (fun d => products d = Some t) (handleGet (mkReq "GET" q b))).
    unfold handleGet, add_missing_columns.
    apply keeps_bind; [apply K; auto|]. intros _.
    apply keeps_bind.
    { apply keeps_try_catch; [|intros; apply keeps_ret].
      apply keeps_in_sequence. intros s Hs. apply K. auto. }
    intros _.
    apply keeps_bind; [apply K; auto|]. intros _.
    apply keeps_bind; [apply keeps_lift|]. intros query. cbv zeta.
    destruct (truthy (bound "id" query));
      [|destruct (truthy (bound "search" query));
        [|destruct (truthy (bound "category" query))]];
      (apply keeps_bind; [apply K; do 3 right; reflexivity|]);
      intros result; try destruct result; apply keeps_ret. }
  unfold handler, dispatch. cbn [req_method String.eqb Ascii.eqb Bool.eqb].
  destruct (handleGet (mkReq "GET" q b) db) as [[e|[code payload]] db'];
    exact H.
Qed.

(** *** POST *)

Lemma mem_In (c : string) (l : list string) : mem c l = true <-> In c l.
Proof.
  unfold mem. rewrite existsb_exists. split.
  - intros (x & Hx & E). apply String.eqb_eq in E. now subst.
  - intros H. exists c. split; [exact H|apply String.eqb_refl].
Qed.

Lemma created_has_product_columns (t : Table) :
  has_created_columns t = true -> has_product_columns t = true.
Proof.
  unfold has_created_columns, has_product_columns.
  rewrite !forallb_forall. intros H c Hc. apply H.
  unfold product_fields in Hc. unfold created_columns. simpl in *.
  intuition.
Qed.

Lemma field_initial (k : string) (f : string -> value) (cols : list string) :
  In k cols -> field k (map (fun c => (c, f c)) cols) = f k.
Proof.
  unfold field. induction cols as [|c cols IH]; intros H; [contradiction|].
  simpl. destruct (c =? k)%string eqn:E.
  - apply String.eqb_eq in E. now subst.
  - destruct H as [-> | H]; [now rewrite String.eqb_refl in E|].
    now apply IH.
Qed.

Lemma with_default_keys (l : list (string * value)) :
  map fst (map with_default l) = map fst l.
Proof.
  induction l as [|[k v] l IH]; [reflexivity|].
  simpl. rewrite IH. f_equal.
  destruct v; try reflexivity.
  destruct (k =? "status")%string; [reflexivity|].
  destruct ((k =? "featured")%string || (k =? "bestseller")%string);
    reflexivity.
Qed.

Lemma insertions_keys (body : list (string * value)) :
  map fst (insertions body) = product_fields.
Proof.
  unfold insertions. rewrite with_default_keys.
  apply ServerProofs.bindings_keys.
Qed.

Lemma insertions_listed (body : list (string * value)) (k : string) :
  In k product_fields ->
  In (with_default (k, bound k body)) (insertions body).
Proof.
  intros Hk. unfold insertions, bindings. apply in_map.
  apply in_map_iff. now exists k.
Qed.

Lemma inserted_listed (body : list (string * value)) (cols : list string)
      (id time : Z) (k : string) :
  In k product_fields ->
  field k (inserted cols id time (insertions body))
  = to_sql (snd (with_default (k, bound k body))).
Proof.
  intros Hk. unfold inserted. apply ServerProofs.field_assign.
  - rewrite insertions_keys. apply ServerProofs.product_fields_NoDup.
  - pose proof (insertions_listed body k Hk) as H.
    assert (E : with_default (k, bound k body)
                = (k, snd (with_default (k, bound k body)))).
    { cbn [with_default]. destruct (bound k body); try reflexivity.
      destruct (k =? "status")%string; [reflexivity|].
      destruct ((k =? "featured")%string || (k =? "bestseller")%string);
        reflexivity. }
    now rewrite E in H.
Qed.

Lemma inserted_other (body : list (string * value)) (cols : list string)
      (id time : Z) (k : string) :
  In k cols -> ~ In k product_fields ->
  field k (inserted cols id time (insertions body))
  = if (k =? "id")%string then VNum id
    else if (k =? "created_at")%string || (k =? "updated_at")%string
         then VNum time
         else VNull.
Proof.
  intros Hk Hn. unfold inserted.
  rewrite ServerProofs.field_assign_other by now rewrite insertions_keys.
  now rewrite field_initial.
Qed.

Lemma inserted_creates (body : list (string * value)) (t : Table)
      (id time : Z) :
  has_created_columns t = true ->
  creates body id time (inserted (columns t) id time (insertions body)).
Proof.
  intros Hc.
  assert (Hin : forall c, In c created_columns -> In c (columns t)).
  { intros c Hcc. apply mem_In. unfold has_created_columns in Hc.
    rewrite forallb_forall in Hc. now apply Hc. }
  assert (Hno : forall c, In c ["id"; "created_at"; "updated_at"] ->
                          ~ In c product_fields).
  { intros c [<-|[<-|[<-|[]]]]; unfold product_fields; simpl;
      intuition discriminate. }
  split; [|split; [|split]].
  - rewrite inserted_other; [reflexivity| |apply Hno; simpl; auto].
    apply Hin. simpl. auto.
  - rewrite inserted_other; [reflexivity| |apply Hno; simpl; auto].
    apply Hin. simpl. auto 20.
  - rewrite inserted_other; [reflexivity| |apply Hno; simpl; auto].
    apply Hin. simpl. auto 20.
  - intros k Hk. rewrite inserted_listed by exact Hk.
    cbn [with_default]. destruct (bound k body); try reflexivity.
    destruct (k =? "status")%string; [reflexivity|].
    destruct ((k =? "featured")%string || (k =? "bestseller")%string);
      reflexivity.
Qed.

Lemma null_in_inserted (body : list (string * value)) (cols : list string)
      (id time : Z) :
  null_in (inserted cols id time (insertions body)) = missing body.
Proof.
  rewrite ServerProofs.null_in_cases.
  rewrite !inserted_listed by (unfold product_fields; simpl; auto).
  cbn [with_default String.eqb Ascii.eqb Bool.eqb orb].
  unfold missing.
  destruct (bound "name" body); destruct (bound "price" body); reflexivity.
Qed.

Lemma handlePost_run (q : value) (body : list (string * value))
      (db : Store) (t : Table) :
  products db = Some t -> has_created_columns t = true -> obliging db ->
  handler (mkReq "POST" q (VObj body)) db
  = match missing body with
    | Some c =>
        (mkRes 500 corsHeaders
               (VObj [("success", VBool false);
                      ("error", VStr "Internal server error");
                      ("message", VStr (message (not_null_violation c)))]),
         mkStore (Some t) (comments db) (next_id db + 1) (now db + 1)
                 (refuses db) (sent db ++ [Insert (insertions body)])%list)
    | None =>
        (mkRes 201 corsHeaders
               (VObj [("success", VBool true);
                      ("data",
                       VObj (inserted (columns t) (next_id db) (now db + 1)
                                      (insertions body)));
                      ("message", VStr "Product created successfully")]),
         mkStore (Some (mkTable (columns t)
                                (rows t
                                   ++ [inserted (columns t) (next_id db)
                                                (now db + 1)
                                                (insertions body)])%list))
                 (comments db) (next_id db + 1) (now db + 1) (refuses db)
                 (sent db ++ [Insert (insertions body)])%list)
    end.
Proof.
  intros Ht Hc Hob.
  unfold handler, dispatch. cbn [req_method String.eqb Ascii.eqb Bool.eqb].
  unfold handlePost, bind, lift, ret. cbn [req_body].
  rewrite ServerProofs.destructure_object.
  change (map with_default _) with (insertions body).
  unfold sql. rewrite Hob. unfold run. cbn [products]. rewrite Ht.
  assert (U : unknown_column (insertions body) t = None).
  { unfold unknown_column. rewrite insertions_keys.
    apply ServerProofs.find_missing_none.
    now apply created_has_product_columns. }
  rewrite U. cbn [next_id now comments refuses sent].
  change (assign (insertions body) _)
    with (inserted (columns t) (next_id db) (now db + 1) (insertions body)).
  rewrite null_in_inserted.
  now destruct (missing body).
Qed.

(** X19. On a store that has the products table with its columns and
    refuses nothing, a POST with an object body sends one INSERT that
    binds every listed field.  When the values are of the type of their
    columns and the body supplies [name] and [price], the reply is 201
    with the new row, which is appended to the table:
    its [id] is the next serial id and its two timestamps are the clock
    of the statement, whatever the body says about them, and every listed
    field is the value the body supplies, NULL when the body omits it,
    except that an omitted [status] is "active" and an omitted [featured]
    or [bestseller] is false (a [null] is stored as NULL).  When the body
    supplies no [name] or no [price] the store refuses the statement, the
    reply is 500 and the table is as before. *)
Theorem handlePost_creates_the_row (q : value) (body : list (string * value))
        (db : Store) (t : Table) :
  products db = Some t -> has_created_columns t = true -> obliging db ->
  let reply := fst (handler (mkReq "POST" q (VObj body)) db) in
  let after := snd (handler (mkReq "POST" q (VObj body)) db) in
  issued db after
  = [Insert (map with_default
                 (map (fun k => (k, bound k body)) product_fields))]
  /\ (well_typed (map with_default
                       (map (fun k => (k, bound k body)) product_fields))
      = true ->
      nullish (bound "name" body) = false ->
      nullish (bound "price" body) = false ->
      exists row,
        reply = mkRes 201 corsHeaders
                      (VObj [("success", VBool true); ("data", VObj row);
                             ("message", VStr "Product created successfully")])
        /\ products after = Some (mkTable (columns t) (rows t ++ [row])%list)
        /\ next_id after = next_id db + 1
        /\ creates body (next_id db) (now db + 1) row)
  /\ (nullish (bound "name" body) = true
      \/ nullish (bound "price" body) = true ->
      res_status reply = 500
      /\ get (res_json reply) "success" = inr (VBool false)
      /\ products after = Some t).
Proof.
  intros Ht Hc Hob. cbv zeta. rewrite (handlePost_run q body db t Ht Hc Hob).
  change (map with_default (map (fun k => (k, bound k body)) product_fields))
    with (insertions body).
  unfold missing.
  destruct (nullish (bound "name" body)) eqn:Nn;
    [|destruct (nullish (bound "price" body)) eqn:Np];
    cbn [fst snd products next_id res_status res_json get lookup String.eqb
         Ascii.eqb Bool.eqb];
    (split; [now apply ServerProofs.issued_app|]).
  - split; [intros _ [=]|auto].
  - split; [intros _ _ [=]|auto].
  - split; [|intros [[=]|[=]]].
    intros _ _ _. eexists. split; [reflexivity|]. split; [reflexivity|].
    split; [reflexivity|]. now apply inserted_creates.
Qed.

(** *** Reading a migrated table *)

Lemma handleGet_split (req : Req) :
  handleGet req
  = (sql CreateProductsTable ;;;
     add_missing_columns ;;;
     sql CreateCommentsTable ;;;
     query_part req).
Proof. reflexivity. Qed.

Lemma sql_next_id_kept (n : Z) (s : Statement) :
  reads_or_migrates s = true -> keeps (fun db => next_id db = n) (sql s).
Proof.
  intros Hs db H. unfold sql.
  destruct (refuses db _ s); [exact H|].
  unfold run. cbn [products].
  destruct s; try discriminate; destruct (products db);
    cbn [snd next_id with_products]; try exact H;
    destruct (mem _ _); exact H.
Qed.

(** On a store that refuses nothing and has the table with its columns,
    the schema statements of [handleGet] all succeed and change nothing of
    the table, the serial id or the oracle. *)
Lemma handleGet_on_migrated (req : Req) (db : Store) (t : Table) :
  products db = Some t -> has_created_columns t = true -> obliging db ->
  exists dbm,
    handleGet req db = query_part req dbm
    /\ products dbm = Some t /\ obliging dbm /\ next_id dbm = next_id db.
Proof.
  intros Ht Hc Hob. rewrite handleGet_split.
  assert (Hal : Forall is_alter add_column_statements) by (repeat constructor).
  assert (Hrm : forall s, In s add_column_statements ->
                          reads_or_migrates s = true).
  { intros s Hs. rewrite Forall_forall in Hal. specialize (Hal s Hs).
    destruct s; try contradiction; reflexivity. }
  assert (Hidle : forall s, In s add_column_statements ->
                            keeps (fun d => products d = Some t) (sql s)).
  { intros s Hs d Hd. apply (sql_migration_idle s d t Hd). right.
    rewrite Forall_forall in Hal. specialize (Hal s Hs).
    destruct s; try contradiction. exists column, default.
    split; [reflexivity|].
    unfold has_created_columns in Hc. rewrite forallb_forall in Hc.
    apply Hc. unfold add_column_statements in Hs. simpl in Hs.
    unfold created_columns. simpl.
    repeat (destruct Hs as [Hs|Hs]; [injection Hs as <- _; tauto|]).
    contradiction. }
  (* CREATE TABLE products *)
  unfold bind at 1.
  assert (Q1 : sql CreateProductsTable db
               = (inr [], mkStore (Some t) (comments db) (next_id db)
                                  (now db + 1) (refuses db)
                                  (sent db ++ [CreateProductsTable])%list)).
  { unfold sql. rewrite Hob. unfold run. cbn [products]. now rewrite Ht. }
  rewrite Q1. clear Q1.
  set (db1 := mkStore (Some t) (comments db) (next_id db) (now db + 1)
                      (refuses db) (sent db ++ [CreateProductsTable])%list).
  assert (Hob1 : obliging db1) by exact Hob.
  (* the add-column block *)
  unfold bind at 1.
  pose proof (ServerProofs.in_sequence_alters _ Hal db1 Hob1
                ltac:(discriminate)) as Hok.
  pose proof (keeps_in_sequence _ _ Hidle db1 eq_refl) as Hp2.
  pose proof (keeps_in_sequence obliging add_column_statements
                (fun s _ => keeps_obliging s) db1 Hob1) as Hob2.
  pose proof (keeps_in_sequence (fun d => next_id d = next_id db)
                add_column_statements
                (fun s Hs => sql_next_id_kept _ s (Hrm s Hs))
                db1 eq_refl) as Hn2.
  cbv beta in Hp2, Hn2.
  unfold add_missing_columns, try_catch.
  destruct (in_sequence add_column_statements db1) as [[e|[]] db2];
    cbn [fst snd] in *; [discriminate|].
  (* CREATE TABLE comments *)
  unfold bind at 1.
  assert (Q3 : sql CreateCommentsTable db2
               = (inr [], mkStore (Some t) true (next_id db2) (now db2 + 1)
                                  (refuses db2)
                                  (sent db2 ++ [CreateCommentsTable])%list)).
  { unfold sql. rewrite Hob2. unfold run. cbn [products]. now rewrite Hp2. }
  rewrite Q3. eexists. split; [reflexivity|].
  cbn [products next_id]. auto.
Qed.

Lemma handler_get (req : Req) (db : Store) :
  req_method req = "GET" ->
  handler req db
  = match handleGet req db with
    | (inr (code, payload), db') => (mkRes code corsHeaders payload, db')
    | (inl error, db') =>
        (mkRes 500 corsHeaders
               (VObj [("success", VBool false);
                      ("error", VStr "Internal server error");
                      ("message", VStr (message error))]), db')
    end.
Proof.
  intros E. unfold handler, dispatch. rewrite E. reflexivity.
Qed.

Lemma handleGet_by_id_run (q : list (string * value)) (b id : value)
      (db : Store) (t : Table) :
  products db = Some t -> has_created_columns t = true -> obliging db ->
  lookup "id" q = Some id -> truthy id = true ->
  exists db',
    handler (mkReq "GET" (VObj q) b) db
    = (match filter (id_is id) (rows t) with
       | [] =>
           mkRes 404 corsHeaders
                 (VObj [("success", VBool false);
                        ("error", VStr "Product not found")])
       | first :: _ =>
           mkRes 200 corsHeaders
                 (VObj [("success", VBool true); ("data", VObj first)])
       end, db')
    /\ products db' = Some t.
Proof.
  intros Ht Hc Hob Hq Hid.
  rewrite handler_get by reflexivity.
  destruct (handleGet_on_migrated (mkReq "GET" (VObj q) b) db t Ht Hc Hob)
    as (dbm & -> & Htm & Hobm & _).
  unfold query_part, bind, lift, ret. cbn [req_query].
  rewrite ServerProofs.destructure_object. cbv zeta.
  change (bound "id" (map _ _)) with (bound "id" q).
  assert (Eid : bound "id" q = id) by (unfold bound; now rewrite Hq).
  rewrite Eid, Hid.
  rewrite (ServerProofs.sql_select_by_id dbm t id Htm Hobm).
  eexists. split; [now destruct (filter (id_is id) (rows t))|reflexivity].
Qed.

(** X20. A GET with an [id] looks that id up and nothing else: on a store
    that refuses nothing and has the table with its columns, it is
    answered 404 when no row has the id and 200 with the first such row
    otherwise, whatever [search] and [category] say, and the table is
    left as it was. *)
Theorem handleGet_by_id (q : list (string * value)) (b id : value)
        (db : Store) (t : Table) :
  products db = Some t -> has_created_columns t = true -> obliging db ->
  lookup "id" q = Some id -> truthy id = true ->
  fst (handler (mkReq "GET" (VObj q) b) db)
  = match filter (id_is id) (rows t) with
    | [] =>
        mkRes 404 corsHeaders
              (VObj [("success", VBool false); ("error", VStr "Product not found")])
    | first :: _ =>
        mkRes 200 corsHeaders
              (VObj [("success", VBool true); ("data", VObj first)])
    end
  /\ products (snd (handler (mkReq "GET" (VObj q) b) db)) = Some t.
Proof.
  intros Ht Hc Hob Hq Hid.
  destruct (handleGet_by_id_run q b id db t Ht Hc Hob Hq Hid) as (db' & -> & H).
  split; [reflexivity|exact H].
Qed.

(** *** Ids *)

(** The decimal text of an integer, bound to a placeholder compared with
    [id], stands for that integer, and is a truthy string. *)
Lemma as_integer_dec (n : Z) :
  as_integer (VStr (dec n)) = Some n /\ truthy (VStr (dec n)) = true.
Proof.
  unfold dec. destruct n as [|p|p]; [split; reflexivity| |].
  - unfold Z.to_int, NilZero.string_of_int, NilZero.string_of_uint.
    pose proof (ClientProofs.to_uint_not_nil p) as Hn.
    destruct (ClientProofs.positive_text p) as (Hd & Ha & _ & Hc).
    destruct (Pos.to_uint p) eqn:E; try contradiction;
      (split; [|reflexivity]); unfold as_integer;
      cbn [NilEmpty.string_of_uint] in *; rewrite Ha; exact Hd.
  - unfold Z.to_int, NilZero.string_of_int, NilZero.string_of_uint.
    pose proof (ClientProofs.to_uint_not_nil p) as Hn.
    destruct (ClientProofs.positive_text p) as (Hd & Ha & _ & _).
    assert (E : as_integer
                  (VStr (String "-" (NilEmpty.string_of_uint (Pos.to_uint p))))
                = Some (Z.neg p)).
    { unfold as_integer. rewrite Ha, Hd. reflexivity. }
    destruct (Pos.to_uint p); try contradiction; (split; [exact E|reflexivity]).
Qed.

Lemma lookup_app_left (k : string) (r extra : list (string * value)) (v : value) :
  lookup k r = Some v -> lookup k (r ++ extra)%list = Some v.
Proof.
  induction r as [|[k' v'] r IH]; simpl; [discriminate|].
  destruct (k' =? k)%string; [auto|exact IH].
Qed.

Lemma field_app_other (k c : string) (d : value) (r : Row) :
  k <> c -> field k (r ++ [(c, d)])%list = field k r.
Proof.
  intros ne. unfold field.
  induction r as [|[k' v'] r IH]; simpl.
  - destruct (c =? k)%string eqn:E; [|reflexivity].
    apply String.eqb_eq in E. congruence.
  - destruct (k' =? k)%string; [reflexivity|exact IH].
Qed.

Lemma NoDup_map_filter {A B} (f : A -> B) (g : A -> bool) (l : list A) :
  NoDup (map f l) -> NoDup (map f (filter g l)).
Proof.
  induction l as [|a l IH]; simpl; intros H; [constructor|].
  inversion H as [|? ? Hn Hd]; subst.
  destruct (g a); simpl; [|now apply IH].
  constructor; [|now apply IH].
  intros Hin. apply Hn. apply in_map_iff in Hin as (x & E & Hx).
  apply in_map_iff. exists x. split; [exact E|].
  now apply filter_In in Hx.
Qed.

(** Every statement that assigns no [id] keeps the rows well keyed. *)
Lemma sql_well_keyed (s : Statement) :
  leaves_id s = true -> keeps well_keyed (sql s).
Proof.
  intros Hs db H. unfold sql.
  destruct (refuses db _ s); [exact H|].
  unfold run. cbn [products]. unfold well_keyed in *.
  destruct (products db) as [t|] eqn:Et.
  - destruct H as (Hid & Hnd & Hlt).
    destruct s; cbn [snd products next_id with_products];
      try (rewrite ?Et; now auto).
    + (* ALTER TABLE ... ADD COLUMN *)
      destruct (mem column (columns t)) eqn:M;
        cbn [snd products next_id with_products columns rows];
        [now auto|].
      assert (Hne : "id" <> column) by (intros <-; congruence).
      assert (Hf : forall r : Row,
                 field "id" (r ++ [(column, default)])%list = field "id" r)
        by (intros r; now apply field_app_other).
      split; [now apply mem_app_left|]. split.
      * rewrite map_map. rewrite (map_ext _ (field "id")) by exact Hf.
        exact Hnd.
      * rewrite Forall_map. eapply Forall_impl; [|exact Hlt].
        intros r (k & E & Hk). exists k. now rewrite Hf.
    + (* INSERT *)
      destruct (unknown_column values t);
        cbn [snd products next_id with_products columns rows];
        [now auto|].
      simpl in Hs. apply negb_true_iff in Hs.
      match goal with
      | |- context [null_in ?r] => set (row := r)
      end.
      destruct (null_in row);
        cbn [snd products next_id with_products columns rows].
      { split; [exact Hid|]. split; [exact Hnd|].
        eapply Forall_impl; [|exact Hlt].
        intros r (k & E & Hk). exists k. split; [exact E|lia]. }
      assert (Hrow : field "id" row = VNum (next_id db)).
      { unfold row. rewrite ServerProofs.field_assign_other.
        - rewrite field_initial by now apply mem_In.
          reflexivity.
        - intros Hin. apply mem_In in Hin. congruence. }
      split; [exact Hid|]. split.
      * rewrite map_app. simpl. rewrite Hrow.
        apply NoDup_app_remove_l with (l := nil). simpl.
        apply Permutation_NoDup with (l := VNum (next_id db) :: map (field "id") (rows t)).
        { apply Permutation_cons_append. }
        constructor; [|exact Hnd].
        intros Hin. apply in_map_iff in Hin as (r & E & Hr).
        rewrite Forall_forall in Hlt. destruct (Hlt r Hr) as (k & E' & Hk).
        rewrite E' in E. injection E as ->. lia.
      * apply Forall_app. split.
        -- eapply Forall_impl; [|exact Hlt].
           intros r (k & E & Hk). exists k. split; [exact E|lia].
        -- constructor; [|constructor]. exists (next_id db). split; [exact Hrow|lia].
    + (* UPDATE *)
      destruct (unknown_column values t);
        cbn [snd products next_id with_products columns rows];
        [now auto|].
      destruct (violation _);
        cbn [snd products next_id with_products columns rows];
        [rewrite ?Et; now auto|].
      simpl in Hs. apply negb_true_iff in Hs.
      assert (Hf : forall r,
                 field "id"
                   (if id_is id r
                    then set_field "updated_at" (VNum (now db + 1)) (assign values r)
                    else r)
                 = field "id" r).
      { intros r. destruct (id_is id r); [|reflexivity].
        rewrite ServerProofs.field_set_field_other by discriminate.
        apply ServerProofs.field_assign_other.
        intros Hin. apply mem_In in Hin. congruence. }
      split; [exact Hid|]. split.
      * rewrite map_map. rewrite (map_ext _ (field "id")) by exact Hf.
        exact Hnd.
      * rewrite Forall_map. eapply Forall_impl; [|exact Hlt].
        intros r (k & E & Hk). exists k. now rewrite Hf.
    + (* DELETE *)
      split; [exact Hid|]. split.
      * now apply NoDup_map_filter.
      * now apply incl_Forall with (l1 := rows t); [apply incl_filter|].
  - destruct s; cbn [snd products next_id with_products columns rows];
      try (rewrite ?Et; exact I).
    split; [reflexivity|]. split; constructor.
Qed.

Lemma properties_keys (obj : value) (keys : list string)
      (fields : list (string * value)) :
  properties obj keys = inr fields -> map fst fields = keys.
Proof.
  revert fields. induction keys as [|k rest IH]; intros fields.
  - intros [= <-]. reflexivity.
  - unfold properties; fold properties. unfold rbind.
    destruct (get obj k) as [e|v]; [discriminate|].
    destruct (properties obj rest) as [e|vs]; [discriminate|].
    intros [= <-]. simpl. f_equal. now apply IH.
Qed.

Lemma destructure_keys (source : string) (obj : value) (keys : list string)
      (fields : list (string * value)) :
  destructure source obj keys = inr fields -> map fst fields = keys.
Proof.
  unfold destructure. destruct (nullish obj); [discriminate|].
  apply properties_keys.
Qed.

Lemma id_not_listed : mem "id" product_fields = false.
Proof. reflexivity. Qed.

Lemma keeps_bind_lift {A B} (I : Store -> Prop) (r : result A)
      (k : A -> M Store B) :
  (forall a, r = inr a -> keeps I (k a)) -> keeps I (bind (lift r) k).
Proof.
  intros Hk db H. unfold bind, lift. destruct r as [e|a]; [exact H|].
  now apply Hk.
Qed.

(** X21. The handler keeps the rows well keyed: if the table has an [id]
    column and the ids of the rows are pairwise different and below the
    next serial id before a request, this is so after it, whatever the
    request and whatever the store refuses. *)
Theorem handler_keeps_ids (req : Req) (db : Store) :
  well_keyed db -> well_keyed (snd (handler req db)).
Proof.
  intros H. unfold handler.
  destruct (req_method req =? "OPTIONS")%string; [exact H|].
  assert (K : well_keyed (snd (dispatch req db))).
  { revert db H. change (keeps well_keyed (dispatch req)). unfold dispatch.
    destruct (req_method req =? "GET")%string;
      [|destruct (req_method req =? "POST")%string;
        [|destruct (req_method req =? "PUT")%string;
          [|destruct (req_method req =? "DELETE")%string]]].
    - apply keeps_handleGet. intros s Hs. apply sql_well_keyed.
      destruct s; try discriminate; reflexivity.
    - unfold handlePost. apply keeps_bind_lift. intros fields D.
      apply keeps_bind.
      + apply sql_well_keyed. cbn [leaves_id].
        rewrite with_default_keys, (destructure_keys _ _ _ _ D).
        reflexivity.
      + intros rows0. destruct rows0; [apply keeps_throw|apply keeps_ret].
    - unfold handlePut. apply keeps_bind_lift. intros query _. cbv zeta.
      apply keeps_bind_lift. intros fields D.
      apply keeps_bind.
      + apply sql_well_keyed. cbn [leaves_id].
        rewrite (destructure_keys _ _ _ _ D). reflexivity.
      + intros rows0. destruct rows0; apply keeps_ret.
    - unfold handleDelete. apply keeps_bind_lift. intros query _. cbv zeta.
      destruct (negb (truthy (bound "id" query))); [apply keeps_ret|].
      apply keeps_bind; [now apply sql_well_keyed|].
      intros existing. destruct existing; [apply keeps_ret|].
      apply keeps_bind; [now apply sql_well_keyed|].
      intros rows0. destruct rows0; [apply keeps_throw|apply keeps_ret].
    - apply keeps_ret. }
  destruct (dispatch req db) as [[e|[code payload]] db']; exact K.
Qed.

(** *** Create, then read *)

Lemma filter_all_false {A} (f : A -> bool) (l : list A) :
  (forall x, In x l -> f x = false) -> filter f l = [].
Proof.
  induction l as [|a l IH]; intros H; [reflexivity|].
  simpl. rewrite (H a) by now left. apply IH. intros x Hx. apply H. now right.
Qed.

(** X22. What a POST created is what a GET of its id returns: on a store
    that has the table with its columns, refuses nothing and is well
    keyed, when the values of the body are of the type of their columns
    and [name] and [price] are among them, the row in the 201 reply of a
    POST is the row in the 200 reply of the GET that follows with the new
    id, given as decimal text. *)
Theorem post_then_get_by_id (q b : value) (body : list (string * value))
        (db : Store) (t : Table) :
  products db = Some t -> has_created_columns t = true -> obliging db ->
  well_keyed db ->
  well_typed (map with_default
                  (map (fun k => (k, bound k body)) product_fields))
  = true ->
  nullish (bound "name" body) = false ->
  nullish (bound "price" body) = false ->
  let post := mkReq "POST" q (VObj body) in
  let lookup_request :=
    mkReq "GET" (VObj [("id", VStr (dec (next_id db)))]) b in
  exists row,
    fst (handler post db)
    = mkRes 201 corsHeaders
            (VObj [("success", VBool true); ("data", VObj row);
                   ("message", VStr "Product created successfully")])
    /\ fst (handler lookup_request (snd (handler post db)))
       = mkRes 200 corsHeaders
               (VObj [("success", VBool true); ("data", VObj row)]).
Proof.
  intros Ht Hc Hob Hkey _ Hn Hp. cbv zeta.
  rewrite (handlePost_run q body db t Ht Hc Hob).
  unfold missing. rewrite Hn, Hp. cbn [fst snd].
  set (row := inserted (columns t) (next_id db) (now db + 1) (insertions body)).
  exists row. split; [reflexivity|].
  destruct (as_integer_dec (next_id db)) as [Hint Htruthy].
  match goal with
  | |- fst (handler _ ?created) = _ =>
      destruct (handleGet_by_id_run [("id", VStr (dec (next_id db)))] b
                  (VStr (dec (next_id db))) created
                  (mkTable (columns t) (rows t ++ [row])%list)
                  eq_refl Hc Hob eq_refl Htruthy) as (db' & G & _)
  end.
  rewrite G. clear G. cbn [fst]. cbn [rows]. rewrite filter_app.
  assert (Hold : filter (id_is (VStr (dec (next_id db)))) (rows t) = []).
  { apply filter_all_false. intros r Hr. unfold id_is. rewrite Hint.
    unfold well_keyed in Hkey. rewrite Ht in Hkey.
    destruct Hkey as (_ & _ & Hlt). rewrite Forall_forall in Hlt.
    destruct (Hlt r Hr) as (k & -> & Hk). cbn [strict_eq_number].
    apply Z.eqb_neq. lia. }
  rewrite Hold. cbn [app filter].
  assert (Hnew : id_is (VStr (dec (next_id db))) row = true).
  { destruct (inserted_creates body t (next_id db) (now db + 1) Hc)
      as (Hrow & _).
    fold row in Hrow.
    unfold id_is. rewrite Hint, Hrow.
    cbn [strict_eq_number]. apply Z.eqb_refl. }
  rewrite Hnew. reflexivity.
Qed.

(** *** Delete, then delete again *)

Lemma filter_negb_of_none {A} (f : A -> bool) (l : list A) :
  filter f l = [] -> filter (fun x => negb (f x)) l = l.
Proof.
  induction l as [|a l IH]; simpl; [reflexivity|].
  destruct (f a); [discriminate|]. intros H. simpl. f_equal. now apply IH.
Qed.

Lemma filter_filter_negb {A} (f : A -> bool) (l : list A) :
  filter f (filter (fun x => negb (f x)) l) = [].
Proof.
  apply filter_all_false. intros x Hx. apply filter_In in Hx as [_ Hx].
  now apply negb_true_iff in Hx.
Qed.

Lemma handleDelete_run (q : list (string * value)) (b id : value)
      (db : Store) (t : Table) :
  lookup "id" q = Some id -> truthy id = true ->
  products db = Some t -> obliging db ->
  exists db1,
    handler (mkReq "DELETE" (VObj q) b) db
    = (match filter (id_is id) (rows t) with
       | [] =>
           mkRes 404 corsHeaders
                 (VObj [("success", VBool false);
                        ("error", VStr "Product not found");
                        ("message", VStr "Product not found")])
       | first :: _ =>
           mkRes 200 corsHeaders
                 (VObj [("success", VBool true);
                        ("message", VStr "Product deleted successfully");
                        ("data", VObj first)])
       end, db1)
    /\ obliging db1
    /\ products db1
       = Some (mkTable (columns t)
                       (filter (fun x => negb (id_is id x)) (rows t))).
Proof.
  intros Hq Hid Ht Hob.
  unfold handler, dispatch. cbn [req_method String.eqb Ascii.eqb Bool.eqb].
  unfold handleDelete, bind, lift, ret. cbn [req_query].
  rewrite ServerProofs.destructure_object. cbv zeta.
  change (bound "id" (map _ _)) with (bound "id" q).
  assert (Eid : bound "id" q = id) by (unfold bound; now rewrite Hq).
  rewrite Eid, Hid. cbn [negb].
  rewrite (ServerProofs.sql_select_by_id db t id Ht Hob).
  destruct (filter (id_is id) (rows t)) as [|r rest] eqn:F.
  - eexists. split; [reflexivity|]. split; [exact Hob|].
    cbn [products]. rewrite (filter_negb_of_none _ _ F).
    now destruct t.
  - rewrite (ServerProofs.sql_delete
               (mkStore (Some t) (comments db) (next_id db) (now db + 1)
                        (refuses db) (sent db ++ [SelectById id])%list)
               t id eq_refl Hob), F.
    eexists. split; [reflexivity|]. split; [exact Hob|reflexivity].
Qed.

(** X23. A DELETE is final: on a store that has the table and refuses
    nothing, after a DELETE with an id no row has that id, so that the
    same DELETE sent again is answered 404, and the rows of other ids are
    all still there, in their order. *)
Theorem delete_is_final (q : list (string * value)) (b id : value)
        (db : Store) (t : Table) :
  lookup "id" q = Some id -> truthy id = true ->
  products db = Some t -> obliging db ->
  let request := mkReq "DELETE" (VObj q) b in
  let after := snd (handler request db) in
  products after
  = Some (mkTable (columns t) (filter (fun x => negb (id_is id x)) (rows t)))
  /\ res_status (fst (handler request after)) = 404
  /\ products (snd (handler request after)) = products after.
Proof.
  intros Hq Hid Ht Hob. cbv zeta.
  destruct (handleDelete_run q b id db t Hq Hid Ht Hob) as (db1 & -> & Hob1 & Ht1).
  cbn [snd]. split; [exact Ht1|].
  destruct (handleDelete_run q b id db1 _ Hq Hid Ht1 Hob1) as (db2 & -> & _ & Ht2).
  cbn [fst snd rows columns] in *. rewrite filter_filter_negb in *.
  split; [reflexivity|]. rewrite Ht2, Ht1. f_equal. f_equal.
  apply filter_negb_of_none. apply filter_filter_negb.
Qed.

(** *** An update touches one id *)

(** X24. A PUT changes no other row: on a store that has the table with the
    handler's columns and refuses nothing, after a PUT the table has the
    same columns and as many rows, with the same ids and creation times in
    the same order, and every row whose id is not the one given is
    unchanged. *)
Theorem handlePut_touches_one_id (q body : list (string * value))
        (db : Store) (t : Table) :
  products db = Some t -> has_product_columns t = true -> obliging db ->
  let id := match lookup "id" q with Some v => v | None => VUndefined end in
  exists t',
    products (snd (handler (mkReq "PUT" (VObj q) (VObj body)) db)) = Some t'
    /\ columns t' = columns t
    /\ List.length (rows t') = List.length (rows t)
    /\ map (field "id") (rows t') = map (field "id") (rows t)
    /\ map (field "created_at") (rows t') = map (field "created_at") (rows t)
    /\ Forall2 (fun r r' => id_is id r = false -> r' = r) (rows t) (rows t').
Proof.
  intros Ht Hc Hob. cbv zeta.
  change (match lookup "id" q with Some v => v | None => VUndefined end)
    with (bound "id" q).
  unfold handler, dispatch. cbn [req_method String.eqb Ascii.eqb Bool.eqb].
  rewrite (ServerProofs.handlePut_run q body db t Ht Hc Hob).
  assert (Fsame : forall l : list Row,
             Forall2 (fun r r' => id_is (bound "id" q) r = false -> r' = r) l l).
  { induction l as [|r l IH]; constructor; auto. }
  assert (Fmap : forall l : list Row,
             Forall2 (fun r r' => id_is (bound "id" q) r = false -> r' = r) l
                     (map (fun r => if id_is (bound "id" q) r
                                    then rewritten body (now db + 1) r
                                    else r) l)).
  { induction l as [|r l IH]; cbn [map]; constructor; [|exact IH].
    intros ->. reflexivity. }
  set (kept := fun t' : Table =>
                 columns t' = columns t
                 /\ List.length (rows t') = List.length (rows t)
                 /\ map (field "id") (rows t') = map (field "id") (rows t)
                 /\ map (field "created_at") (rows t')
                    = map (field "created_at") (rows t)
                 /\ Forall2 (fun r r' => id_is (bound "id" q) r = false -> r' = r)
                            (rows t) (rows t')).
  assert (Same : kept t).
  { unfold kept. repeat (split; [reflexivity|]). apply Fsame. }
  assert (Mapped : kept (mkTable (columns t)
                           (map (fun r =>
                                   if id_is (bound "id" q) r
                                   then rewritten body (now db + 1) r
                                   else r) (rows t)))).
  { unfold kept. cbn [columns rows].
    split; [reflexivity|]. split; [apply length_map|].
    split; [|split].
    - rewrite map_map. apply map_ext. intros r.
      destruct (id_is _ r); [|reflexivity].
      apply ServerProofs.rewritten_other; [discriminate|].
      unfold product_fields. simpl. intuition discriminate.
    - rewrite map_map. apply map_ext. intros r.
      destruct (id_is _ r); [|reflexivity].
      apply ServerProofs.rewritten_other; [discriminate|].
      unfold product_fields. simpl. intuition discriminate.
    - apply Fmap. }
  destruct (filter (id_is (bound "id" q)) (rows t));
    destruct (missing body); cbn [fst snd products];
    eexists; (split; [reflexivity|]);
    first [exact Mapped | exact Same].
Qed.

(** *** Reading the whole table *)

Lemma insert_newest_first_perm (r : Row) (l : list Row) :
  Permutation (insert_newest_first r l) (r :: l).
Proof.
  induction l as [|r' l IH]; simpl; [constructor; constructor|].
  destruct (created_at r' <? created_at r); [apply Permutation_refl|].
  eapply perm_trans; [apply perm_skip, IH|apply perm_swap].
Qed.

Lemma newest_first_perm (l : list Row) : Permutation (newest_first l) l.
Proof.
  induction l as [|r l IH]; simpl; [constructor|].
  eapply perm_trans; [apply insert_newest_first_perm|now apply perm_skip].
Qed.

Lemma insert_newest_first_sorted (r : Row) (l : list Row) :
  StronglySorted not_older l -> StronglySorted not_older (insert_newest_first r l).
Proof.
  induction 1 as [|r' l Hs IH Hall]; simpl.
  - constructor; constructor.
  - destruct (created_at r' <? created_at r) eqn:E.
    + apply Z.ltb_lt in E. constructor; [now constructor|].
      constructor; [unfold not_older; lia|].
      eapply Forall_impl; [|exact Hall]. unfold not_older. intros x Hx. lia.
    + apply Z.ltb_ge in E. constructor; [exact IH|].
      eapply Permutation_Forall;
        [apply Permutation_sym, insert_newest_first_perm|].
      constructor; [exact E|exact Hall].
Qed.

Lemma newest_first_sorted (l : list Row) : StronglySorted not_older (newest_first l).
Proof.
  induction l as [|r l IH]; simpl; [constructor|].
  now apply insert_newest_first_sorted.
Qed.

(** X25. A GET with no [id], [search] or [category] returns the whole table:
    on a store that refuses nothing and has the table with its columns,
    the reply is 200 and carries every row exactly once, newest first, and
    [count] is the number of rows of the table. *)
Theorem handleGet_all (q : list (string * value)) (b : value)
        (db : Store) (t : Table) :
  products db = Some t -> has_created_columns t = true -> obliging db ->
  lookup "id" q = None -> lookup "search" q = None ->
  lookup "category" q = None ->
  exists listed,
    fst (handler (mkReq "GET" (VObj q) b) db)
    = mkRes 200 corsHeaders
            (VObj [("success", VBool true); ("data", rows_json listed);
                   ("count", VNum (Z.of_nat (List.length (rows t))));
                   ("source", VStr "neon")])
    /\ Permutation listed (rows t)
    /\ StronglySorted not_older listed.
Proof.
  intros Ht Hc Hob Hi Hs Hg.
  rewrite handler_get by reflexivity.
  destruct (handleGet_on_migrated (mkReq "GET" (VObj q) b) db t Ht Hc Hob)
    as (dbm & -> & Htm & Hobm & _).
  unfold query_part, bind, lift, ret. cbn [req_query].
  rewrite ServerProofs.destructure_object. cbv zeta.
  change (bound "id" (map _ _)) with (bound "id" q).
  change (bound "search" (map _ _)) with (bound "search" q).
  change (bound "category" (map _ _)) with (bound "category" q).
  unfold bound. rewrite Hi, Hs, Hg. cbn [truthy].
  unfold sql. rewrite Hobm. unfold run. cbn [products]. rewrite Htm.
  exists (newest_first (rows t)). cbn [fst].
  split; [|split; [apply newest_first_perm|apply newest_first_sorted]].
  unfold count. rewrite (Permutation_length (newest_first_perm (rows t))).
  reflexivity.
Qed.

(** *** Instances *)

Lemma stocked_migrated :
  products Samples.stocked
  = Some (Samples.stocked_table_or_empty Samples.stocked)
  /\ has_created_columns (Samples.stocked_table_or_empty Samples.stocked) = true
  /\ obliging Samples.stocked
  /\ well_keyed Samples.stocked.
Proof.
  split; [vm_compute; reflexivity|].
  split; [vm_compute; reflexivity|].
  split; [intros k s; reflexivity|].
  unfold well_keyed.
  replace (products Samples.stocked)
    with (Some (Samples.stocked_table_or_empty Samples.stocked))
    by (vm_compute; reflexivity).
  split; [vm_compute; reflexivity|]. split.
  - replace (map (field "id")
                 (rows (Samples.stocked_table_or_empty Samples.stocked)))
      with [VNum 1; VNum 2] by (vm_compute; reflexivity).
    constructor; [intros [H|[]]; discriminate H|].
    constructor; [intros []|constructor].
  - replace (rows (Samples.stocked_table_or_empty Samples.stocked))
      with [nth 0 (rows (Samples.stocked_table_or_empty Samples.stocked)) [];
            nth 1 (rows (Samples.stocked_table_or_empty Samples.stocked)) []]
      by (vm_compute; reflexivity).
    replace (next_id Samples.stocked) with 3 by (vm_compute; reflexivity).
    constructor; [exists 1; split; [vm_compute; reflexivity|lia]|].
    constructor; [exists 2; split; [vm_compute; reflexivity|lia]|].
    constructor.
Qed.

Lemma handler_status_and_success_witness :
  res_headers (fst (handler Samples.post_test Samples.fresh)) = corsHeaders
  /\ In (outcome (fst (handler Samples.post_test Samples.fresh)))
        [ (200, inr (VBool true)); (201, inr (VBool true));
          (400, inr (VBool false)); (404, inr (VBool false));
          (405, inr (VBool false)); (500, inr (VBool false)) ].
Proof.
  apply (handler_status_and_success Samples.post_test Samples.fresh).
  discriminate.
Defined.

Lemma handler_preflight_and_unknown_verbs_witness :
  handler (mkReq "PATCH" (VObj []) VUndefined) Samples.fresh
  = (mkRes 405 corsHeaders
           (VObj [("success", VBool false);
                  ("error", VStr "Method not allowed")]),
     Samples.fresh).
Proof.
  destruct (handler_preflight_and_unknown_verbs (VObj []) VUndefined
              Samples.fresh) as [_ H].
  apply H. simpl. intuition discriminate.
Defined.

Lemma handler_without_body_witness :
  handler (mkReq "PUT" (VObj [("id", VStr "1")]) VUndefined) Samples.stocked
  = (mkRes 500 corsHeaders
           (VObj [("success", VBool false);
                  ("error", VStr "Internal server error");
                  ("message",
                   VStr "Cannot destructure property 'name' of 'req.body' as it is undefined.")]),
     Samples.stocked)
  /\ res_json (fst (handler (mkReq "POST" (VObj []) VNull) Samples.fresh))
     = VObj [("success", VBool false);
             ("error", VStr "Internal server error");
             ("message",
              VStr "Cannot destructure property 'name' of 'req.body' as it is null.")].
Proof.
  split.
  - apply (handler_without_body "PUT" [("id", VStr "1")] VUndefined
             Samples.stocked); [right|]; reflexivity.
  - rewrite (handler_without_body "POST" [] VNull Samples.fresh
               (or_introl eq_refl) eq_refl).
    reflexivity.
Defined.

Lemma handleGet_loses_nothing_witness :
  exists t',
    products (snd (handler (mkReq "GET" (VObj [("search", VStr "way")])
                                 VUndefined)
                           Samples.stocked)) = Some t'
    /\ grows (Samples.stocked_table_or_empty Samples.stocked) t'.
Proof.
  apply (handleGet_loses_nothing (VObj [("search", VStr "way")]) VUndefined
           Samples.stocked).
  vm_compute. reflexivity.
Defined.

Lemma handleGet_migrates_witness :
  (exists t',
      products (snd (handler Samples.get_all Samples.fresh)) = Some t'
      /\ has_product_columns t' = true)
  /\ comments (snd (handler Samples.get_all Samples.fresh)) = true.
Proof.
  pose proof (handleGet_migrates (VObj []) VUndefined Samples.fresh
                (fun _ _ => eq_refl) (or_introl eq_refl)) as H.
  cbv zeta in H. destruct H as (H1 & H2 & _).
  split; [exact H1|exact H2].
Defined.

Lemma handleGet_idle_on_migrated_table_witness :
  products (snd (handler (mkReq "GET" (VObj [("category", VStr "sunglasses")])
                               VUndefined)
                         Samples.stocked))
  = Some (Samples.stocked_table_or_empty Samples.stocked).
Proof.
  apply handleGet_idle_on_migrated_table; [vm_compute; reflexivity|].
  intros s c Hs Hc. unfold add_column_statements in Hs. simpl in Hs.
  repeat (destruct Hs as [<-|Hs];
          [injection Hc as <-; vm_compute; reflexivity|]).
  contradiction.
Defined.

Lemma handlePost_creates_the_row_witness :
  (exists row,
      fst (handler (mkReq "POST" (VObj [])
                          (VObj [("name", VStr "Round"); ("price", VNum 45);
                                 ("featured", VNull)]))
                   Samples.stocked)
      = mkRes 201 corsHeaders
              (VObj [("success", VBool true); ("data", VObj row);
                     ("message", VStr "Product created successfully")])
      /\ field "id" row = VNum 3
      /\ field "name" row = VStr "Round"
      /\ field "price" row = VNum 45
      /\ field "status" row = VStr "active"
      /\ field "featured" row = VNull
      /\ field "bestseller" row = VBool false
      /\ field "brand" row = VNull)
  /\ res_status
       (fst (handler (mkReq "POST" (VObj []) (VObj [("name", VStr "Round")]))
                     Samples.stocked)) = 500
  /\ products
       (snd (handler (mkReq "POST" (VObj []) (VObj [("name", VStr "Round")]))
                     Samples.stocked))
     = products Samples.stocked.
Proof.
  destruct stocked_migrated as (Ht & Hc & Hob & _). split.
  - pose proof (handlePost_creates_the_row (VObj [])
                  [("name", VStr "Round"); ("price", VNum 45);
                   ("featured", VNull)]
                  Samples.stocked _ Ht Hc Hob) as H.
    cbv zeta in H. destruct H as (_ & H & _).
    destruct (H eq_refl eq_refl eq_refl)
      as (row & E & _ & _ & (Hid & _ & _ & Hf)).
    exists row. split; [exact E|].
    split; [rewrite Hid; vm_compute; reflexivity|].
    split; [exact (Hf "name" ltac:(unfold product_fields; simpl; tauto))|].
    split; [exact (Hf "price" ltac:(unfold product_fields; simpl; tauto))|].
    split; [exact (Hf "status" ltac:(unfold product_fields; simpl; tauto))|].
    split; [exact (Hf "featured" ltac:(unfold product_fields; simpl; tauto))|].
    split; [exact (Hf "bestseller" ltac:(unfold product_fields; simpl; tauto))|].
    exact (Hf "brand" ltac:(unfold product_fields; simpl; tauto)).
  - pose proof (handlePost_creates_the_row (VObj []) [("name", VStr "Round")]
                  Samples.stocked _ Ht Hc Hob) as H.
    cbv zeta in H. destruct H as (_ & _ & H).
    destruct (H (or_intror eq_refl)) as (E1 & _ & E2).
    split; [exact E1|]. rewrite E2. symmetry. exact Ht.
Defined.

Lemma handleGet_by_id_witness :
  res_status
    (fst (handler (mkReq "GET" (VObj [("id", VStr "2")]) VUndefined)
                  Samples.stocked)) = 200
  /\ res_status
       (fst (handler (mkReq "GET" (VObj [("id", VStr "9")]) VUndefined)
                     Samples.stocked)) = 404.
Proof.
  destruct stocked_migrated as (Ht & Hc & Hob & _). split.
  - destruct (handleGet_by_id [("id", VStr "2")] VUndefined (VStr "2")
                Samples.stocked _ Ht Hc Hob eq_refl eq_refl) as [H _].
    rewrite H. vm_compute. reflexivity.
  - destruct (handleGet_by_id [("id", VStr "9")] VUndefined (VStr "9")
                Samples.stocked _ Ht Hc Hob eq_refl eq_refl) as [H _].
    rewrite H. vm_compute. reflexivity.
Defined.

Lemma handler_keeps_ids_witness :
  well_keyed (snd (handler Samples.post_test
                     (snd (handler Samples.get_all Samples.fresh)))).
Proof.
  apply (handler_keeps_ids Samples.post_test).
  apply (handler_keeps_ids Samples.get_all Samples.fresh).
  exact I.
Defined.

Lemma post_then_get_by_id_witness :
  exists row,
    fst (handler (mkReq "POST" (VObj [])
                        (VObj [("name", VStr "Round"); ("price", VNum 45)]))
                 Samples.stocked)
    = mkRes 201 corsHeaders
            (VObj [("success", VBool true); ("data", VObj row);
                   ("message", VStr "Product created successfully")])
    /\ fst (handler
              (mkReq "GET"
                     (VObj [("id", VStr (dec (next_id Samples.stocked)))])
                     VUndefined)
              (snd (handler (mkReq "POST" (VObj [])
                                   (VObj [("name", VStr "Round");
                                          ("price", VNum 45)]))
                            Samples.stocked)))
       = mkRes 200 corsHeaders
               (VObj [("success", VBool true); ("data", VObj row)]).
Proof.
  destruct stocked_migrated as (Ht & Hc & Hob & Hkey).
  exact (post_then_get_by_id (VObj []) VUndefined
           [("name", VStr "Round"); ("price", VNum 45)]
           Samples.stocked _ Ht Hc Hob Hkey eq_refl eq_refl eq_refl).
Defined.

Lemma delete_is_final_witness :
  res_status
    (fst (handler (mkReq "DELETE" (VObj [("id", VStr "1")]) VUndefined)
                  (snd (handler (mkReq "DELETE" (VObj [("id", VStr "1")])
                                       VUndefined)
                                Samples.stocked)))) = 404.
Proof.
  destruct stocked_migrated as (Ht & _ & Hob & _).
  pose proof (delete_is_final [("id", VStr "1")] VUndefined (VStr "1")
                Samples.stocked _ eq_refl eq_refl Ht Hob) as H.
  cbv zeta in H. destruct H as (_ & H & _). exact H.
Defined.

Lemma handlePut_touches_one_id_witness :
  exists t',
    products (snd (handler (mkReq "PUT" (VObj [("id", VStr "2")])
                                  (VObj [("price", VNum 99)]))
                           Samples.stocked)) = Some t'
    /\ map (field "id") (rows t')
       = map (field "id")
             (rows (Samples.stocked_table_or_empty Samples.stocked)).
Proof.
  destruct ServerProofs.stocked_ready as (Ht & Hc & Hob).
  pose proof (handlePut_touches_one_id [("id", VStr "2")] [("price", VNum 99)]
                Samples.stocked _ Ht Hc Hob) as H.
  cbv zeta in H. destruct H as (t' & H1 & _ & _ & H4 & _).
  exists t'. split; [exact H1|exact H4].
Defined.

Lemma handleGet_all_witness :
  exists listed,
    fst (handler Samples.get_all Samples.stocked)
    = mkRes 200 corsHeaders
            (VObj [("success", VBool true); ("data", rows_json listed);
                   ("count",
                    VNum (Z.of_nat
                            (List.length
                               (rows (Samples.stocked_table_or_empty
                                        Samples.stocked)))));
                   ("source", VStr "neon")])
    /\ Permutation listed (rows (Samples.stocked_table_or_empty Samples.stocked))
    /\ StronglySorted not_older listed.
Proof.
  destruct stocked_migrated as (Ht & Hc & Hob & _).
  apply (handleGet_all [] VUndefined Samples.stocked _ Ht Hc Hob);
    reflexivity.
Defined.

End ServerMore.
